(** * renterd: the sector pruning pass of the bus ([bus/pruning.go])

    A shallow embedding of the method [pruneContract] of [Bus] together with
    the API types it returns ([api.ContractPruneResponse],
    [api.ContractSpendingRecord]).  The host RPC client, the gouging checker
    and the contract store are collaborators of the function: every call to
    one of them is logged, with its arguments and its answer, in a trace that
    the function threads through, and the answers are given by an
    environment that may depend on everything that happened before.

    The contract lock, of which the sources hold only the endpoint types,
    follows the specification (module [ContractLock]). *)

From Stdlib Require Import ZArith Lia Sorted.
From stdpp Require Import base list gmap strings.

Local Open Scope Z_scope.

(** ** Machine integers *)

(** Go's [uint64] arithmetic wraps around modulo [2^64]. *)
Definition wrap64 (z : Z) : Z := z mod 2 ^ 64.

(** The values a [uint64] can hold. *)
Definition uint64 (z : Z) : Prop := 0 <= z < 2 ^ 64.

(** Go's [len], an [int]. *)
Definition len {A : Type} (l : list A) : Z := Z.of_nat (length l).

(** The largest [int]: no Go slice is longer. *)
Definition MaxInt : Z := 2 ^ 63 - 1.

(** ** Types of [go.sia.tech/core/types] read by the function *)

(** [types.Hash256], [types.FileContractID] and [types.PublicKey] are 32-byte
    arrays, used here only as keys: each is its 256-bit value. *)
Definition Hash256 : Type := Z.
Definition FileContractID : Type := Z.
Definition PublicKey : Type := Z.

(** [types.Currency] is an unsigned 128-bit amount. *)
Definition Currency : Type := Z.

(** [Currency.IsZero]. *)
Definition IsZero (c : Currency) : bool := c =? 0.

(** A Go [error] value, by its message. *)
Definition error : Type := string.

(** A Go [(value, err)] pair returned by a collaborator. *)
Inductive result (A : Type) : Type :=
| Success (a : A)
| Failure (err : error).
Arguments Success {A} a.
Arguments Failure {A} err.

(** The fields of a contract revision ([types.V2FileContract]) that
    [pruneContract] reads; [MissedHostValue] stands for
    [rev.MissedHostOutput().Value] and [RenterOutputValue] for
    [rev.RenterOutput.Value]. *)
Record V2FileContract : Type := {
  RevisionNumber : Z;
  Filesize : Z;
  MissedHostValue : Currency;
  RenterOutputValue : Currency;
}.

(** [cRHP4.ContractRevision]. *)
Record ContractRevision : Type := {
  cr_ID : FileContractID;
  cr_Revision : V2FileContract;
}.

(** ** The protocol library [go.sia.tech/core/rhp/v4]

    Its usage type, its settings and its two constants are not part of this
    repository; they are taken as parameters. *)
Class Rhp4 : Type := {
  Usage : Type;
  HostSettings : Type;
  HostPrices : Type;
  (** [settings.Prices] *)
  Prices : HostSettings -> HostPrices;
  (** the zero value of [rhpv4.Usage] *)
  Usage_zero : Usage;
  (** [Usage.Add] *)
  Usage_Add : Usage -> Usage -> Usage;
  (** [Usage.RenterCost] *)
  RenterCost : Usage -> Currency;
  (** [rhpv4.SectorSize] *)
  SectorSize : Z;
  (** [rhpv4.MaxSectorBatchSize] *)
  MaxSectorBatchSize : Z;
}.

(** ** API types ([api] package) *)

(** The fields of [api.ContractMetadata] that [pruneContract] reads. *)
Record ContractMetadata : Type := {
  cm_ID : FileContractID;
  cm_HostKey : PublicKey;
  cm_RevisionNumber : Z;
}.

(** [api.ContractSpending]. *)
Record ContractSpending : Type := {
  Deletions : Currency;
  FundAccount : Currency;
  SectorRoots : Currency;
  Uploads : Currency;
}.

(** [api.ContractSpendingRecord]. *)
Record ContractSpendingRecord : Type := {
  csr_ContractSpending : ContractSpending;
  csr_ContractID : FileContractID;
  csr_RevisionNumber : Z;
  csr_Size : Z;
  csr_MissedHostPayout : Currency;
  csr_ValidRenterPayout : Currency;
}.

(** [api.ContractPruneResponse]. *)
Record ContractPruneResponse : Type := {
  ContractSize : Z;
  Pruned : Z;
  Remaining : Z;
  Error : string;
}.

(** Modelled from the spec: the verdict of the gouging checker
    ([internal/gouging] is not among the sources), which "exposes whether
    gouging was detected and a human-readable explanation". *)
Record GougingBreakdown : Type := {
  Gouging : bool;
  String : string;
}.

(** ** Errors of [pruneContract]

    One constructor per [fmt.Errorf] of the function, in source order. *)
Inductive PruneError : Type :=
| ErrFetchRevision (cause : error)
| ErrStaleRevision (latest known : Z)
| ErrFetchPrices (cause : error)
| ErrHostGouging (reason : string)
| ErrFetchSectors (cause : error)
| ErrPrunableRoots (cause : error)
| ErrFreeSectors (cause : error).

(** How a run ends: [Return] is [return resp, nil]; [Fail e] is
    [return api.ContractPruneResponse{}, e]; [Panic] is a run-time panic
    (an index out of range); [OutOfFuel] means that the enumeration loop was
    still running when the fuel was used up. *)
Inductive outcome (A : Type) : Type :=
| Return (a : A)
| Fail (e : PruneError)
| Panic
| OutOfFuel.
Arguments Return {A} a.
Arguments Fail {A} e.
Arguments Panic {A}.
Arguments OutOfFuel {A}.

Section Pruning.

Context `{Rhp4}.

(** [cRHP4.RPCSectorRootsResult]. *)
Record RPCSectorRootsResult : Type := {
  sr_Revision : V2FileContract;
  sr_Roots : list Hash256;
  sr_Usage : Usage;
}.

(** [cRHP4.RPCFreeSectorsResult]. *)
Record RPCFreeSectorsResult : Type := {
  fs_Revision : V2FileContract;
  fs_Usage : Usage;
}.

(** ** Calls to the collaborators

    One event per call, holding the arguments the claims speak about and the
    answer. *)
Inductive Event : Type :=
| EvLatestRevision (hk : PublicKey) (hostIP : string) (id : FileContractID)
    (r : result V2FileContract)
| EvSettings (hk : PublicKey) (hostIP : string) (r : result HostSettings)
| EvSectorRoots (hk : PublicKey) (hostIP : string) (prices : HostPrices)
    (cr : ContractRevision) (offset length : Z)
    (r : result RPCSectorRootsResult)
| EvPrunableContractRoots (id : FileContractID) (roots : list Hash256)
    (r : result (list Z))
| EvFreeSectors (hk : PublicKey) (hostIP : string) (prices : HostPrices)
    (cr : ContractRevision) (indices : list Z)
    (r : result RPCFreeSectorsResult)
| EvRecordContractSpending (records : list ContractSpendingRecord).

(** The host ([b.rhp4Client]) and the store ([b.store]): each answer is a
    function of the calls made so far and of the arguments. *)
Record Env : Type := {
  hostLatestRevision :
    list Event -> PublicKey -> string -> FileContractID ->
    result V2FileContract;
  hostSettings : list Event -> PublicKey -> string -> result HostSettings;
  hostSectorRoots :
    list Event -> PublicKey -> string -> HostPrices -> ContractRevision ->
    Z -> Z -> result RPCSectorRootsResult;
  storePrunableContractRoots :
    list Event -> FileContractID -> list Hash256 -> result (list Z);
  hostFreeSectors :
    list Event -> PublicKey -> string -> HostPrices -> ContractRevision ->
    list Z -> result RPCFreeSectorsResult;
}.

(** ** The monad: a trace of calls and an outcome *)

Definition M (A : Type) : Type := list Event -> outcome A * list Event.

Definition ret {A : Type} (a : A) : M A := fun tr => (Return a, tr).

Definition fail {A : Type} (e : PruneError) : M A := fun tr => (Fail e, tr).

Definition bind {A B : Type} (m : M A) (k : A -> M B) : M B :=
  fun tr =>
    match m tr with
    | (Return a, tr') => k a tr'
    | (Fail e, tr') => (Fail e, tr')
    | (Panic, tr') => (Panic, tr')
    | (OutOfFuel, tr') => (OutOfFuel, tr')
    end.

(** A computation that calls nobody. *)
Definition lift {A : Type} (o : outcome A) : M A := fun tr => (o, tr).

Notation "'let*' x ':=' m 'in' k" := (bind m (fun x => k))
  (at level 10, x pattern, m at level 100, k at level 200).

Variable env : Env.

Definition LatestRevision (hk : PublicKey) (hostIP : string)
    (id : FileContractID) : M (result V2FileContract) :=
  fun tr =>
    let r := hostLatestRevision env tr hk hostIP id in
    (Return r, tr ++ [EvLatestRevision hk hostIP id r]).

Definition Settings (hk : PublicKey) (hostIP : string) :
    M (result HostSettings) :=
  fun tr =>
    let r := hostSettings env tr hk hostIP in
    (Return r, tr ++ [EvSettings hk hostIP r]).

Definition RPCSectorRoots (hk : PublicKey) (hostIP : string)
    (prices : HostPrices) (cr : ContractRevision) (offset length : Z) :
    M (result RPCSectorRootsResult) :=
  fun tr =>
    let r := hostSectorRoots env tr hk hostIP prices cr offset length in
    (Return r, tr ++ [EvSectorRoots hk hostIP prices cr offset length r]).

Definition PrunableContractRoots (id : FileContractID)
    (roots : list Hash256) : M (result (list Z)) :=
  fun tr =>
    let r := storePrunableContractRoots env tr id roots in
    (Return r, tr ++ [EvPrunableContractRoots id roots r]).

Definition FreeSectors (hk : PublicKey) (hostIP : string)
    (prices : HostPrices) (cr : ContractRevision) (indices : list Z) :
    M (result RPCFreeSectorsResult) :=
  fun tr =>
    let r := hostFreeSectors env tr hk hostIP prices cr indices in
    (Return r, tr ++ [EvFreeSectors hk hostIP prices cr indices r]).

(** The error that [RecordContractSpending] returns is dropped by the
    caller. *)
Definition RecordContractSpending (records : list ContractSpendingRecord) :
    M unit :=
  fun tr => (Return tt, tr ++ [EvRecordContractSpending records]).

(** ** The enumeration loop (pruning.go, lines 43-68)

    [for offset := uint64(0); offset < numsectors; { ... }].  One unit of
    fuel per iteration.  [sectorRoots] starts empty: the [make] of line 41
    only reserves room for [numsectors] roots. *)
Fixpoint fetchRoots (fuel : nat) (cm : ContractMetadata) (hostIP : string)
    (prices : HostPrices) (numsectors offset : Z) (rev : V2FileContract)
    (sectorRoots : list Hash256) (rootsUsage : Usage) :
    M (V2FileContract * list Hash256 * Usage) :=
  if offset <? numsectors then
    match fuel with
    | O => lift OutOfFuel
    | S fuel' =>
        let length := MaxSectorBatchSize in
        let length :=
          if wrap64 (offset + length) >? numsectors
          then wrap64 (numsectors - offset) else length in
        let* r := RPCSectorRoots (cm_HostKey cm) hostIP prices
                    {| cr_ID := cm_ID cm; cr_Revision := rev |}
                    offset length in
        match r with
        | Failure err => fail (ErrFetchSectors err)
        | Success res =>
            fetchRoots fuel' cm hostIP prices numsectors
              (wrap64 (offset + len (sr_Roots res)))
              (sr_Revision res)
              (sectorRoots ++ sr_Roots res)
              (Usage_Add rootsUsage (sr_Usage res))
        end
    end
  else ret (rev, sectorRoots, rootsUsage).

(** ** The exclusion of pending uploads (lines 77-83)

    [toPrune := indices[:0]] shares the backing array of [indices]: the
    loop reads [arr[i]] and [append] writes [arr[k]], for [k <= i], in the
    same array.  [todo] counts the elements of the range still to visit.
    The result is the backing array and the length of [toPrune].
    [sectorRoots[index]] panics when the index is out of range. *)
Fixpoint excludePending (sectorRoots : list Hash256)
    (pendingUploads : gset Hash256) (todo i k : nat) (arr : list Z) :
    outcome (nat * list Z) :=
  match todo with
  | O => Return (k, arr)
  | S todo' =>
      match arr !! i with
      | None => Panic
      | Some index =>
          match sectorRoots !! Z.to_nat index with
          | None => Panic
          | Some root =>
              if decide (root ∈ pendingUploads)
              then excludePending sectorRoots pendingUploads todo' (S i) k arr
              else excludePending sectorRoots pendingUploads todo' (S i) (S k)
                     (<[k:=index]> arr)
          end
      end
  end.

(** ** After the enumeration (lines 70-128)

    The rest of [pruneContract], from the query of the store on: [rev],
    [sectorRoots] and [rootsUsage] are the variables as the enumeration
    loop left them. *)
Definition pruneRoots (cm : ContractMetadata) (hostIP : string)
    (prices : HostPrices) (pendingUploads : gset Hash256)
    (rev : V2FileContract) (sectorRoots : list Hash256)
    (rootsUsage : Usage) : M ContractPruneResponse :=
  (* fetch indices to prune *)
  let* p := PrunableContractRoots (cm_ID cm) sectorRoots in
  match p with
  | Failure err => fail (ErrPrunableRoots err)
  | Success indices =>
  (* avoid pruning pending uploads *)
  let* (k, arr) :=
    lift (excludePending sectorRoots pendingUploads (length indices)
            0%nat 0%nat indices) in
  let toPrune := take k arr in
  let totalToPrune := len toPrune in
  (* cap at max batch size *)
  let batchSize := MaxSectorBatchSize in
  let batchSize :=
    if batchSize >? len toPrune then len toPrune else batchSize in
  let toPrune := take (Z.to_nat batchSize) toPrune in
  (* prune the batch *)
  let* f := FreeSectors (cm_HostKey cm) hostIP prices
              {| cr_ID := cm_ID cm; cr_Revision := rev |} toPrune in
  match f with
  | Failure err => fail (ErrFreeSectors err)
  | Success res =>
  let deleteUsage := fs_Usage res in
  let rev := fs_Revision res in
  (* record spending *)
  let* _ :=
    if negb (IsZero (RenterCost (Usage_Add rootsUsage deleteUsage)))
    then RecordContractSpending
           [ {| csr_ContractSpending :=
                  {| Deletions := RenterCost deleteUsage;
                     FundAccount := 0;
                     SectorRoots := RenterCost rootsUsage;
                     Uploads := 0 |};
                csr_ContractID := cm_ID cm;
                csr_RevisionNumber := RevisionNumber rev;
                csr_Size := Filesize rev;
                csr_MissedHostPayout := MissedHostValue rev;
                csr_ValidRenterPayout := RenterOutputValue rev |} ]
    else ret tt in
  ret {| ContractSize := Filesize rev;
         Pruned := wrap64 (len toPrune * SectorSize);
         Remaining := wrap64 (wrap64 (totalToPrune - len toPrune) * SectorSize);
         Error := EmptyString |}
  end end.

(** ** [pruneContract] (lines 16-129)

    The two checks, the enumeration loop, then [pruneRoots]. *)
Definition pruneContract (fuel : nat) (cm : ContractMetadata)
    (hostIP : string) (gc : HostSettings -> GougingBreakdown)
    (pendingUploads : gset Hash256) : M ContractPruneResponse :=
  (* get latest revision *)
  let* r := LatestRevision (cm_HostKey cm) hostIP (cm_ID cm) in
  match r with
  | Failure err => fail (ErrFetchRevision err)
  | Success rev =>
  if RevisionNumber rev <? cm_RevisionNumber cm
  then fail (ErrStaleRevision (RevisionNumber rev) (cm_RevisionNumber cm))
  else
  (* get prices *)
  let* s := Settings (cm_HostKey cm) hostIP in
  match s with
  | Failure err => fail (ErrFetchPrices err)
  | Success settings =>
  let prices := Prices settings in
  (* make sure they are sane *)
  let gb := gc settings in
  if Gouging gb then fail (ErrHostGouging (String gb)) else
  (* fetch all contract roots *)
  let numsectors := Filesize rev / SectorSize in
  let* (rev, sectorRoots, rootsUsage) :=
    fetchRoots fuel cm hostIP prices numsectors 0 rev [] Usage_zero in
  pruneRoots cm hostIP prices pendingUploads rev sectorRoots rootsUsage
  end end.

End Pruning.

Arguments Event {_}.
Arguments Env {_}.
Arguments RPCSectorRootsResult {_}.
Arguments RPCFreeSectorsResult {_}.

(** ** The library at its real constants

    [rhpv4.SectorSize] is [1 << 22] (4 MiB) and [rhpv4.MaxSectorBatchSize]
    is [(1 << 40) / SectorSize].  A usage is held by its renter cost and a
    host's settings by their prices: enough to run the function. *)
Definition core_rhp4 : Rhp4 := {|
  Usage := Z;
  HostSettings := Z;
  HostPrices := Z;
  Prices := fun s => s;
  Usage_zero := 0;
  Usage_Add := Z.add;
  RenterCost := fun u => u;
  SectorSize := 2 ^ 22;
  MaxSectorBatchSize := 2 ^ 40 / 2 ^ 22;
|}.

(** ** The enumeration as the specification describes it *)

Section Enumeration.

Context `{Rhp4}.

(** The constants are compile-time constants of type [int]: the sector is
    larger than a byte, a batch holds at least one sector, and a batch of
    sectors has a size in bytes that fits an [int]. *)
Definition GoConstants : Prop :=
  1 < SectorSize /\ 0 < MaxSectorBatchSize /\
  MaxSectorBatchSize * SectorSize <= MaxInt.

(** Every slice of roots that the host client returns is a Go slice: its
    length fits an [int]. *)
Definition GoSlices (env : Env) : Prop :=
  forall tr hk hostIP prices cr offset length res,
    hostSectorRoots env tr hk hostIP prices cr offset length = Success res ->
    len (sr_Roots res) <= MaxInt.

(** Every revision that the host client returns holds its file size in a
    [uint64]. *)
Definition GoRevisions (env : Env) : Prop :=
  forall tr hk hostIP id rev,
    hostLatestRevision env tr hk hostIP id = Success rev ->
    uint64 (Filesize rev).

(** A page requested with a length other than zero that was answered with
    at least one root (any other call counts as such). *)
Definition answersWithRoots (ev : Event) : Prop :=
  match ev with
  | EvSectorRoots _ _ _ _ _ length (Success res) =>
      length <> 0 -> 1 <= len (sr_Roots res)
  | _ => True
  end.

(** The roots that one page brought. *)
Definition pageRoots (ev : Event) : list Hash256 :=
  match ev with
  | EvSectorRoots _ _ _ _ _ _ (Success res) => sr_Roots res
  | _ => []
  end.

(** All the roots of a sequence of pages, in order. *)
Definition collected (pages : list Event) : list Hash256 :=
  concat (map pageRoots pages).

(** The usage of a sequence of pages, added page after page to [acc]. *)
Fixpoint spent (acc : Usage) (pages : list Event) : Usage :=
  match pages with
  | [] => acc
  | EvSectorRoots _ _ _ _ _ _ (Success res) :: pages' =>
      spent (Usage_Add acc (sr_Usage res)) pages'
  | _ :: pages' => spent acc pages'
  end.

(** The revision that the last page returned ([rev] when there is none). *)
Fixpoint lastRevision (rev : V2FileContract) (pages : list Event) :
    V2FileContract :=
  match pages with
  | [] => rev
  | EvSectorRoots _ _ _ _ _ _ (Success res) :: pages' =>
      lastRevision (sr_Revision res) pages'
  | _ :: pages' => lastRevision rev pages'
  end.

(** A sequence of page requests as the specification wants them, starting
    at [offset] with revision [rev]: each request is made while sectors
    remain, asks for the smaller of the batch size and what remains, starts
    where the roots received so far end, and carries the revision that the
    previous page returned; a failed page is the last one. *)
Fixpoint Pages (cm : ContractMetadata) (hostIP : string)
    (prices : HostPrices) (numsectors offset : Z) (rev : V2FileContract)
    (pages : list Event) : Prop :=
  match pages with
  | [] => True
  | EvSectorRoots hk ip p cr off length r :: pages' =>
      hk = cm_HostKey cm /\ ip = hostIP /\ p = prices /\
      offset < numsectors /\
      off = offset /\
      length = Z.min MaxSectorBatchSize (numsectors - offset) /\
      cr = {| cr_ID := cm_ID cm; cr_Revision := rev |} /\
      match r with
      | Success res =>
          Pages cm hostIP prices numsectors (offset + len (sr_Roots res))
            (sr_Revision res) pages'
      | Failure _ => pages' = []
      end
  | _ => False
  end.

(** A page that brought no more roots than it was asked for. *)
Definition pageWithin (ev : Event) : Prop :=
  match ev with
  | EvSectorRoots _ _ _ _ _ length (Success res) =>
      len (sr_Roots res) <= length
  | _ => True
  end.

(** A call for a page of roots. *)
Definition isSectorRoots (ev : Event) : bool :=
  match ev with
  | EvSectorRoots _ _ _ _ _ _ _ => true
  | _ => false
  end.

End Enumeration.

(** ** The exclusion as the specification describes it *)

(** An index whose root is known and is not being written by an upload. *)
Definition notPending (sectorRoots : list Hash256)
    (pendingUploads : gset Hash256) (index : Z) : Prop :=
  match sectorRoots !! Z.to_nat index with
  | Some root => root ∉ pendingUploads
  | None => False
  end.

#[global] Instance notPending_dec sectorRoots pendingUploads index :
  Decision (notPending sectorRoots pendingUploads index).
Proof.
  unfold notPending. destruct (sectorRoots !! Z.to_nat index); apply _.
Defined.

(** An index that is a position of [sectorRoots]. *)
Definition inRange (sectorRoots : list Hash256) (index : Z) : Prop :=
  is_Some (sectorRoots !! Z.to_nat index).

#[global] Instance inRange_dec sectorRoots index :
  Decision (inRange sectorRoots index).
Proof. unfold inRange. apply _. Defined.

(** The candidates left after the exclusion, then after the cap. *)
Definition candidates (sectorRoots : list Hash256)
    (pendingUploads : gset Hash256) (indices : list Z) : list Z :=
  filter (notPending sectorRoots pendingUploads) indices.

Definition capped `{Rhp4} (toPrune : list Z) : list Z :=
  take (Z.to_nat (Z.min MaxSectorBatchSize (len toPrune))) toPrune.

(** ** A pass and what it leaves behind *)

Section Pass.

Context `{Rhp4}.

(** A pass of [pruneContract] on a fresh log of calls: how it ends and the
    calls it made, in order. *)
Definition run (env : Env) (fuel : nat) (cm : ContractMetadata)
    (hostIP : string) (gc : HostSettings -> GougingBreakdown)
    (pendingUploads : gset Hash256) :
    outcome ContractPruneResponse * list Event :=
  pruneContract env fuel cm hostIP gc pendingUploads [].

(** The spending records handed to the store. *)
Fixpoint recorded (calls : list Event) : list ContractSpendingRecord :=
  match calls with
  | [] => []
  | EvRecordContractSpending records :: calls' => records ++ recorded calls'
  | _ :: calls' => recorded calls'
  end.

(** The renter cost of each page of roots that the host served. *)
Fixpoint pageCosts (calls : list Event) : list Currency :=
  match calls with
  | [] => []
  | EvSectorRoots _ _ _ _ _ _ (Success res) :: calls' =>
      RenterCost (sr_Usage res) :: pageCosts calls'
  | _ :: calls' => pageCosts calls'
  end.

(** The sum of a list of amounts. *)
Definition total (costs : list Currency) : Currency := foldr Z.add 0 costs.

(** The library's renter cost is additive (it is a sum of the amounts of a
    usage, and [Usage.Add] adds amount by amount). *)
Definition AdditiveCost : Prop :=
  RenterCost Usage_zero = 0 /\
  forall u v, RenterCost (Usage_Add u v) = RenterCost u + RenterCost v.

(** A call that the host charges for. *)
Definition isPaid (ev : Event) : bool :=
  match ev with
  | EvSectorRoots _ _ _ _ _ _ _ | EvFreeSectors _ _ _ _ _ _ => true
  | _ => false
  end.

(** A call that deletes sectors. *)
Definition isFreeSectors (ev : Event) : bool :=
  match ev with
  | EvFreeSectors _ _ _ _ _ _ => true
  | _ => false
  end.

(** A write to the store. *)
Definition isRecord (ev : Event) : bool :=
  match ev with
  | EvRecordContractSpending _ => true
  | _ => false
  end.

(** A call of the two checks or of the enumeration: one made before the
    store is asked for the prunable roots. *)
Definition beforeStore (ev : Event) : bool :=
  match ev with
  | EvLatestRevision _ _ _ _ | EvSettings _ _ _
  | EvSectorRoots _ _ _ _ _ _ _ => true
  | _ => false
  end.

(** The record of a pass (lines 108-121). *)
Definition spendingRecord (cm : ContractMetadata) (rev : V2FileContract)
    (rootsUsage deleteUsage : Usage) : ContractSpendingRecord :=
  {| csr_ContractSpending :=
       {| Deletions := RenterCost deleteUsage;
          FundAccount := 0;
          SectorRoots := RenterCost rootsUsage;
          Uploads := 0 |};
     csr_ContractID := cm_ID cm;
     csr_RevisionNumber := RevisionNumber rev;
     csr_Size := Filesize rev;
     csr_MissedHostPayout := MissedHostValue rev;
     csr_ValidRenterPayout := RenterOutputValue rev |}.

(** The calls of the two checks when both succeed. *)
Definition checks (cm : ContractMetadata) (hostIP : string)
    (rev : V2FileContract) (settings : HostSettings) : list Event :=
  [EvLatestRevision (cm_HostKey cm) hostIP (cm_ID cm) (Success rev);
   EvSettings (cm_HostKey cm) hostIP (Success settings)].

(** The response of a pass that deleted [deleted] out of the candidates
    [cand] and was left with revision [rev] (lines 124-128). *)
Definition response (rev : V2FileContract) (cand deleted : list Z) :
    ContractPruneResponse :=
  {| ContractSize := Filesize rev;
     Pruned := wrap64 (len deleted * SectorSize);
     Remaining := wrap64 (wrap64 (len cand - len deleted) * SectorSize);
     Error := EmptyString |}.

(** The ways a pass can go, with the calls of each: it stops during the
    checks or the enumeration; the store fails; an index of the store is
    out of range; the deletion fails; the deletion succeeds.  [pages] are
    the calls of the enumeration. *)
Inductive Pass (cm : ContractMetadata) (hostIP : string)
    (pendingUploads : gset Hash256) :
    outcome ContractPruneResponse -> list Event -> Prop :=
| pass_stopped o calls :
    forallb beforeStore calls = true ->
    (forall resp, o <> Return resp) ->
    Pass cm hostIP pendingUploads o calls
| pass_store_failed rev settings pages err :
    forallb isSectorRoots pages = true ->
    Pass cm hostIP pendingUploads (Fail (ErrPrunableRoots err))
      (checks cm hostIP rev settings ++ pages ++
       [EvPrunableContractRoots (cm_ID cm) (collected pages) (Failure err)])
| pass_panicked rev settings pages indices :
    forallb isSectorRoots pages = true ->
    ~ Forall (inRange (collected pages)) indices ->
    Pass cm hostIP pendingUploads Panic
      (checks cm hostIP rev settings ++ pages ++
       [EvPrunableContractRoots (cm_ID cm) (collected pages) (Success indices)])
| pass_free_failed rev settings pages indices err :
    forallb isSectorRoots pages = true ->
    Forall (inRange (collected pages)) indices ->
    Pass cm hostIP pendingUploads (Fail (ErrFreeSectors err))
      (checks cm hostIP rev settings ++ pages ++
       [EvPrunableContractRoots (cm_ID cm) (collected pages) (Success indices);
        EvFreeSectors (cm_HostKey cm) hostIP (Prices settings)
          {| cr_ID := cm_ID cm; cr_Revision := lastRevision rev pages |}
          (capped (candidates (collected pages) pendingUploads indices))
          (Failure err)])
| pass_done rev settings pages indices res :
    forallb isSectorRoots pages = true ->
    Forall (inRange (collected pages)) indices ->
    let cand := candidates (collected pages) pendingUploads indices in
    let rootsUsage := spent Usage_zero pages in
    Pass cm hostIP pendingUploads
      (Return (response (fs_Revision res) cand (capped cand)))
      (checks cm hostIP rev settings ++ pages ++
       [EvPrunableContractRoots (cm_ID cm) (collected pages) (Success indices);
        EvFreeSectors (cm_HostKey cm) hostIP (Prices settings)
          {| cr_ID := cm_ID cm; cr_Revision := lastRevision rev pages |}
          (capped cand) (Success res)] ++
       (if IsZero (RenterCost (Usage_Add rootsUsage (fs_Usage res)))
        then []
        else [EvRecordContractSpending
                [spendingRecord cm (fs_Revision res) rootsUsage
                   (fs_Usage res)]])).

End Pass.

(** * Scenarios

    Hosts and stores to run the pass against, at the real constants. *)

Section Scenarios.

Local Existing Instance core_rhp4.

Definition cm0 : ContractMetadata :=
  {| cm_ID := 1; cm_HostKey := 2; cm_RevisionNumber := 5 |}.

(** A revision of a contract of [sectors] sectors. *)
Definition revision (number sectors : Z) : V2FileContract :=
  {| RevisionNumber := number; Filesize := sectors * 2 ^ 22;
     MissedHostValue := 100; RenterOutputValue := 200 |}.

(** The revision that a host returns after a paid call. *)
Definition revised (rev : V2FileContract) : V2FileContract :=
  {| RevisionNumber := RevisionNumber rev + 1; Filesize := Filesize rev;
     MissedHostValue := MissedHostValue rev;
     RenterOutputValue := RenterOutputValue rev |}.

(** A checker with a fixed verdict. *)
Definition checker (gouging : bool) : HostSettings -> GougingBreakdown :=
  fun _ => {| Gouging := gouging;
              String := if gouging then "storage price too high" else EmptyString |}.

(** A host and a store: the host reports revision [rev], serves the page
    [page offset length] at the cost [pageUsage], and answers a deletion
    with [free]; the store reports the indices [prunable]. *)
Definition world (rev : V2FileContract)
    (page : Z -> Z -> result (list Hash256)) (pageUsage : Usage)
    (prunable : result (list Z)) (free : result Usage) : Env :=
  {| hostLatestRevision := fun _ _ _ _ => Success rev;
     hostSettings := fun _ _ _ => Success 7;
     hostSectorRoots := fun _ _ _ _ cr offset length =>
       match page offset length with
       | Success roots =>
           Success {| sr_Revision := revised (cr_Revision cr);
                      sr_Roots := roots; sr_Usage := pageUsage |}
       | Failure err => Failure err
       end;
     storePrunableContractRoots := fun _ _ _ => prunable;
     hostFreeSectors := fun _ _ _ _ cr _ =>
       match free with
       | Success usage =>
           Success {| fs_Revision := revised (cr_Revision cr);
                      fs_Usage := usage |}
       | Failure err => Failure err
       end |}.

(** A host that serves the roots [stored] as asked. *)
Definition serve (stored : list Hash256) (offset length : Z) :
    result (list Hash256) :=
  Success (take (Z.to_nat length) (drop (Z.to_nat offset) stored)).


(** Four sectors; the store reports the first three as unreferenced and the
    second is being uploaded. *)
Definition fourSectors : Env :=
  world (revision 5 4) (serve [10; 11; 12; 13]) 3 (Success [0; 1; 2])
    (Success 2).

(** The host reports a revision older than the one of the metadata. *)
Definition staleHost : Env :=
  world (revision 4 4) (serve [10; 11; 12; 13]) 3 (Success [0; 1; 2])
    (Success 2).


(** One sector, enumerated at a cost, and a deletion that fails. *)
Definition deletionFails : Env :=
  world (revision 5 1) (serve [10]) 5 (Success [0])
    (Failure "host unreachable").

(** Two sectors; the first page is served, at a cost, and the second
    fails. *)
Definition secondPageFails : Env :=
  world (revision 5 2)
    (fun offset _ =>
       if offset =? 0 then Success [10] else Failure "connection reset")
    5 (Success [0]) (Success 2).

(** One sector and a host that answers every page with no root. *)
Definition emptyPages : Env :=
  world (revision 5 1) (fun _ _ => Success []) 0 (Success []) (Success 0).

(** One sector, and a store that reports one candidate more than a batch
    holds (the same index again and again). *)
Definition capExceeded : Env :=
  world (revision 5 1) (serve [10]) 1
    (Success (replicate (Z.to_nat (2 ^ 18 + 1)) 0)) (Success 1).

(** The settings that the hosts of the scenarios return, their prices, and
    the calls of the two checks against the host of [fourSectors]. *)
Definition settings7 : HostSettings := 7.

Definition prices7 : HostPrices := 7.

Definition fourSectorsChecks : list Event :=
  checks cm0 "host" (revision 5 4) settings7.

(** The deletion call of a pass against [fourSectors] while the root [11]
    is being uploaded. *)
Definition fourSectorsDeletion : Event :=
  EvFreeSectors 2 "host" prices7
    {| cr_ID := 1; cr_Revision := revised (revision 5 4) |} [0; 2]
    (Success {| fs_Revision := revised (revised (revision 5 4));
                fs_Usage := 2 |}).

(** The response of that pass. *)
Definition fourSectorsResponse : ContractPruneResponse :=
  {| ContractSize := 4 * 2 ^ 22; Pruned := 2 * 2 ^ 22; Remaining := 0;
     Error := EmptyString |}.

End Scenarios.

(** * The contract lock *)

Module ContractLock.

(* The sources hold only the request and response types of the endpoints
   of the lock ([api.ContractAcquireRequest], [api.ContractKeepaliveRequest],
   [api.ContractReleaseRequest]); the lock itself follows section 4.1 of the
   specification.  The model is the lock of one contract identifier.  Its
   operations are atomic (section 9 has it guarded by a single internal
   mutex), so that a concurrent history is a sequence of operations; time is
   a clock that [Tick] advances. *)

(** Modelled from the spec: a lease that was granted (the contract lock is
    not among the sources), with its token, when it expires, and whether
    it was released. *)
Record Lease : Type := {
  token : Z;
  expiry : Z;
  released : bool;
}.

(** Modelled from the spec: a caller blocked in [Acquire] (the wait queue
    of the contract lock is not among the sources). *)
Record Waiter : Type := {
  w_priority : Z;
  w_arrival : Z;
  w_duration : Z;
  w_deadline : Z;
}.

(** Modelled from the spec: the state of the contract lock (not among the
    sources), that is the clock, every lease granted so far, the queue of
    waiters, and the next fresh token. *)
Record State : Type := {
  now : Z;
  leases : list Lease;
  waiters : list Waiter;
  fresh : Z;
}.

(** Modelled from the spec: the contract lock (not among the sources) when
    created, free and without waiters. *)
Definition init : State :=
  {| now := 0; leases := []; waiters := []; fresh := 0 |}.

(** Modelled from the spec: when a lease of the contract lock (not among
    the sources) is held, "a lease is either held (not yet expired, not
    released) or free". *)
Definition held (t : Z) (l : Lease) : bool :=
  negb (released l) && (t <? expiry l).

(** Modelled from the spec: the number of leases of the contract lock (not
    among the sources) that are held at time [t]. *)
Fixpoint outstanding (t : Z) (ls : list Lease) : nat :=
  match ls with
  | [] => O
  | l :: ls' => ((if held t l then 1 else 0) + outstanding t ls')%nat
  end.

(** Modelled from the spec: the order of the waiters of the contract lock
    (not among the sources), "waiters for the same contract are ordered by
    priority (numerically higher served first), ties broken by arrival
    order". *)
Definition before (a b : Waiter) : bool :=
  (w_priority b <? w_priority a) ||
  ((w_priority a =? w_priority b) && (w_arrival a <=? w_arrival b)).

(** Modelled from the spec: the waiter of the contract lock (not among the
    sources) that is served first. *)
Fixpoint best (ws : list Waiter) : option Waiter :=
  match ws with
  | [] => None
  | w :: ws' =>
      match best ws' with
      | None => Some w
      | Some w' => if before w w' then Some w else Some w'
      end
  end.

(** Modelled from the spec: a grant of the contract lock (not among the
    sources), with a fresh token and the expiry clock started at the
    duration of the lease from the time of the grant. *)
Definition grant (st : State) (duration : Z) : State :=
  {| now := now st;
     leases := {| token := fresh st; expiry := now st + duration;
                  released := false |} :: leases st;
     waiters := waiters st;
     fresh := fresh st + 1 |}.

(** Modelled from the spec: the wake-up of the contract lock (not among the
    sources); when the contract is free, the first waiter in the order is
    granted the lease. *)
Definition dispatch (st : State) : State :=
  if (outstanding (now st) (leases st) =? 0)%nat then
    match best (waiters st) with
    | Some w =>
        grant {| now := now st; leases := leases st;
                 waiters :=
                   List.filter
                     (fun w' => negb (w_arrival w' =? w_arrival w))
                     (waiters st);
                 fresh := fresh st |}
              (w_duration w)
    | None => st
    end
  else st.

(** Modelled from the spec: the operations of the contract lock (not among
    the sources), and the passing of time.  [Acquire] grants at once when
    the contract is free and queues the caller otherwise; [Keepalive]
    extends a held lease and nothing else; [Release] frees a held lease and
    wakes the first waiter; [Tick] lets leases expire and waiters time
    out. *)
Inductive Op : Type :=
| Acquire (maxWait leaseDuration priority : Z)
| Keepalive (leaseToken extension : Z)
| Release (leaseToken : Z)
| Tick (elapsed : nat).

(** Modelled from the spec: one operation of the contract lock (not among
    the sources). *)
Definition step (st : State) (op : Op) : State :=
  match op with
  | Acquire maxWait leaseDuration priority =>
      dispatch
        {| now := now st; leases := leases st;
           waiters :=
             waiters st ++
             [{| w_priority := priority; w_arrival := fresh st;
                 w_duration := leaseDuration;
                 w_deadline := now st + maxWait |}];
           fresh := fresh st + 1 |}
  | Keepalive leaseToken extension =>
      {| now := now st;
         leases :=
           map (fun l =>
                  if (token l =? leaseToken) && held (now st) l
                  then {| token := token l; expiry := now st + extension;
                          released := false |}
                  else l)
               (leases st);
         waiters := waiters st;
         fresh := fresh st |}
  | Release leaseToken =>
      dispatch
        {| now := now st;
           leases :=
             map (fun l =>
                    if (token l =? leaseToken) && held (now st) l
                    then {| token := token l; expiry := expiry l;
                            released := true |}
                    else l)
                 (leases st);
           waiters := waiters st;
           fresh := fresh st |}
  | Tick elapsed =>
      let t := now st + Z.of_nat elapsed in
      dispatch
        {| now := t; leases := leases st;
           waiters := List.filter (fun w => t <=? w_deadline w) (waiters st);
           fresh := fresh st |}
  end.

(** Modelled from the spec: the state of the contract lock (not among the
    sources) after a history of operations. *)
Definition after (history : list Op) : State := fold_left step history init.

End ContractLock.

(** * More about a pass *)

Section PassMore.

Context `{Rhp4}.

(** The errors of the two checks (lines 20-37). *)
Definition isCheckError (e : PruneError) : bool :=
  match e with
  | ErrFetchRevision _ | ErrStaleRevision _ _ | ErrFetchPrices _
  | ErrHostGouging _ => true
  | _ => false
  end.

(** A call to the store. *)
Definition isStoreCall (ev : Event) : bool :=
  match ev with
  | EvPrunableContractRoots _ _ _ | EvRecordContractSpending _ => true
  | _ => false
  end.

(** A page that was served with exactly as many roots as were asked for. *)
Definition pageExact (ev : Event) : Prop :=
  match ev with
  | EvSectorRoots _ _ _ _ _ length (Success res) =>
      len (sr_Roots res) = length
  | _ => False
  end.

End PassMore.

(** * Contract spending ([api] package, lines 183-195) *)

(** The values a [types.Currency] can hold. *)
Definition isCurrency (c : Currency) : Prop := 0 <= c < 2 ^ 128.

(** [types.Currency.Add] of [go.sia.tech/core]: the sum, or a panic ([None])
    when the sum does not fit 128 bits. *)
Definition Currency_Add (c v : Currency) : option Currency :=
  if c + v <? 2 ^ 128 then Some (c + v) else None.

(** [ContractSpending.Total]:
    [x.Uploads.Add(x.FundAccount).Add(x.Deletions).Add(x.SectorRoots)]. *)
Definition ContractSpending_Total (x : ContractSpending) : option Currency :=
  match Currency_Add (Uploads x) (FundAccount x) with
  | None => None
  | Some a =>
      match Currency_Add a (Deletions x) with
      | None => None
      | Some b => Currency_Add b (SectorRoots x)
      end
  end.

(** [ContractSpending.Add], category by category in the order of the
    source. *)
Definition ContractSpending_Add (x y : ContractSpending) :
    option ContractSpending :=
  match Currency_Add (Uploads x) (Uploads y) with
  | None => None
  | Some uploads =>
  match Currency_Add (FundAccount x) (FundAccount y) with
  | None => None
  | Some fundAccount =>
  match Currency_Add (Deletions x) (Deletions y) with
  | None => None
  | Some deletions =>
  match Currency_Add (SectorRoots x) (SectorRoots y) with
  | None => None
  | Some sectorRoots =>
      Some {| Deletions := deletions; FundAccount := fundAccount;
              SectorRoots := sectorRoots; Uploads := uploads |}
  end end end end.

(** A spending whose four amounts are currencies. *)
Definition GoSpending (x : ContractSpending) : Prop :=
  isCurrency (Deletions x) /\ isCurrency (FundAccount x) /\
  isCurrency (SectorRoots x) /\ isCurrency (Uploads x).

(** The zero value of [api.ContractSpending]. *)
Definition noSpending : ContractSpending :=
  {| Deletions := 0; FundAccount := 0; SectorRoots := 0; Uploads := 0 |}.

(** The four amounts of a spending, summed in the integers. *)
Definition spendingSum (x : ContractSpending) : Z :=
  Uploads x + FundAccount x + Deletions x + SectorRoots x.

(** * The wallet maintainer ([autopilot/walletmaintainer]) *)

(** [types.Currency.Mul64] of [go.sia.tech/core]: the product, or a panic
    ([None]) when it does not fit 128 bits. *)
Definition Currency_Mul64 (c : Currency) (v : Z) : option Currency :=
  if c * v <? 2 ^ 128 then Some (c * v) else None.

(** [types.Currency.Div]: the quotient, or a panic ([None]) when the divisor
    is zero. *)
Definition Currency_Div (c v : Currency) : option Currency :=
  if v =? 0 then None else Some (c / v).

(** [types.Currency.Cmp]: [-1], [0] or [1]. *)
Definition Currency_Cmp (c v : Currency) : Z :=
  match c ?= v with
  | Lt => -1
  | Eq => 0
  | Gt => 1
  end.

(** [c.Big().Uint64()]: the low 64 bits of the amount. *)
Definition Currency_Uint64 (c : Currency) : Z := wrap64 c.

(** The conversion [int(n)] of a [uint64]. *)
Definition toInt (n : Z) : Z := if n <? 2 ^ 63 then n else n - 2 ^ 64.

Definition TransactionID : Type := Z.

(** The fields of [api.WalletResponse] that the maintainer reads. *)
Record WalletResponse : Type := {
  wr_Confirmed : Currency;
  wr_Address : Z;
}.

(** The fields of the maintainer ([walletMaintainer]) apart from its
    collaborators, its logger and its mutex. *)
Record walletMaintainer : Type := {
  minNumOutputs : Z;
  desiredNumOutputs : Z;
  maintenanceTxnIDs : list TransactionID;
}.

(** [WithNumOutputs]. *)
Definition WithNumOutputs (minOutputs desiredOutputs : Z) :
    walletMaintainer -> walletMaintainer :=
  fun w =>
    {| minNumOutputs := minOutputs; desiredNumOutputs := desiredOutputs;
       maintenanceTxnIDs := maintenanceTxnIDs w |}.

(** [New]: the defaults, then the options in order. *)
Definition New (opts : list (walletMaintainer -> walletMaintainer)) :
    walletMaintainer :=
  fold_left (fun w opt => opt w) opts
    {| minNumOutputs := 10; desiredNumOutputs := 100;
       maintenanceTxnIDs := [] |}.

(** The errors that [PerformWalletMaintenance] returns. *)
Inductive MaintenanceError : Type :=
| ErrFetchWallet (cause : error)
| ErrRedistribute (outputs : Z) (amount balance : Currency) (cause : error).

(** How a maintenance ends: [return err] or a panic. *)
Inductive MaintenanceOutcome : Type :=
| Maintained (err : option MaintenanceError)
| MaintenancePanic.

(** The calls of a maintenance to the bus and to the alerter, with their
    answers.  [WmRegisterAlert] holds the arguments of
    [newAccountLowBalanceAlert]; [DismissAlerts] is always called for the
    low-balance alert. *)
Inductive WmEvent : Type :=
| WmWallet (r : result WalletResponse)
| WmRegisterAlert (address : Z) (balance funding : Currency)
    (err : option error)
| WmDismissAlerts (err : option error)
| WmWalletPending (r : result (list Hash256))
| WmWalletRedistribute (outputs : Z) (amount : Currency)
    (r : result (list TransactionID)).

(** The bus and the alerter: each answer is a function of the calls made so
    far and of the arguments.  A pending transaction is held by its
    identifier, the only field read. *)
Record WmEnv : Type := {
  busWallet : list WmEvent -> result WalletResponse;
  alerterRegisterAlert :
    list WmEvent -> Z -> Currency -> Currency -> option error;
  alerterDismissAlerts : list WmEvent -> option error;
  busWalletPending : list WmEvent -> result (list Hash256);
  busWalletRedistribute :
    list WmEvent -> Z -> Currency -> result (list TransactionID);
}.

(** The two nested loops of lines 91-98: is a pending transaction one of
    the maintenance transactions? *)
Definition pendingMaintenance (pending : list Hash256)
    (ids : list TransactionID) : bool :=
  existsb (fun txn => existsb (fun mTxnID => mTxnID =? txn) ids) pending.

Section WalletMaintenance.

(** [contractor.InitialContractFunding], a constant of a package that is not
    among the sources. *)
Variable InitialContractFunding : Currency.

Variable env : WmEnv.

(** [PerformWalletMaintenance] (lines 61-123), on the log [tr] of earlier
    calls; [contracts] is [cfg.Contracts.Amount].  The result holds the
    maintainer after the call: the only assignment to
    [maintenanceTxnIDs], at line 119, is to the local variable of line 83,
    not to the field. *)
Definition PerformWalletMaintenance (w : walletMaintainer) (contracts : Z)
    (tr : list WmEvent) :
    MaintenanceOutcome * walletMaintainer * list WmEvent :=
  let r := busWallet env tr in
  let tr := tr ++ [WmWallet r] in
  match r with
  | Failure err => (Maintained (Some (ErrFetchWallet err)), w, tr)
  | Success wallet =>
  (* register an alert if balance is low *)
  let balance := wr_Confirmed wallet in
  match Currency_Mul64 InitialContractFunding contracts with
  | None => (MaintenancePanic, w, tr)
  | Some needed =>
  let tr :=
    if Currency_Cmp balance needed <? 0
    then tr ++ [WmRegisterAlert (wr_Address wallet) balance
                  InitialContractFunding
                  (alerterRegisterAlert env tr (wr_Address wallet) balance
                     InitialContractFunding)]
    else tr ++ [WmDismissAlerts (alerterDismissAlerts env tr)] in
  let localTxnIDs := maintenanceTxnIDs w in
  (* pending maintenance transaction - nothing to do *)
  let p := busWalletPending env tr in
  let tr := tr ++ [WmWalletPending p] in
  match p with
  | Failure _ => (Maintained None, w, tr)
  | Success pending =>
  if pendingMaintenance pending localTxnIDs then (Maintained None, w, tr)
  else
  (* calculate number of outputs *)
  let amount := InitialContractFunding in
  match Currency_Div balance amount with
  | None => (MaintenancePanic, w, tr)
  | Some quotient =>
  let numOutputs := Z.min (Currency_Uint64 quotient) (desiredNumOutputs w) in
  (* skip maintenance if wallet balance is too low *)
  if numOutputs <? minNumOutputs w then (Maintained None, w, tr) else
  (* redistribute outputs *)
  let rd := busWalletRedistribute env tr (toInt numOutputs) amount in
  let tr := tr ++ [WmWalletRedistribute (toInt numOutputs) amount rd] in
  match rd with
  | Failure err =>
      (Maintained (Some (ErrRedistribute (toInt numOutputs) amount balance
                           err)), w, tr)
  | Success ids =>
      let localTxnIDs := ids in
      (Maintained None, w, tr)
  end end end end end.

End WalletMaintenance.

(** A call to the alerter. *)
Definition isAlertCall (ev : WmEvent) : bool :=
  match ev with
  | WmRegisterAlert _ _ _ _ | WmDismissAlerts _ => true
  | _ => false
  end.

(** A redistribution. *)
Definition isRedistribute (ev : WmEvent) : bool :=
  match ev with
  | WmWalletRedistribute _ _ _ => true
  | _ => false
  end.

(** An option made by [WithNumOutputs], the only option of the package's
    file. *)
Definition isNumOutputsOption (opt : walletMaintainer -> walletMaintainer) :
    Prop :=
  exists minOutputs desiredOutputs,
    opt = WithNumOutputs minOutputs desiredOutputs.

(** * The SQL store ([stores/sql.go]) *)

(** The calls of [Close] to the parts of the store, with the error each
    returned ([None] for [nil]). *)
Inductive SqlEvent : Type :=
| SqlShutdownCtxCancel
| SqlSlabBufferMgrClose (err : option error)
| SqlDbClose (err : option error)
| SqlDbMetricsClose (err : option error).

(** The buffer manager and the two databases: each answer is a function of
    the calls made so far. *)
Record SqlEnv : Type := {
  slabBufferMgrClose : list SqlEvent -> option error;
  dbClose : list SqlEvent -> option error;
  dbMetricsClose : list SqlEvent -> option error;
}.

(** [SQLStore.Close] (lines 141-162), on a store whose field [closed] holds
    [closed]: the error returned, the field afterwards and the calls. *)
Definition SQLStore_Close (env : SqlEnv) (closed : bool) :
    option error * bool * list SqlEvent :=
  let tr := [SqlShutdownCtxCancel] in
  let err := slabBufferMgrClose env tr in
  let tr := tr ++ [SqlSlabBufferMgrClose err] in
  match err with
  | Some e => (Some e, closed, tr)
  | None =>
  let err := dbClose env tr in
  let tr := tr ++ [SqlDbClose err] in
  match err with
  | Some e => (Some e, closed, tr)
  | None =>
  let err := dbMetricsClose env tr in
  let tr := tr ++ [SqlDbMetricsClose err] in
  match err with
  | Some e => (Some e, closed, tr)
  | None => (None, true, tr)
  end end end.

(** The error that a call of [Close] logged. *)
Definition closeError (ev : SqlEvent) : option error :=
  match ev with
  | SqlShutdownCtxCancel => None
  | SqlSlabBufferMgrClose err | SqlDbClose err | SqlDbMetricsClose err => err
  end.

(** The two loops that [initPruneLoops] starts. *)
Inductive PruneLoop : Type :=
| pruneHostSectorLoop
| pruneSlabsLoop.

(** The calls of [NewSQLStore], with the error each returned, and the
    goroutines it starts. *)
Inductive NewStoreEvent : Type :=
| NsMkdirAll (dir : string) (err : option error)
| NsVersion (err : option error)
| NsMigrate (err : option error)
| NsMigrateMetrics (err : option error)
| NsChainIndex (err : option error)
| NsNewSlabBufferManager (dir : string) (err : option error)
| NsGo (loop : PruneLoop).

(** The file system, the two databases and the constructor of the buffer
    manager: each answer is a function of the calls made so far. *)
Record NewStoreEnv : Type := {
  osMkdirAll : list NewStoreEvent -> string -> option error;
  dbMainVersion : list NewStoreEvent -> option error;
  dbMainMigrate : list NewStoreEvent -> option error;
  dbMetricsMigrate : list NewStoreEvent -> option error;
  ssChainIndex : list NewStoreEvent -> option error;
  newSlabBufferManager : list NewStoreEvent -> string -> option error;
}.

(** The errors of [NewSQLStore]: four are wrapped in a message of its own,
    the last two are returned as they are. *)
Inductive NewStoreError : Type :=
| ErrCreatePartialSlabDir (dir : string) (cause : error)
| ErrFetchDbVersion (cause : error)
| ErrMigrations (cause : error)
| ErrMetricsMigrations (cause : error)
| ErrUnwrapped (cause : error).

(** [initPruneLoops] (lines 127-138). *)
Definition initPruneLoops (tr : list NewStoreEvent) : list NewStoreEvent :=
  let tr := tr ++ [NsGo pruneHostSectorLoop] in
  tr ++ [NsGo pruneSlabsLoop].

(** [NewSQLStore] (lines 69-125) for a configuration with the directory
    [PartialSlabDir] and the flag [Migrate]: the error returned ([None]
    when the store is) and the calls. *)
Definition NewSQLStore (env : NewStoreEnv) (PartialSlabDir : string)
    (Migrate : bool) : option NewStoreError * list NewStoreEvent :=
  let err := osMkdirAll env [] PartialSlabDir in
  let tr := [NsMkdirAll PartialSlabDir err] in
  match err with
  | Some e => (Some (ErrCreatePartialSlabDir PartialSlabDir e), tr)
  | None =>
  (* Print DB version *)
  let err := dbMainVersion env tr in
  let tr := tr ++ [NsVersion err] in
  match err with
  | Some e => (Some (ErrFetchDbVersion e), tr)
  | None =>
  (* Perform migrations. *)
  let migrated :=
    if Migrate then
      let err := dbMainMigrate env tr in
      let tr := tr ++ [NsMigrate err] in
      match err with
      | Some e => (Some (ErrMigrations e), tr)
      | None =>
          let err := dbMetricsMigrate env tr in
          let tr := tr ++ [NsMigrateMetrics err] in
          match err with
          | Some e => (Some (ErrMetricsMigrations e), tr)
          | None => (None, tr)
          end
      end
    else (None, tr) in
  match migrated with
  | (Some e, tr) => (Some e, tr)
  | (None, tr) =>
  (* init consensus_infos *)
  let err := ssChainIndex env tr in
  let tr := tr ++ [NsChainIndex err] in
  match err with
  | Some e => (Some (ErrUnwrapped e), tr)
  | None =>
  let err := newSlabBufferManager env tr PartialSlabDir in
  let tr := tr ++ [NsNewSlabBufferManager PartialSlabDir err] in
  match err with
  | Some e => (Some (ErrUnwrapped e), tr)
  | None => (None, initPruneLoops tr)
  end end end end end.

(** A goroutine that was started. *)
Definition isGo (ev : NewStoreEvent) : bool :=
  match ev with
  | NsGo _ => true
  | _ => false
  end.

(** A migration of one of the two databases. *)
Definition isMigration (ev : NewStoreEvent) : bool :=
  match ev with
  | NsMigrate _ | NsMigrateMetrics _ => true
  | _ => false
  end.

(** The error that a call of [NewSQLStore] logged. *)
Definition newStoreError (ev : NewStoreEvent) : option error :=
  match ev with
  | NsMkdirAll _ err | NsVersion err | NsMigrate err | NsMigrateMetrics err
  | NsChainIndex err | NsNewSlabBufferManager _ err => err
  | NsGo _ => None
  end.

(** * Further scenarios *)

Section MoreScenarios.

Local Existing Instance core_rhp4.


(** The call to the store of a pass against [fourSectors]. *)
Definition fourSectorsStore : Event :=
  EvPrunableContractRoots 1 [10; 11; 12; 13] (Success [0; 1; 2]).

(** The record of a pass against [fourSectors] while the root [11] is being
    uploaded. *)
Definition fourSectorsRecord : ContractSpendingRecord :=
  {| csr_ContractSpending :=
       {| Deletions := 2; FundAccount := 0; SectorRoots := 3; Uploads := 0 |};
     csr_ContractID := 1; csr_RevisionNumber := 7;
     csr_Size := 4 * 2 ^ 22; csr_MissedHostPayout := 100;
     csr_ValidRenterPayout := 200 |}.

End MoreScenarios.

(** Three spendings, the last with an amount that overflows when doubled. *)
Definition spendingA : ContractSpending :=
  {| Deletions := 1; FundAccount := 2; SectorRoots := 3; Uploads := 4 |}.

Definition spendingB : ContractSpending :=
  {| Deletions := 10; FundAccount := 20; SectorRoots := 30; Uploads := 40 |}.

Definition spendingC : ContractSpending :=
  {| Deletions := 2 ^ 127; FundAccount := 0; SectorRoots := 0;
     Uploads := 0 |}.

(** A wallet with a confirmed balance of 1000. *)
Definition wallet1000 : WalletResponse :=
  {| wr_Confirmed := 1000; wr_Address := 9 |}.

(** A bus that serves [wallet1000], answers a redistribution with the
    transaction [77], and reports that transaction as pending once a
    redistribution was made; the alerter never fails. *)
Definition bus1000 : WmEnv :=
  {| busWallet := fun _ => Success wallet1000;
     alerterRegisterAlert := fun _ _ _ _ => None;
     alerterDismissAlerts := fun _ => None;
     busWalletPending := fun tr =>
       Success (if existsb isRedistribute tr then [77] else []);
     busWalletRedistribute := fun _ _ _ => Success [77] |}.

(** The options of a maintainer that keeps between 10 and 100 outputs. *)
Definition tenToHundred : list (walletMaintainer -> walletMaintainer) :=
  [WithNumOutputs 10 100].

(** The calls of a first maintenance against [bus1000], for a funding of
    10 and 5 contracts. *)
Definition firstMaintenance : list WmEvent :=
  [WmWallet (Success wallet1000); WmDismissAlerts None;
   WmWalletPending (Success []);
   WmWalletRedistribute 100 10 (Success [77])].

(** * Properties *)

Section PruningProperties.

Context `{Rhp4}.
Variable env : Env.

(** ** Arithmetic of machine integers *)

Lemma wrap64_small (z : Z) : 0 <= z < 2 ^ 64 -> wrap64 z = z.
Proof. intros Hz. unfold wrap64. apply Z.mod_small. exact Hz. Qed.

Lemma len_nonneg {A : Type} (l : list A) : 0 <= len l.
Proof. unfold len. lia. Qed.

Lemma len_app {A : Type} (l1 l2 : list A) : len (l1 ++ l2) = len l1 + len l2.
Proof. unfold len. rewrite length_app. lia. Qed.

Lemma numsectors_bound (filesize : Z) :
  GoConstants -> uint64 filesize ->
  0 <= filesize / SectorSize <= 2 ^ 63.
Proof.
  intros (Hs & _ & _) [Hlo Hhi]. split.
  - apply Z.div_pos; lia.
  - assert (filesize / SectorSize <= filesize / 2) as Hle
      by (apply Z.div_le_compat_l; lia).
    assert (filesize / 2 < 2 ^ 63) by (apply Z.div_lt_upper_bound; lia).
    lia.
Qed.

Lemma batch_bound : GoConstants -> 0 < MaxSectorBatchSize < 2 ^ 62.
Proof. unfold GoConstants, MaxInt. intros (Hs & Hb & Hm). nia. Qed.

(** ** The enumeration loop *)

(** One iteration: the request, then the loop again from where the roots
    received end. *)
Lemma fetchRoots_step fuel cm hostIP prices numsectors offset rev roots usage tr :
  offset < numsectors ->
  let length :=
    if wrap64 (offset + MaxSectorBatchSize) >? numsectors
    then wrap64 (numsectors - offset) else MaxSectorBatchSize in
  let r := hostSectorRoots env tr (cm_HostKey cm) hostIP prices
             {| cr_ID := cm_ID cm; cr_Revision := rev |} offset length in
  let tr' := tr ++ [EvSectorRoots (cm_HostKey cm) hostIP prices
                      {| cr_ID := cm_ID cm; cr_Revision := rev |}
                      offset length r] in
  fetchRoots env (S fuel) cm hostIP prices numsectors offset rev roots usage tr =
  match r with
  | Failure err => (Fail (ErrFetchSectors err), tr')
  | Success res =>
      fetchRoots env fuel cm hostIP prices numsectors
        (wrap64 (offset + len (sr_Roots res))) (sr_Revision res)
        (roots ++ sr_Roots res) (Usage_Add usage (sr_Usage res)) tr'
  end.
Proof.
  intros Hlt. cbn zeta. simpl fetchRoots.
  apply Z.ltb_lt in Hlt. rewrite Hlt.
  unfold bind, RPCSectorRoots.
  destruct (hostSectorRoots env tr _ _ _ _ _ _); reflexivity.
Qed.

Lemma fetchRoots_done fuel cm hostIP prices numsectors offset rev roots usage tr :
  numsectors <= offset ->
  fetchRoots env fuel cm hostIP prices numsectors offset rev roots usage tr =
  (Return (rev, roots, usage), tr).
Proof.
  intros Hge. apply Z.ltb_ge in Hge.
  destruct fuel; simpl; rewrite Hge; reflexivity.
Qed.

Lemma fetchRoots_no_fuel cm hostIP prices numsectors offset rev roots usage tr :
  offset < numsectors ->
  fetchRoots env 0 cm hostIP prices numsectors offset rev roots usage tr =
  (OutOfFuel, tr).
Proof. intros Hlt. apply Z.ltb_lt in Hlt. simpl. rewrite Hlt. reflexivity. Qed.

(** The length asked for is the smaller of the batch size and what remains. *)
Lemma page_length numsectors offset :
  GoConstants -> 0 <= offset < numsectors -> numsectors <= 2 ^ 63 ->
  (if wrap64 (offset + MaxSectorBatchSize) >? numsectors
   then wrap64 (numsectors - offset) else MaxSectorBatchSize) =
  Z.min MaxSectorBatchSize (numsectors - offset).
Proof.
  intros Hc Ho Hn. pose proof (batch_bound Hc) as Hb.
  rewrite wrap64_small by lia.
  destruct (Z.gtb_spec (offset + MaxSectorBatchSize) numsectors).
  - rewrite wrap64_small by lia. lia.
  - lia.
Qed.

(** The loop calls nobody but [SectorRoots]; it never panics, it fails only
    on a failed page, and it returns the roots, the usage and the revision
    of its pages. *)
Lemma fetchRoots_events cm hostIP prices numsectors fuel :
  forall offset rev roots usage tr,
    exists pages,
      snd (fetchRoots env fuel cm hostIP prices numsectors offset rev roots
             usage tr) = tr ++ pages /\
      forallb isSectorRoots pages = true /\
      recorded pages = [] /\
      match fst (fetchRoots env fuel cm hostIP prices numsectors offset rev
                   roots usage tr) with
      | Return (rev', roots', usage') =>
          roots' = roots ++ collected pages /\
          usage' = spent usage pages /\
          rev' = lastRevision rev pages
      | Fail e =>
          exists err, e = ErrFetchSectors err /\
            exists hk ip p cr off length,
              last pages = Some (EvSectorRoots hk ip p cr off length (Failure err))
      | Panic => False
      | OutOfFuel => True
      end.
Proof.
  induction fuel as [|fuel IH]; intros offset rev roots usage tr.
  - destruct (Z.lt_ge_cases offset numsectors) as [Hlt|Hge].
    + rewrite fetchRoots_no_fuel by assumption.
      exists []. simpl. rewrite app_nil_r. auto.
    + rewrite fetchRoots_done by assumption.
      exists []. unfold collected. simpl. rewrite !app_nil_r. repeat split; auto.
  - destruct (Z.lt_ge_cases offset numsectors) as [Hlt|Hge].
    2:{ rewrite fetchRoots_done by assumption.
        exists []. unfold collected. simpl. rewrite !app_nil_r.
        repeat split; auto. }
    rewrite fetchRoots_step by assumption. cbn zeta.
    set (length := if wrap64 (offset + MaxSectorBatchSize) >? numsectors
                   then wrap64 (numsectors - offset) else MaxSectorBatchSize).
    destruct (hostSectorRoots env tr (cm_HostKey cm) hostIP prices
                {| cr_ID := cm_ID cm; cr_Revision := rev |} offset length)
      as [res|err] eqn:Hr.
    + set (ev := EvSectorRoots (cm_HostKey cm) hostIP prices
                   {| cr_ID := cm_ID cm; cr_Revision := rev |} offset length
                   (Success res)).
      destruct (IH (wrap64 (offset + len (sr_Roots res))) (sr_Revision res)
                  (roots ++ sr_Roots res) (Usage_Add usage (sr_Usage res))
                  (tr ++ [ev])) as (pages & Htr & Hall & Hrec & Hout).
      exists (ev :: pages). split; [|split; [|split]].
      * rewrite Htr, <- app_assoc. reflexivity.
      * exact Hall.
      * exact Hrec.
      * destruct (fst (fetchRoots env fuel cm hostIP prices numsectors _ _ _ _ _))
          as [[[rev' roots'] usage']|e| |]; auto.
        -- destruct Hout as (Hroots & Husage & Hrev).
           unfold collected in *. simpl.
           rewrite <- app_assoc in Hroots. auto.
        -- destruct Hout as (err & He & hk & ip & p & cr & off & l & Hlast).
           exists err. split; [exact He|]. exists hk, ip, p, cr, off, l.
           destruct pages; [discriminate|]. exact Hlast.
    + eexists [_]. simpl. repeat split; eauto 10.
Qed.

(** What the loop does, whatever the host answers: the calls it makes are
    pages in the sense of [Pages]; when it completes, it returns the roots,
    the usage and the revision of its pages, and the roots cover the
    contract. *)
Lemma fetchRoots_spec cm hostIP prices numsectors :
  GoConstants -> GoSlices env -> numsectors <= 2 ^ 63 ->
  forall fuel offset rev roots usage tr,
    0 <= offset ->
    exists pages,
      snd (fetchRoots env fuel cm hostIP prices numsectors offset rev roots
             usage tr) = tr ++ pages /\
      Pages cm hostIP prices numsectors offset rev pages /\
      forallb isSectorRoots pages = true /\
      match fst (fetchRoots env fuel cm hostIP prices numsectors offset rev
                   roots usage tr) with
      | Return (rev', roots', usage') =>
          roots' = roots ++ collected pages /\
          usage' = spent usage pages /\
          rev' = lastRevision rev pages /\
          numsectors <= offset + len (collected pages) /\
          (Forall pageWithin pages -> offset <= numsectors ->
           offset + len (collected pages) = numsectors)
      | Fail e => exists err, e = ErrFetchSectors err
      | Panic => False
      | OutOfFuel => True
      end.
Proof.
  intros Hc Hs Hn fuel.
  pose proof (batch_bound Hc) as Hb.
  induction fuel as [|fuel IH]; intros offset rev roots usage tr Ho.
  - destruct (Z.lt_ge_cases offset numsectors) as [Hlt|Hge].
    + rewrite fetchRoots_no_fuel by assumption.
      exists []. simpl. rewrite app_nil_r. auto.
    + rewrite fetchRoots_done by assumption.
      exists []. unfold collected, len. simpl. rewrite !app_nil_r.
      repeat split; auto; lia.
  - destruct (Z.lt_ge_cases offset numsectors) as [Hlt|Hge].
    2:{ rewrite fetchRoots_done by assumption.
        exists []. unfold collected, len. simpl. rewrite !app_nil_r.
        repeat split; auto; lia. }
    rewrite fetchRoots_step by assumption. cbn zeta.
    rewrite page_length by (auto; lia).
    set (length := Z.min MaxSectorBatchSize (numsectors - offset)).
    destruct (hostSectorRoots env tr (cm_HostKey cm) hostIP prices
                {| cr_ID := cm_ID cm; cr_Revision := rev |} offset length)
      as [res|err] eqn:Hr.
    + pose proof (Hs _ _ _ _ _ _ _ _ Hr) as Hlen.
      pose proof (len_nonneg (sr_Roots res)) as Hlen0.
      unfold MaxInt in Hlen.
      rewrite wrap64_small by lia.
      set (ev := EvSectorRoots (cm_HostKey cm) hostIP prices
                   {| cr_ID := cm_ID cm; cr_Revision := rev |} offset length
                   (Success res)).
      destruct (IH (offset + len (sr_Roots res)) (sr_Revision res)
                  (roots ++ sr_Roots res) (Usage_Add usage (sr_Usage res))
                  (tr ++ [ev])) as (pages & Htr & Hp & Hall & Hout); [lia|].
      exists (ev :: pages). split; [|split; [|split]].
      * rewrite Htr, <- app_assoc. reflexivity.
      * simpl. repeat split; auto.
      * simpl. exact Hall.
      * destruct (fst (fetchRoots env fuel cm hostIP prices numsectors _ _ _ _ _))
          as [[[rev' roots'] usage']|e| |]; auto.
        destruct Hout as (Hroots & Husage & Hrev & Hcover & Hexact).
        unfold collected in *. simpl. rewrite len_app in *.
        rewrite <- app_assoc in Hroots.
        repeat split; auto; try lia.
        intros Hw _. apply Forall_cons in Hw as [Hw1 Hw].
        simpl in Hw1. specialize (Hexact Hw). lia.
    + exists [EvSectorRoots (cm_HostKey cm) hostIP prices
                {| cr_ID := cm_ID cm; cr_Revision := rev |} offset length
                (Failure err)].
      simpl. repeat split; eauto.
Qed.


(** ** The exclusion of pending uploads

    The filter runs in place, in the array of [indices]; it computes the
    same list as a filter into a fresh list. *)

Section Exclusion.

Variable sectorRoots : list Hash256.
Variable pendingUploads : gset Hash256.
Variable indices : list Z.

Lemma excludePending_inv (todo : nat) :
  forall (i k : nat) (arr : list Z),
    (i + todo)%nat = length indices -> (k <= i)%nat ->
    length arr = length indices -> drop i arr = drop i indices ->
    match excludePending sectorRoots pendingUploads todo i k arr with
    | Return (k', arr') =>
        take k' arr' =
          take k arr ++ filter (notPending sectorRoots pendingUploads)
                          (drop i indices) /\
        Forall (inRange sectorRoots) (drop i indices)
    | Panic => Exists (fun index => ~ inRange sectorRoots index) (drop i indices)
    | Fail _ | OutOfFuel => False
    end.
Proof.
  induction todo as [|todo IH]; intros i k arr Hi Hk Hlen Hdrop.
  - simpl. rewrite drop_ge by lia. rewrite filter_nil, app_nil_r. auto.
  - assert (is_Some (indices !! i)) as [index Hindex]
      by (apply lookup_lt_is_Some_2; lia).
    assert (arr !! i = Some index) as Harr.
    { rewrite <- Hindex.
      rewrite <- (Nat.add_0_r i) at 1. rewrite <- lookup_drop, Hdrop.
      rewrite lookup_drop. f_equal. lia. }
    rewrite (drop_S _ _ _ Hindex).
    simpl. rewrite Harr.
    assert (drop (S i) arr = drop (S i) indices) as Hdrop'.
    { rewrite (drop_S _ _ _ Hindex), (drop_S _ _ _ Harr) in Hdrop.
      congruence. }
    destruct (sectorRoots !! Z.to_nat index) as [root|] eqn:Hroot.
    + destruct (decide (root ∈ pendingUploads)) as [Hin|Hout].
      * specialize (IH (S i) k arr).
        destruct (excludePending sectorRoots pendingUploads todo (S i) k arr)
          as [[k' arr']| | |]; try (apply IH; auto; lia).
        destruct IH as [Htake Hall]; auto; try lia.
        split.
        -- rewrite filter_cons_False; [exact Htake|].
           unfold notPending. rewrite Hroot. auto.
        -- constructor; [|exact Hall]. unfold inRange. rewrite Hroot. eauto.
        -- apply Exists_cons_tl. apply IH; auto; lia.
      * specialize (IH (S i) (S k) (<[k:=index]> arr)).
        assert (take (S k) (<[k:=index]> arr) = take k arr ++ [index]) as Hsnoc.
        { rewrite (take_S_r _ _ index).
          - rewrite take_insert_ge by lia. reflexivity.
          - apply list_lookup_insert_eq. lia. }
        rewrite Hsnoc, length_insert, drop_insert_lt in IH by lia.
        destruct (excludePending sectorRoots pendingUploads todo (S i) (S k)
                    (<[k:=index]> arr))
          as [[k' arr']| | |]; try (apply IH; auto; lia).
        destruct IH as [Htake Hall]; auto; try lia.
        split.
        -- rewrite filter_cons_True by (unfold notPending; rewrite Hroot; auto).
           rewrite Htake, <- app_assoc. reflexivity.
        -- constructor; [|exact Hall]. unfold inRange. rewrite Hroot. eauto.
        -- apply Exists_cons_tl. apply IH; auto; lia.
    + apply Exists_cons_hd. unfold inRange. rewrite Hroot.
      intros [? ?]. discriminate.
Qed.

(** The slice [toPrune] after the loop is the list of the candidates whose
    root is not pending, in the order of [indices]. *)
Lemma excludePending_filter (k : nat) (arr : list Z) :
  excludePending sectorRoots pendingUploads (length indices) 0 0 indices =
    Return (k, arr) ->
  take k arr = candidates sectorRoots pendingUploads indices /\
  Forall (inRange sectorRoots) indices.
Proof.
  intros Hrun.
  pose proof (excludePending_inv (length indices) 0 0 indices) as Hinv.
  rewrite Hrun in Hinv. rewrite drop_0 in Hinv. apply Hinv; auto.
Qed.

(** The loop panics exactly on an index out of range, and ends otherwise. *)
Lemma excludePending_outcome :
  match excludePending sectorRoots pendingUploads (length indices) 0 0 indices with
  | Return _ => Forall (inRange sectorRoots) indices
  | Panic => Exists (fun index => ~ inRange sectorRoots index) indices
  | Fail _ | OutOfFuel => False
  end.
Proof.
  pose proof (excludePending_inv (length indices) 0 0 indices) as Hinv.
  rewrite drop_0 in Hinv.
  destruct (excludePending sectorRoots pendingUploads (length indices) 0 0 indices)
    as [[k arr]| | |]; try apply Hinv; auto.
Qed.

End Exclusion.

(** ** After the enumeration *)

Lemma batchSize_min (n : Z) :
  (if MaxSectorBatchSize >? n then n else MaxSectorBatchSize) =
  Z.min MaxSectorBatchSize n.
Proof. destruct (Z.gtb_spec MaxSectorBatchSize n); lia. Qed.

(** [pruneRoots], call by call: the query of the store, the panic on an
    index out of range, the deletion of the capped candidates, the record
    and the response. *)
Lemma pruneRoots_run cm hostIP prices pendingUploads rev roots usage tr :
  let p := storePrunableContractRoots env tr (cm_ID cm) roots in
  let tr1 := tr ++ [EvPrunableContractRoots (cm_ID cm) roots p] in
  pruneRoots env cm hostIP prices pendingUploads rev roots usage tr =
  match p with
  | Failure err => (Fail (ErrPrunableRoots err), tr1)
  | Success indices =>
      if decide (Forall (inRange roots) indices) then
        let cand := candidates roots pendingUploads indices in
        let deleted := capped cand in
        let cr := {| cr_ID := cm_ID cm; cr_Revision := rev |} in
        let f := hostFreeSectors env tr1 (cm_HostKey cm) hostIP prices cr
                   deleted in
        let tr2 :=
          tr1 ++ [EvFreeSectors (cm_HostKey cm) hostIP prices cr deleted f] in
        match f with
        | Failure err => (Fail (ErrFreeSectors err), tr2)
        | Success res =>
            (Return (response (fs_Revision res) cand deleted),
             tr2 ++
             (if IsZero (RenterCost (Usage_Add usage (fs_Usage res)))
              then []
              else [EvRecordContractSpending
                      [spendingRecord cm (fs_Revision res) usage
                         (fs_Usage res)]]))
        end
      else (Panic, tr1)
  end.
Proof.
  cbn zeta.
  unfold pruneRoots, bind, PrunableContractRoots, lift, FreeSectors,
    RecordContractSpending, ret, fail.
  destruct (storePrunableContractRoots env tr (cm_ID cm) roots)
    as [indices|err]; [|reflexivity].
  pose proof (excludePending_outcome roots pendingUploads indices) as Hout.
  pose proof (excludePending_filter roots pendingUploads indices) as Hfil.
  destruct (excludePending roots pendingUploads (length indices) 0 0 indices)
    as [[k arr]|e| |]; try contradiction.
  - destruct (Hfil k arr eq_refl) as [Htake _].
    destruct (decide (Forall (inRange roots) indices)) as [_|Hno];
      [|contradiction].
    rewrite Htake, batchSize_min. fold (capped (candidates roots pendingUploads indices)).
    destruct (hostFreeSectors env _ _ _ _ _ _) as [res|err]; [|reflexivity].
    destruct (IsZero _); simpl.
    + rewrite app_nil_r. reflexivity.
    + reflexivity.
  - destruct (decide (Forall (inRange roots) indices)) as [Hall|_];
      [|reflexivity].
    exfalso. apply Exists_exists in Hout as (index & Hin & Hno).
    rewrite Forall_forall in Hall. apply Hno, Hall. exact Hin.
Qed.

(** [pruneContract], call by call, up to the enumeration. *)
Lemma pruneContract_run fuel cm hostIP gc pendingUploads tr :
  let r := hostLatestRevision env tr (cm_HostKey cm) hostIP (cm_ID cm) in
  let tr1 := tr ++ [EvLatestRevision (cm_HostKey cm) hostIP (cm_ID cm) r] in
  pruneContract env fuel cm hostIP gc pendingUploads tr =
  match r with
  | Failure err => (Fail (ErrFetchRevision err), tr1)
  | Success rev =>
      if RevisionNumber rev <? cm_RevisionNumber cm
      then (Fail (ErrStaleRevision (RevisionNumber rev) (cm_RevisionNumber cm)),
            tr1)
      else
        let s := hostSettings env tr1 (cm_HostKey cm) hostIP in
        let tr2 := tr1 ++ [EvSettings (cm_HostKey cm) hostIP s] in
        match s with
        | Failure err => (Fail (ErrFetchPrices err), tr2)
        | Success settings =>
            if Gouging (gc settings)
            then (Fail (ErrHostGouging (String (gc settings))), tr2)
            else
              match fetchRoots env fuel cm hostIP (Prices settings)
                      (Filesize rev / SectorSize) 0 rev [] Usage_zero tr2 with
              | (Return (rev', roots, usage), tr3) =>
                  pruneRoots env cm hostIP (Prices settings) pendingUploads
                    rev' roots usage tr3
              | (Fail e, tr3) => (Fail e, tr3)
              | (Panic, tr3) => (Panic, tr3)
              | (OutOfFuel, tr3) => (OutOfFuel, tr3)
              end
        end
  end.
Proof.
  cbn zeta. unfold pruneContract, bind, LatestRevision, Settings, fail.
  destruct (hostLatestRevision env tr _ _ _) as [rev|err]; [|reflexivity].
  destruct (RevisionNumber rev <? cm_RevisionNumber cm); [reflexivity|].
  destruct (hostSettings env _ _ _) as [settings|err]; [|reflexivity].
  cbn zeta.
  destruct (Gouging (gc settings)); [reflexivity|].
  destruct (fetchRoots env fuel cm hostIP _ _ _ _ _ _ _)
    as [[[[rev' roots] usage]|e| |] tr3]; reflexivity.
Qed.

(** [pruneRoots] fails only when the store or the deletion fails. *)
Lemma pruneRoots_Fail cm hostIP prices pendingUploads rev roots usage tr e :
  fst (pruneRoots env cm hostIP prices pendingUploads rev roots usage tr) =
    Fail e ->
  (exists err, e = ErrPrunableRoots err) \/ (exists err, e = ErrFreeSectors err).
Proof.
  rewrite pruneRoots_run. cbn zeta.
  destruct (storePrunableContractRoots env tr (cm_ID cm) roots)
    as [indices|err]; simpl.
  - destruct (decide (Forall (inRange roots) indices)); [|discriminate].
    destruct (hostFreeSectors env _ _ _ _ _ _) as [res|err]; simpl.
    + discriminate.
    + intros [= <-]. eauto.
  - intros [= <-]. eauto.
Qed.

(** The stale-revision error comes from the first check only. *)
Lemma run_stale_inv fuel cm hostIP gc pendingUploads latest known :
  fst (run env fuel cm hostIP gc pendingUploads) =
    Fail (ErrStaleRevision latest known) ->
  exists rev,
    hostLatestRevision env [] (cm_HostKey cm) hostIP (cm_ID cm) = Success rev /\
    RevisionNumber rev < cm_RevisionNumber cm /\
    latest = RevisionNumber rev /\ known = cm_RevisionNumber cm.
Proof.
  unfold run. rewrite pruneContract_run. cbn zeta.
  destruct (hostLatestRevision env [] _ _ _) as [rev|err]; simpl;
    [|discriminate].
  destruct (Z.ltb_spec (RevisionNumber rev) (cm_RevisionNumber cm)); simpl.
  - intros [= <- <-]. eauto.
  - destruct (hostSettings env _ _ _) as [settings|err]; simpl; [|discriminate].
    destruct (Gouging (gc settings)); simpl; [discriminate|].
    match goal with
    | |- context [fetchRoots env fuel cm hostIP ?p ?n ?o ?r ?rs ?u ?tr] =>
        destruct (fetchRoots_events cm hostIP p n fuel o r rs u tr)
          as (pages & _ & _ & _ & Hout);
        destruct (fetchRoots env fuel cm hostIP p n o r rs u tr)
          as [[[[rev' roots] usage]|e| |] tr3]; simpl in *
    end; try discriminate.
    + intros Hf. apply pruneRoots_Fail in Hf as [[err He]|[err He]]; discriminate.
    + destruct Hout as (err & -> & _). discriminate.
Qed.

(** ** The revision freshness check *)

(** C2.  When the revision fetched from the host has a number strictly
    lower than the revision number of the contract metadata, the pass fails
    with the stale-revision error and its only call is the fetch of the
    revision; and the pass ends with that error only in that case. *)
Theorem stale_revision_fails fuel cm hostIP gc pendingUploads rev :
  hostLatestRevision env [] (cm_HostKey cm) hostIP (cm_ID cm) = Success rev ->
  (RevisionNumber rev < cm_RevisionNumber cm ->
   run env fuel cm hostIP gc pendingUploads =
     (Fail (ErrStaleRevision (RevisionNumber rev) (cm_RevisionNumber cm)),
      [EvLatestRevision (cm_HostKey cm) hostIP (cm_ID cm) (Success rev)])) /\
  ((exists latest known,
      fst (run env fuel cm hostIP gc pendingUploads) =
        Fail (ErrStaleRevision latest known)) <->
   RevisionNumber rev < cm_RevisionNumber cm).
Proof.
  intros Hrev.
  assert (RevisionNumber rev < cm_RevisionNumber cm ->
          run env fuel cm hostIP gc pendingUploads =
            (Fail (ErrStaleRevision (RevisionNumber rev) (cm_RevisionNumber cm)),
             [EvLatestRevision (cm_HostKey cm) hostIP (cm_ID cm) (Success rev)]))
    as Hstale.
  { intros Hlt. unfold run. rewrite pruneContract_run. cbn zeta.
    rewrite Hrev. apply Z.ltb_lt in Hlt. rewrite Hlt. reflexivity. }
  split; [exact Hstale|]. split.
  - intros (latest & known & Hf).
    apply run_stale_inv in Hf as (rev' & Hrev' & Hlt & _).
    congruence.
  - intros Hlt. rewrite (Hstale Hlt). simpl. eauto.
Qed.

(** ** The price check *)

(** C3.  When the checker flags the settings fetched from the host, the pass
    fails with the gouging error after two calls, the fetch of the revision
    and the fetch of the settings: no page of roots is asked for, no sector
    is freed and nothing is recorded. *)
Theorem gouging_aborts_before_paid_calls fuel cm hostIP gc pendingUploads
    rev settings :
  hostLatestRevision env [] (cm_HostKey cm) hostIP (cm_ID cm) = Success rev ->
  cm_RevisionNumber cm <= RevisionNumber rev ->
  hostSettings env
    [EvLatestRevision (cm_HostKey cm) hostIP (cm_ID cm) (Success rev)]
    (cm_HostKey cm) hostIP = Success settings ->
  Gouging (gc settings) = true ->
  run env fuel cm hostIP gc pendingUploads =
    (Fail (ErrHostGouging (String (gc settings))),
     [EvLatestRevision (cm_HostKey cm) hostIP (cm_ID cm) (Success rev);
      EvSettings (cm_HostKey cm) hostIP (Success settings)]) /\
  filter isPaid (snd (run env fuel cm hostIP gc pendingUploads)) = [] /\
  filter isRecord (snd (run env fuel cm hostIP gc pendingUploads)) = [].
Proof.
  intros Hrev Hfresh Hset Hg.
  assert (run env fuel cm hostIP gc pendingUploads =
            (Fail (ErrHostGouging (String (gc settings))),
             [EvLatestRevision (cm_HostKey cm) hostIP (cm_ID cm) (Success rev);
              EvSettings (cm_HostKey cm) hostIP (Success settings)])) as Hrun.
  { unfold run. rewrite pruneContract_run. cbn zeta. rewrite Hrev.
    apply Z.ltb_ge in Hfresh. rewrite Hfresh. simpl app.
    rewrite Hset, Hg. reflexivity. }
  rewrite Hrun. auto.
Qed.

(** ** The enumeration of the sector roots *)


(** ** The shape of a pass *)

Lemma recorded_app (l1 l2 : list Event) :
  recorded (l1 ++ l2) = recorded l1 ++ recorded l2.
Proof.
  induction l1 as [|ev l1 IH]; simpl; [reflexivity|].
  destruct ev; auto. rewrite IH, app_assoc. reflexivity.
Qed.

Lemma beforeStore_recorded (l : list Event) :
  forallb beforeStore l = true -> recorded l = [].
Proof.
  induction l as [|ev l IH]; simpl; [reflexivity|].
  intros [Hev Hl]%andb_prop. destruct ev; try discriminate; auto.
Qed.

Lemma pages_beforeStore (pages : list Event) :
  forallb isSectorRoots pages = true -> forallb beforeStore pages = true.
Proof.
  induction pages as [|ev pages IH]; simpl; [reflexivity|].
  intros [Hev Hl]%andb_prop. destruct ev; try discriminate; auto.
Qed.

Lemma beforeStore_elem (l : list Event) (ev : Event) :
  forallb beforeStore l = true -> ev ∈ l -> beforeStore ev = true.
Proof.
  intros Hall Hin. rewrite forallb_forall in Hall. apply Hall.
  apply list_elem_of_In. exact Hin.
Qed.

(** A pass either ends during the checks or the enumeration, without a
    response, or goes on with [pruneRoots] on what the pages brought. *)
Lemma run_cases fuel cm hostIP gc pendingUploads :
  (forallb beforeStore (snd (run env fuel cm hostIP gc pendingUploads)) = true /\
   forall resp, fst (run env fuel cm hostIP gc pendingUploads) <> Return resp) \/
  (exists rev settings pages,
     hostLatestRevision env [] (cm_HostKey cm) hostIP (cm_ID cm) =
       Success rev /\
     cm_RevisionNumber cm <= RevisionNumber rev /\
     hostSettings env
       [EvLatestRevision (cm_HostKey cm) hostIP (cm_ID cm) (Success rev)]
       (cm_HostKey cm) hostIP = Success settings /\
     Gouging (gc settings) = false /\
     forallb isSectorRoots pages = true /\
     run env fuel cm hostIP gc pendingUploads =
       pruneRoots env cm hostIP (Prices settings) pendingUploads
         (lastRevision rev pages) (collected pages)
         (spent Usage_zero pages)
         ([EvLatestRevision (cm_HostKey cm) hostIP (cm_ID cm) (Success rev);
           EvSettings (cm_HostKey cm) hostIP (Success settings)] ++ pages)).
Proof.
  unfold run. rewrite pruneContract_run. cbn zeta.
  destruct (hostLatestRevision env [] _ _ _) as [rev|err] eqn:Hrev; simpl;
    [|left; split; [reflexivity|discriminate]].
  destruct (Z.ltb_spec (RevisionNumber rev) (cm_RevisionNumber cm)); simpl;
    [left; split; [reflexivity|discriminate]|].
  destruct (hostSettings env _ _ _) as [settings|err] eqn:Hset; simpl;
    [|left; split; [reflexivity|discriminate]].
  destruct (Gouging (gc settings)) eqn:Hg; simpl;
    [left; split; [reflexivity|discriminate]|].
  match goal with
  | |- context [fetchRoots env fuel cm hostIP ?p ?n ?o ?r ?rs ?u ?tr] =>
      destruct (fetchRoots_events cm hostIP p n fuel o r rs u tr)
        as (pages & Htr & Hall & _ & Hout);
      destruct (fetchRoots env fuel cm hostIP p n o r rs u tr)
        as [[[[rev' roots] usage]|e| |] tr3]
  end; simpl in Htr, Hout; subst tr3.
  - right. exists rev, settings, pages.
    destruct Hout as (-> & -> & ->). simpl. auto 10.
  - left. simpl. split; [|discriminate]. apply pages_beforeStore, Hall.
  - contradiction.
  - left. simpl. split; [|discriminate]. apply pages_beforeStore, Hall.
Qed.

(** Every pass goes one of the ways of [Pass]. *)
Lemma run_Pass fuel cm hostIP gc pendingUploads :
  Pass cm hostIP pendingUploads
    (fst (run env fuel cm hostIP gc pendingUploads))
    (snd (run env fuel cm hostIP gc pendingUploads)).
Proof.
  destruct (run_cases fuel cm hostIP gc pendingUploads)
    as [[Hcalls Hout]|(rev & settings & pages & _ & _ & _ & _ & Hall & Hrun)].
  - apply pass_stopped; assumption.
  - rewrite Hrun, pruneRoots_run. cbn zeta.
    fold (checks cm hostIP rev settings).
    destruct (storePrunableContractRoots env _ _ _) as [indices|err].
    + destruct (decide (Forall (inRange (collected pages)) indices))
        as [Hin|Hno].
      * destruct (hostFreeSectors env _ _ _ _ _ _) as [res|err];
          cbn [fst snd]; rewrite <- !app_assoc.
        -- apply (pass_done cm hostIP pendingUploads rev settings pages
                    indices res Hall Hin).
        -- apply pass_free_failed; assumption.
      * cbn [fst snd]. rewrite <- app_assoc. apply pass_panicked; assumption.
    + cbn [fst snd]. rewrite <- app_assoc. apply pass_store_failed; assumption.
Qed.

(** A call made after the enumeration is not among the checks and pages. *)
Lemma tail_elem cm hostIP rev settings pages tail ev :
  forallb isSectorRoots pages = true -> beforeStore ev = false ->
  ev ∈ checks cm hostIP rev settings ++ pages ++ tail -> ev ∈ tail.
Proof.
  intros Hall Hev Hin.
  rewrite !elem_of_app in Hin. destruct Hin as [Hin|[Hin|Hin]]; auto.
  - unfold checks in Hin. rewrite !elem_of_cons, elem_of_nil in Hin.
    destruct Hin as [->|[->|[]]]; discriminate.
  - apply pages_beforeStore in Hall.
    rewrite (beforeStore_elem pages ev Hall Hin) in Hev. discriminate.
Qed.

Lemma candidates_elem roots (pendingUploads : gset Hash256) indices index :
  index ∈ candidates roots pendingUploads indices <->
  index ∈ indices /\
  exists root, roots !! Z.to_nat index = Some root /\ root ∉ pendingUploads.
Proof.
  unfold candidates. rewrite list_elem_of_filter. unfold notPending.
  destruct (roots !! Z.to_nat index) as [root|]; split.
  - intros [Hout Hin]. eauto.
  - intros [Hin (root' & [= <-] & Hout)]. auto.
  - intros [[] _].
  - intros [_ (root' & [=] & _)].
Qed.

Lemma capped_elem (l : list Z) index : index ∈ capped l -> index ∈ l.
Proof. unfold capped. apply subseteq_take. Qed.

(** ** The exclusion of pending uploads *)

(** C5.  The indices that a pass hands to the deletion are, up to the cap
    of the batch, the indices returned by the store whose sector root is not
    in the set of pending uploads, in the order of the store and each as
    often as the store gave it; none of them has a pending root. *)
Theorem pending_uploads_excluded fuel cm hostIP gc pendingUploads
    hk ip prices cr deleted f :
  EvFreeSectors hk ip prices cr deleted f ∈
    snd (run env fuel cm hostIP gc pendingUploads) ->
  exists roots indices,
    EvPrunableContractRoots (cm_ID cm) roots (Success indices) ∈
      snd (run env fuel cm hostIP gc pendingUploads) /\
    deleted = capped (candidates roots pendingUploads indices) /\
    (forall index,
       index ∈ candidates roots pendingUploads indices <->
       index ∈ indices /\
       exists root,
         roots !! Z.to_nat index = Some root /\ root ∉ pendingUploads) /\
    (forall index root,
       index ∈ deleted -> roots !! Z.to_nat index = Some root ->
       root ∉ pendingUploads).
Proof.
  intros Hin.
  pose proof (run_Pass fuel cm hostIP gc pendingUploads) as Hpass.
  assert (forall roots indices,
            deleted = capped (candidates roots pendingUploads indices) ->
            forall index root,
              index ∈ deleted -> roots !! Z.to_nat index = Some root ->
              root ∉ pendingUploads) as Hsafe.
  { intros roots indices -> index root Hd Hroot.
    apply capped_elem, candidates_elem in Hd as (_ & root' & Hroot' & Hout).
    congruence. }
  destruct (run env fuel cm hostIP gc pendingUploads) as [o calls].
  cbn [fst snd] in *.
  destruct Hpass as [o calls Hcalls Hout
                    |rev settings pages err Hall
                    |rev settings pages indices Hall Hno
                    |rev settings pages indices err Hall Hrange
                    |rev settings pages indices res Hall Hrange cand usage].
  - pose proof (beforeStore_elem _ _ Hcalls Hin). discriminate.
  - apply tail_elem in Hin; auto.
    rewrite list_elem_of_singleton in Hin. discriminate.
  - apply tail_elem in Hin; auto.
    rewrite list_elem_of_singleton in Hin. discriminate.
  - apply tail_elem in Hin; auto.
    rewrite !elem_of_cons, elem_of_nil in Hin.
    destruct Hin as [Heq|[Heq|[]]]; [discriminate|].
    injection Heq as -> -> -> -> -> ->.
    exists (collected pages), indices. split; [|split; [|split]].
    + rewrite !elem_of_app, !elem_of_cons. auto.
    + reflexivity.
    + intros index. apply candidates_elem.
    + eapply Hsafe. reflexivity.
  - apply tail_elem in Hin; auto.
    rewrite elem_of_app, !elem_of_cons, elem_of_nil in Hin.
    destruct Hin as [[Heq|[Heq|[]]]|Hin]; [discriminate| |].
    + injection Heq as -> -> -> -> -> ->.
      exists (collected pages), indices. split; [|split; [|split]].
      * rewrite !elem_of_app, !elem_of_cons. auto 10.
      * reflexivity.
      * intros index. apply candidates_elem.
      * eapply Hsafe. reflexivity.
    + destruct (IsZero _).
      * rewrite elem_of_nil in Hin. contradiction.
      * rewrite list_elem_of_singleton in Hin. discriminate.
Qed.

(** ** The batch cap and the response *)

Lemma capped_len (l : list Z) :
  GoConstants -> len (capped l) = Z.min MaxSectorBatchSize (len l).
Proof.
  intros Hc. pose proof (batch_bound Hc). unfold capped, len.
  rewrite length_take. fold (len l). unfold len. lia.
Qed.

Lemma wrap64_mul_l (a b : Z) : wrap64 (wrap64 a * b) = wrap64 (a * b).
Proof. unfold wrap64. apply Z.mul_mod_idemp_l. lia. Qed.

(** C6.  A successful pass makes one deletion call, for the candidates left
    by the exclusion cut to the batch size: at most [MaxSectorBatchSize]
    indices.  Its response has [Pruned] equal to the number of deleted
    indices times the sector size, [Remaining] equal to the number of
    candidates not deleted times the sector size (in [uint64] arithmetic,
    and exactly when that product fits a [uint64]), and [ContractSize] equal
    to the file size of the revision returned by the deletion; the
    candidates beyond the cap are the ones counted in [Remaining]. *)
Theorem batch_cap_and_response fuel cm hostIP gc pendingUploads resp :
  GoConstants ->
  fst (run env fuel cm hostIP gc pendingUploads) = Return resp ->
  exists roots indices hk ip prices cr res,
    let calls := snd (run env fuel cm hostIP gc pendingUploads) in
    let cand := candidates roots pendingUploads indices in
    let deleted := capped cand in
    EvPrunableContractRoots (cm_ID cm) roots (Success indices) ∈ calls /\
    filter isFreeSectors calls =
      [EvFreeSectors hk ip prices cr deleted (Success res)] /\
    len deleted = Z.min MaxSectorBatchSize (len cand) /\
    cand = deleted ++ drop (length deleted) cand /\
    Pruned resp = len deleted * SectorSize /\
    Remaining resp = wrap64 ((len cand - len deleted) * SectorSize) /\
    ((len cand - len deleted) * SectorSize < 2 ^ 64 ->
     Remaining resp = (len cand - len deleted) * SectorSize) /\
    ContractSize resp = Filesize (fs_Revision res).
Proof.
  intros Hc Hret.
  pose proof (run_Pass fuel cm hostIP gc pendingUploads) as Hpass.
  destruct (run env fuel cm hostIP gc pendingUploads) as [o calls].
  cbn [fst snd] in *. subst o.
  remember (Return resp) as o eqn:Ho.
  destruct Hpass as [o calls Hcalls Hout
                    |rev settings pages err Hall
                    |rev settings pages indices Hall Hno
                    |rev settings pages indices err Hall Hrange
                    |rev settings pages indices res Hall Hrange cand usage];
    try discriminate.
  { exfalso. exact (Hout resp Ho). }
  injection Ho as <-.
  exists (collected pages), indices, (cm_HostKey cm), hostIP, (Prices settings),
    {| cr_ID := cm_ID cm; cr_Revision := lastRevision rev pages |}, res.
  cbn zeta. fold cand.
  pose proof (capped_len cand Hc) as Hlen.
  pose proof (batch_bound Hc) as Hb.
  pose proof (len_nonneg cand) as Hcand0.
  assert (wrap64 (wrap64 (len cand - len (capped cand)) * SectorSize) =
          wrap64 ((len cand - len (capped cand)) * SectorSize)) as Hrem
    by apply wrap64_mul_l.
  split; [|split; [|split; [|split; [|split; [|split; [|split]]]]]].
  - rewrite !elem_of_app, !elem_of_cons. auto 10.
  - rewrite !filter_app.
    assert (forall l, forallb beforeStore l = true ->
              filter isFreeSectors l = []) as Hnone.
    { induction l as [|ev l IH]; [reflexivity|]. simpl.
      intros [Hev Hl]%andb_prop.
      rewrite filter_cons_False by (destruct ev; auto; discriminate). auto. }
    rewrite (Hnone (checks cm hostIP rev settings)) by reflexivity.
    rewrite (Hnone pages) by (apply pages_beforeStore, Hall).
    destruct (IsZero _); reflexivity.
  - exact Hlen.
  - unfold capped. rewrite length_take_le by (unfold len; lia).
    symmetry. apply take_drop.
  - simpl. apply wrap64_small. destruct Hc as (Hs & _ & Hm).
    unfold MaxInt in Hm. pose proof (len_nonneg (capped cand)). nia.
  - simpl. exact Hrem.
  - intros Hfit. simpl. rewrite Hrem. apply wrap64_small.
    destruct Hc as (Hs & _ & _). nia.
  - reflexivity.
Qed.

(** ** The spending record *)

Lemma spent_app acc (l1 l2 : list Event) :
  spent acc (l1 ++ l2) = spent (spent acc l1) l2.
Proof.
  revert acc. induction l1 as [|ev l1 IH]; intros acc; simpl; [reflexivity|].
  destruct ev as [| |? ? ? ? ? ? [res|err]| | |]; auto.
Qed.

Lemma pageCosts_app (l1 l2 : list Event) :
  pageCosts (l1 ++ l2) = pageCosts l1 ++ pageCosts l2.
Proof.
  induction l1 as [|ev l1 IH]; simpl; [reflexivity|].
  destruct ev as [| |? ? ? ? ? ? [res|err]| | |]; simpl; auto.
  rewrite IH. reflexivity.
Qed.

Lemma total_app (l1 l2 : list Currency) :
  total (l1 ++ l2) = total l1 + total l2.
Proof.
  unfold total. induction l1 as [|c l1 IH]; simpl; [reflexivity|].
  rewrite IH. lia.
Qed.

(** With an additive renter cost, the cost of the accumulated usage is the
    sum of the costs of the pages. *)
Lemma spent_cost acc (pages : list Event) :
  AdditiveCost ->
  RenterCost (spent acc pages) = RenterCost acc + total (pageCosts pages).
Proof.
  intros [_ Hadd]. revert acc.
  induction pages as [|ev pages IH]; intros acc; simpl.
  - unfold total. simpl. lia.
  - destruct ev as [| |? ? ? ? ? ? [res|err]| | |]; auto.
    rewrite IH, Hadd. unfold total. simpl. lia.
Qed.

(** C7.  A successful pass hands the store one record when the renter cost
    of the usage of the enumeration added to the usage of the deletion is
    not zero, and none otherwise.  The record has [Deletions] equal to the
    renter cost of the usage of the deletion call and [SectorRoots] equal to
    the renter cost of the added usages of the pages; with an additive
    renter cost, that is the sum of the renter costs of the pages, and the
    record is written exactly when the costs of the pages and of the
    deletion do not sum to zero. *)
Theorem spending_recorded fuel cm hostIP gc pendingUploads resp :
  fst (run env fuel cm hostIP gc pendingUploads) = Return resp ->
  exists hk ip prices cr deleted res,
    let calls := snd (run env fuel cm hostIP gc pendingUploads) in
    let rootsUsage := spent Usage_zero calls in
    let deleteUsage := fs_Usage res in
    filter isFreeSectors calls =
      [EvFreeSectors hk ip prices cr deleted (Success res)] /\
    filter isRecord calls =
      (if IsZero (RenterCost (Usage_Add rootsUsage deleteUsage))
       then []
       else [EvRecordContractSpending
               [spendingRecord cm (fs_Revision res) rootsUsage deleteUsage]]) /\
    (recorded calls <> [] <->
     RenterCost (Usage_Add rootsUsage deleteUsage) <> 0) /\
    (forall rec, rec ∈ recorded calls ->
       Deletions (csr_ContractSpending rec) = RenterCost deleteUsage /\
       SectorRoots (csr_ContractSpending rec) = RenterCost rootsUsage) /\
    (AdditiveCost ->
     RenterCost rootsUsage = total (pageCosts calls) /\
     RenterCost (Usage_Add rootsUsage deleteUsage) =
       total (pageCosts calls) + RenterCost deleteUsage).
Proof.
  intros Hret.
  pose proof (run_Pass fuel cm hostIP gc pendingUploads) as Hpass.
  destruct (run env fuel cm hostIP gc pendingUploads) as [o calls].
  cbn [fst snd] in *. subst o.
  remember (Return resp) as o eqn:Ho.
  destruct Hpass as [o calls Hcalls Hout
                    |rev settings pages err Hall
                    |rev settings pages indices Hall Hno
                    |rev settings pages indices err Hall Hrange
                    |rev settings pages indices res Hall Hrange cand usage];
    try discriminate.
  { exfalso. exact (Hout resp Ho). }
  clear Ho.
  exists (cm_HostKey cm), hostIP, (Prices settings),
    {| cr_ID := cm_ID cm; cr_Revision := lastRevision rev pages |},
    (capped cand), res.
  cbn zeta.
  assert (forall (P : Event -> bool) l,
            forallb beforeStore l = true ->
            (forall ev, beforeStore ev = true -> P ev = false) ->
            filter P l = []) as Hnone.
  { intros P l Hl HP. induction l as [|ev l IH]; [reflexivity|].
    simpl in Hl. apply andb_prop in Hl as [Hev Hl].
    rewrite filter_cons_False by (rewrite (HP ev Hev); auto). auto. }
  assert (spent Usage_zero
            (checks cm hostIP rev settings ++ pages ++
             [EvPrunableContractRoots (cm_ID cm) (collected pages)
                (Success indices);
              EvFreeSectors (cm_HostKey cm) hostIP (Prices settings)
                {| cr_ID := cm_ID cm; cr_Revision := lastRevision rev pages |}
                (capped cand) (Success res)] ++
             (if IsZero (RenterCost (Usage_Add usage (fs_Usage res)))
              then []
              else [EvRecordContractSpending
                      [spendingRecord cm (fs_Revision res) usage
                         (fs_Usage res)]])) = usage) as Hspent.
  { rewrite !spent_app. simpl. destruct (IsZero _); reflexivity. }
  assert (pageCosts
            (checks cm hostIP rev settings ++ pages ++
             [EvPrunableContractRoots (cm_ID cm) (collected pages)
                (Success indices);
              EvFreeSectors (cm_HostKey cm) hostIP (Prices settings)
                {| cr_ID := cm_ID cm; cr_Revision := lastRevision rev pages |}
                (capped cand) (Success res)] ++
             (if IsZero (RenterCost (Usage_Add usage (fs_Usage res)))
              then []
              else [EvRecordContractSpending
                      [spendingRecord cm (fs_Revision res) usage
                         (fs_Usage res)]])) = pageCosts pages) as Hcosts.
  { rewrite !pageCosts_app. simpl.
    destruct (IsZero _); simpl; rewrite app_nil_r; reflexivity. }
  rewrite Hspent, Hcosts.
  rewrite !filter_app.
  rewrite (Hnone isFreeSectors (checks cm hostIP rev settings)),
    (Hnone isRecord (checks cm hostIP rev settings)),
    (Hnone isFreeSectors pages), (Hnone isRecord pages)
    by (auto using pages_beforeStore; intros ev; destruct ev; auto;
        discriminate).
  rewrite !recorded_app.
  rewrite (beforeStore_recorded (checks cm hostIP rev settings))
    by reflexivity.
  rewrite (beforeStore_recorded pages) by (apply pages_beforeStore, Hall).
  simpl.
  split; [destruct (IsZero _); reflexivity|].
  split; [destruct (IsZero _); reflexivity|].
  unfold IsZero.
  destruct (Z.eqb_spec (RenterCost (Usage_Add usage (fs_Usage res))) 0)
    as [Hz|Hnz]; simpl.
  - split; [split; intros Hne; contradiction|].
    split; [intros rec Hin; rewrite elem_of_nil in Hin; contradiction|].
    intros Hadd. split; [apply (spent_cost Usage_zero pages) in Hadd as Hs|].
    + destruct Hadd as [Hzero _]. fold usage in Hs. lia.
    + pose proof (spent_cost Usage_zero pages Hadd) as Hs.
      destruct Hadd as [Hzero Hadd]. fold usage in Hs. rewrite Hadd. lia.
  - split; [split; [auto|discriminate]|].
    split.
    + intros rec Hin. rewrite list_elem_of_singleton in Hin. subst rec.
      simpl. auto.
    + intros Hadd. pose proof (spent_cost Usage_zero pages Hadd) as Hs.
      destruct Hadd as [Hzero Hadd]. fold usage in Hs. rewrite Hadd. lia.
Qed.

(** C8 (as the code has it).  A pass that does not return a response, be it
    that a page or the deletion failed after earlier calls were paid for,
    hands no record to the store: spending is recorded only by a pass that
    returns successfully. *)
Theorem failed_pass_records_nothing fuel cm hostIP gc pendingUploads :
  (forall resp, fst (run env fuel cm hostIP gc pendingUploads) <> Return resp) ->
  filter isRecord (snd (run env fuel cm hostIP gc pendingUploads)) = [] /\
  recorded (snd (run env fuel cm hostIP gc pendingUploads)) = [].
Proof.
  intros Hfail.
  pose proof (run_Pass fuel cm hostIP gc pendingUploads) as Hpass.
  destruct (run env fuel cm hostIP gc pendingUploads) as [o calls].
  cbn [fst snd] in *.
  assert (forall l, forallb beforeStore l = true ->
                    filter isRecord l = []) as Hnone.
  { induction l as [|ev l IH]; [reflexivity|]. simpl.
    intros [Hev Hl]%andb_prop.
    rewrite filter_cons_False by (destruct ev; auto; discriminate). auto. }
  destruct Hpass as [o calls Hcalls Hout
                    |rev settings pages err Hall
                    |rev settings pages indices Hall Hno
                    |rev settings pages indices err Hall Hrange
                    |rev settings pages indices res Hall Hrange cand usage].
  - split; [apply Hnone, Hcalls|apply beforeStore_recorded, Hcalls].
  - rewrite !filter_app, !recorded_app.
    rewrite (Hnone pages), (beforeStore_recorded pages)
      by (apply pages_beforeStore, Hall). auto.
  - rewrite !filter_app, !recorded_app.
    rewrite (Hnone pages), (beforeStore_recorded pages)
      by (apply pages_beforeStore, Hall). auto.
  - rewrite !filter_app, !recorded_app.
    rewrite (Hnone pages), (beforeStore_recorded pages)
      by (apply pages_beforeStore, Hall). auto.
  - exfalso. eapply Hfail. reflexivity.
Qed.

(** C9 (as the code has it).  [pruneContract] never fills the [Error] field:
    every response it returns has an empty [Error] and comes with a nil
    error, also when the cap left candidates undeleted, which the response
    reports in [Remaining]; and a deletion call that fails makes the pass
    fail with the error of the deletion. *)
Theorem response_error_empty fuel cm hostIP gc pendingUploads :
  (forall resp,
     fst (run env fuel cm hostIP gc pendingUploads) = Return resp ->
     Error resp = EmptyString /\
     exists roots indices,
       EvPrunableContractRoots (cm_ID cm) roots (Success indices) ∈
         snd (run env fuel cm hostIP gc pendingUploads) /\
       let cand := candidates roots pendingUploads indices in
       Remaining resp =
         wrap64 ((len cand - len (capped cand)) * SectorSize)) /\
  (forall hk ip prices cr deleted err,
     EvFreeSectors hk ip prices cr deleted (Failure err) ∈
       snd (run env fuel cm hostIP gc pendingUploads) ->
     fst (run env fuel cm hostIP gc pendingUploads) =
       Fail (ErrFreeSectors err)).
Proof.
  pose proof (run_Pass fuel cm hostIP gc pendingUploads) as Hpass.
  destruct (run env fuel cm hostIP gc pendingUploads) as [o calls].
  cbn [fst snd] in *.
  destruct Hpass as [o calls Hcalls Hout
                    |rev settings pages err Hall
                    |rev settings pages indices Hall Hno
                    |rev settings pages indices err Hall Hrange
                    |rev settings pages indices res Hall Hrange cand usage].
  - split; [intros resp Hr; exfalso; exact (Hout resp Hr)|].
    intros hk ip prices cr deleted err Hin.
    pose proof (beforeStore_elem _ _ Hcalls Hin). discriminate.
  - split; [discriminate|].
    intros hk ip prices cr deleted err' Hin.
    apply tail_elem in Hin; auto.
    rewrite list_elem_of_singleton in Hin. discriminate.
  - split; [discriminate|].
    intros hk ip prices cr deleted err' Hin.
    apply tail_elem in Hin; auto.
    rewrite list_elem_of_singleton in Hin. discriminate.
  - split; [discriminate|].
    intros hk ip prices cr deleted err' Hin.
    apply tail_elem in Hin; auto.
    rewrite !elem_of_cons, elem_of_nil in Hin.
    destruct Hin as [Heq|[Heq|[]]]; [discriminate|].
    injection Heq as _ _ _ _ _ ->. reflexivity.
  - split.
    + intros resp [= <-]. split; [reflexivity|].
      exists (collected pages), indices. split.
      * rewrite !elem_of_app, !elem_of_cons. auto 10.
      * cbn zeta. simpl. apply wrap64_mul_l.
    + intros hk ip prices cr deleted err' Hin.
      apply tail_elem in Hin; auto.
      rewrite elem_of_app, !elem_of_cons, elem_of_nil in Hin.
      destruct Hin as [[Heq|[Heq|[]]]|Hin]; try discriminate.
      destruct (IsZero _).
      * rewrite elem_of_nil in Hin. contradiction.
      * rewrite list_elem_of_singleton in Hin. discriminate.
Qed.

(** ** Termination of the enumeration *)

(** More fuel does not change a loop that ended. *)
Lemma fetchRoots_fuel_mono cm hostIP prices numsectors fuel :
  forall offset rev roots usage tr fuel',
    fst (fetchRoots env fuel cm hostIP prices numsectors offset rev roots
           usage tr) <> OutOfFuel ->
    (fuel <= fuel')%nat ->
    fetchRoots env fuel' cm hostIP prices numsectors offset rev roots usage tr =
    fetchRoots env fuel cm hostIP prices numsectors offset rev roots usage tr.
Proof.
  induction fuel as [|fuel IH]; intros offset rev roots usage tr fuel' Hend Hle.
  - destruct (Z.lt_ge_cases offset numsectors) as [Hlt|Hge].
    + rewrite fetchRoots_no_fuel in Hend by assumption. contradiction.
    + rewrite !fetchRoots_done by assumption. reflexivity.
  - destruct (Z.lt_ge_cases offset numsectors) as [Hlt|Hge].
    2:{ rewrite !fetchRoots_done by assumption. reflexivity. }
    destruct fuel' as [|fuel']; [lia|].
    rewrite fetchRoots_step in Hend by assumption.
    rewrite !fetchRoots_step by assumption. cbn zeta in *.
    destruct (hostSectorRoots env tr _ _ _ _ _ _) as [res|err];
      [|reflexivity].
    apply IH; [exact Hend|lia].
Qed.

(** When every page asked with a length other than zero is answered with
    at least one root, a loop with as much fuel as there are sectors left
    ends. *)
Lemma fetchRoots_enough_fuel cm hostIP prices numsectors :
  GoConstants -> GoSlices env -> numsectors <= 2 ^ 63 ->
  forall fuel offset rev roots usage tr,
    0 <= offset -> numsectors - offset <= Z.of_nat fuel ->
    (forall ev,
       ev ∈ snd (fetchRoots env fuel cm hostIP prices numsectors offset rev
                   roots usage tr) ->
       answersWithRoots ev) ->
    fst (fetchRoots env fuel cm hostIP prices numsectors offset rev roots
           usage tr) <> OutOfFuel.
Proof.
  intros Hc Hs Hn fuel. pose proof (batch_bound Hc) as Hb.
  induction fuel as [|fuel IH]; intros offset rev roots usage tr Ho Hfuel Hp.
  - rewrite fetchRoots_done by lia. discriminate.
  - destruct (Z.lt_ge_cases offset numsectors) as [Hlt|Hge].
    2:{ rewrite fetchRoots_done by assumption. discriminate. }
    rewrite fetchRoots_step in Hp |- * by assumption. cbn zeta in *.
    rewrite page_length in Hp |- * by (auto; lia).
    destruct (hostSectorRoots env tr _ _ _ _ _ _) as [res|err] eqn:Hr;
      [|discriminate].
    pose proof (Hs _ _ _ _ _ _ _ _ Hr) as Hmax. unfold MaxInt in Hmax.
    assert (1 <= len (sr_Roots res)) as Hmin.
    { match type of Hp with
      | forall ev, ev ∈ snd (fetchRoots env fuel cm hostIP prices numsectors
                              ?o ?r ?rs ?u (tr ++ [?ev0])) -> _ =>
          destruct (fetchRoots_events cm hostIP prices numsectors fuel
                      o r rs u (tr ++ [ev0])) as (pages & Htr & _);
          specialize (Hp ev0)
      end.
      rewrite Htr in Hp. simpl in Hp. apply Hp; [|lia].
      rewrite !elem_of_app, list_elem_of_singleton. auto. }
    rewrite wrap64_small in Hp |- * by lia.
    apply IH; [lia|lia|exact Hp].
Qed.

(** [pruneRoots] has no loop that could go on. *)
Lemma pruneRoots_ends cm hostIP prices pendingUploads rev roots usage tr :
  fst (pruneRoots env cm hostIP prices pendingUploads rev roots usage tr) <>
    OutOfFuel.
Proof.
  rewrite pruneRoots_run. cbn zeta.
  destruct (storePrunableContractRoots env tr (cm_ID cm) roots)
    as [indices|err]; [|discriminate].
  destruct (decide (Forall (inRange roots) indices)); [|discriminate].
  destruct (hostFreeSectors env _ _ _ _ _ _); discriminate.
Qed.

(** The calls of [pruneRoots] come after the calls made before it. *)
Lemma pruneRoots_extends cm hostIP prices pendingUploads rev roots usage tr :
  exists tail,
    snd (pruneRoots env cm hostIP prices pendingUploads rev roots usage tr) =
      tr ++ tail.
Proof.
  rewrite pruneRoots_run. cbn zeta.
  destruct (storePrunableContractRoots env tr (cm_ID cm) roots)
    as [indices|err]; [|simpl; eauto].
  destruct (decide (Forall (inRange roots) indices)); [|simpl; eauto].
  destruct (hostFreeSectors env _ _ _ _ _ _); simpl;
    rewrite <- ?app_assoc; eauto.
Qed.

(** More fuel does not change a pass that ended. *)
Lemma run_fuel_mono fuel fuel' cm hostIP gc pendingUploads :
  fst (run env fuel cm hostIP gc pendingUploads) <> OutOfFuel ->
  (fuel <= fuel')%nat ->
  run env fuel' cm hostIP gc pendingUploads =
    run env fuel cm hostIP gc pendingUploads.
Proof.
  unfold run. rewrite !pruneContract_run. cbn zeta.
  destruct (hostLatestRevision env [] _ _ _) as [rev|err]; [|reflexivity].
  destruct (RevisionNumber rev <? cm_RevisionNumber cm); [reflexivity|].
  destruct (hostSettings env _ _ _) as [settings|err]; [|reflexivity].
  destruct (Gouging (gc settings)); [reflexivity|].
  intros Hend Hle.
  match goal with
  | |- context [fetchRoots env fuel cm hostIP ?p ?n 0 rev [] ?u ?tr] =>
      rewrite (fetchRoots_fuel_mono cm hostIP p n fuel 0 rev [] u tr fuel');
      [reflexivity| |exact Hle];
      destruct (fetchRoots env fuel cm hostIP p n 0 rev [] u tr)
        as [[[[rev' roots] usage]|e| |] tr3]
  end; simpl; try discriminate.
  exfalso. apply Hend. reflexivity.
Qed.

(** When every page asked with a length other than zero is answered with
    at least one root, a pass with enough fuel ends, and more fuel does not
    change it. *)
Lemma run_terminates cm hostIP gc pendingUploads :
  GoConstants -> GoSlices env -> GoRevisions env ->
  (forall fuel ev,
     ev ∈ snd (run env fuel cm hostIP gc pendingUploads) ->
     answersWithRoots ev) ->
  exists fuel0, forall fuel, (fuel0 <= fuel)%nat ->
    fst (run env fuel cm hostIP gc pendingUploads) <> OutOfFuel /\
    run env fuel cm hostIP gc pendingUploads =
      run env fuel0 cm hostIP gc pendingUploads.
Proof.
  intros Hc Hs Hr Hp.
  set (fuel0 := match hostLatestRevision env [] (cm_HostKey cm) hostIP
                        (cm_ID cm) with
                | Success rev => Z.to_nat (Filesize rev / SectorSize)
                | Failure _ => O
                end).
  assert (fst (run env fuel0 cm hostIP gc pendingUploads) <> OutOfFuel)
    as Hend.
  { specialize (Hp fuel0). revert Hp.
    unfold run. rewrite pruneContract_run. cbn zeta.
    destruct (hostLatestRevision env [] _ _ _) as [rev|err] eqn:Hrev;
      [|discriminate].
    destruct (RevisionNumber rev <? cm_RevisionNumber cm); [discriminate|].
    destruct (hostSettings env _ _ _) as [settings|err]; [|discriminate].
    destruct (Gouging (gc settings)); [discriminate|].
    pose proof (numsectors_bound (Filesize rev) Hc (Hr _ _ _ _ _ Hrev))
      as [Hn0 Hn].
    match goal with
    | |- context [fetchRoots env fuel0 cm hostIP ?p ?n 0 rev [] ?u ?tr] =>
        pose proof (fetchRoots_enough_fuel cm hostIP p n Hc Hs Hn fuel0 0 rev
                      [] u tr (Z.le_refl 0)) as Hloop;
        destruct (fetchRoots env fuel0 cm hostIP p n 0 rev [] u tr)
          as [[[[rev' roots] usage]|e| |] tr3]
    end; intros Hp; try discriminate.
    - apply pruneRoots_ends.
    - exfalso. apply Hloop; [subst fuel0; lia|exact Hp|reflexivity]. }
  exists fuel0. intros fuel Hfuel.
  rewrite (run_fuel_mono fuel0 fuel) by assumption. auto.
Qed.

End PruningProperties.

(** * The contract lock *)

Section ContractLockProperties.

Import ContractLock.

Lemma outstanding_grant st duration :
  outstanding (now st) (leases st) = O ->
  (outstanding (now (grant st duration)) (leases (grant st duration)) <= 1)%nat.
Proof.
  intros Hfree. unfold grant. simpl. rewrite Hfree.
  destruct (held _ _); lia.
Qed.

Lemma outstanding_dispatch st :
  (outstanding (now st) (leases st) <= 1)%nat ->
  (outstanding (now (dispatch st)) (leases (dispatch st)) <= 1)%nat.
Proof.
  intros Hinv. unfold dispatch.
  destruct (Nat.eqb_spec (outstanding (now st) (leases st)) 0) as [Hfree|_];
    [|exact Hinv].
  destruct (best (waiters st)) as [w|]; [|exact Hinv].
  apply outstanding_grant. exact Hfree.
Qed.

(** An operation that only lets held leases go, or leaves a lease held,
    does not add to the leases held. *)
Lemma outstanding_map (f : Lease -> Lease) (t t' : Z) (ls : list Lease) :
  (forall l, held t l = false -> held t' (f l) = false) ->
  (outstanding t' (map f ls) <= outstanding t ls)%nat.
Proof.
  intros Hf. induction ls as [|l ls IH]; simpl; [lia|].
  destruct (held t l) eqn:Hl.
  - destruct (held t' (f l)); lia.
  - rewrite (Hf l Hl). lia.
Qed.

Lemma outstanding_later (t t' : Z) (ls : list Lease) :
  t <= t' -> (outstanding t' ls <= outstanding t ls)%nat.
Proof.
  intros Hle. rewrite <- (map_id ls) at 1.
  apply outstanding_map. intros l. unfold held.
  destruct (released l); simpl; [reflexivity|].
  intros Hexp. apply Z.ltb_ge in Hexp. apply Z.ltb_ge. lia.
Qed.

Lemma step_exclusive st op :
  (outstanding (now st) (leases st) <= 1)%nat ->
  (outstanding (now (step st op)) (leases (step st op)) <= 1)%nat.
Proof.
  intros Hinv.
  destruct op as [maxWait duration priority|tok extension|tok|elapsed];
    simpl.
  - apply outstanding_dispatch. exact Hinv.
  - etransitivity; [|exact Hinv]. apply outstanding_map.
    intros l Hl. rewrite Hl, andb_false_r. exact Hl.
  - apply outstanding_dispatch. simpl.
    etransitivity; [|exact Hinv]. apply outstanding_map.
    intros l Hl. rewrite Hl, andb_false_r. exact Hl.
  - apply outstanding_dispatch. simpl.
    etransitivity; [|exact Hinv]. apply outstanding_later. lia.
Qed.

(** C1.  After every history of [Acquire], [Keepalive] and [Release]
    operations and of time passing, at most one lease is neither expired
    nor released. *)
Theorem lock_mutual_exclusion (history : list Op) :
  (outstanding (now (after history)) (leases (after history)) <= 1)%nat.
Proof.
  unfold after.
  assert (forall st,
            (outstanding (now st) (leases st) <= 1)%nat ->
            (outstanding (now (fold_left step history st))
               (leases (fold_left step history st)) <= 1)%nat) as Hall.
  { induction history as [|op history IH]; intros st Hinv; simpl.
    - exact Hinv.
    - apply IH, step_exclusive, Hinv. }
  apply Hall. simpl. lia.
Qed.

End ContractLockProperties.

(** * The scenarios *)

Section ScenarioFacts.

Local Existing Instance core_rhp4.

Lemma core_constants : GoConstants.
Proof. repeat split; vm_compute; congruence. Qed.

Lemma world_slices rev page pageUsage prunable free :
  (forall offset length roots,
     page offset length = Success roots -> len roots <= MaxInt) ->
  GoSlices (world rev page pageUsage prunable free).
Proof.
  intros Hpage tr hk hostIP prices cr offset length res. simpl.
  destruct (page offset length) as [roots|err] eqn:Hp; [|discriminate].
  intros [= <-]. simpl. eapply Hpage, Hp.
Qed.

Lemma world_revisions rev page pageUsage prunable free :
  uint64 (Filesize rev) ->
  GoRevisions (world rev page pageUsage prunable free).
Proof. intros Hrev tr hk hostIP id rev'. simpl. intros [= <-]. exact Hrev. Qed.

Lemma serve_short stored offset length roots :
  serve stored offset length = Success roots -> len roots <= len stored.
Proof.
  unfold serve. intros [= <-]. unfold len.
  rewrite length_take, length_drop. lia.
Qed.

(** The host of [emptyPages] keeps the loop where it is: whatever the fuel,
    the loop uses it up, one request a unit. *)
Lemma emptyPages_loop (fuel : nat) :
  forall rev usage tr,
    fst (fetchRoots emptyPages fuel cm0 "host" 7 1 0 rev [] usage tr) =
      OutOfFuel /\
    length (snd (fetchRoots emptyPages fuel cm0 "host" 7 1 0 rev [] usage tr)) =
      (length tr + fuel)%nat.
Proof.
  induction fuel as [|fuel IH]; intros rev usage tr.
  - rewrite fetchRoots_no_fuel by lia. simpl. split; [reflexivity|lia].
  - rewrite fetchRoots_step by lia. cbn zeta.
    remember (hostSectorRoots emptyPages tr (cm_HostKey cm0) "host" 7
                {| cr_ID := cm_ID cm0; cr_Revision := rev |} 0
                (if wrap64 (0 + MaxSectorBatchSize) >? 1
                 then wrap64 (1 - 0) else MaxSectorBatchSize)) as r eqn:Hr.
    cbn [hostSectorRoots emptyPages world] in Hr. subst r.
    cbv iota beta. cbn [sr_Roots sr_Revision sr_Usage app].
    change (wrap64 (0 + len (@nil Hash256))) with 0.
    match goal with
    | |- context [fetchRoots emptyPages fuel cm0 "host" 7 1 0 ?r [] ?u ?tr'] =>
        destruct (IH r u tr') as [Hout Hlen]
    end.
    split; [exact Hout|].
    rewrite Hlen, length_app. simpl. lia.
Qed.

Lemma emptyPages_diverges (fuel : nat) :
  fst (run emptyPages fuel cm0 "host" (checker false) ∅) = OutOfFuel /\
  length (snd (run emptyPages fuel cm0 "host" (checker false) ∅)) =
    (2 + fuel)%nat.
Proof.
  unfold run. rewrite pruneContract_run. cbn zeta.
  change (hostLatestRevision emptyPages [] (cm_HostKey cm0) "host" (cm_ID cm0))
    with (Success (revision 5 1)).
  cbv iota beta.
  change (RevisionNumber (revision 5 1) <? cm_RevisionNumber cm0) with false.
  cbv iota beta.
  change (hostSettings emptyPages
            ([] ++ [EvLatestRevision (cm_HostKey cm0) "host" (cm_ID cm0)
                      (Success (revision 5 1))]) (cm_HostKey cm0) "host")
    with (@Success (@HostSettings core_rhp4) 7).
  cbv iota beta.
  change (Gouging (checker false 7)) with false.
  cbv iota beta.
  change (Filesize (revision 5 1) / SectorSize) with 1.
  change (@Prices core_rhp4 7) with 7.
  match goal with
  | |- context [fetchRoots emptyPages fuel cm0 "host" 7 1 0 ?r [] ?u ?tr] =>
      destruct (emptyPages_loop fuel r u tr) as [Hout Hlen];
      destruct (fetchRoots emptyPages fuel cm0 "host" 7 1 0 r [] u tr)
        as [[[[rev' roots] usage]|e| |] tr3]
  end; simpl in Hout; try discriminate.
  simpl in Hlen. simpl. split; [reflexivity|exact Hlen].
Qed.

End ScenarioFacts.

(** ** Termination of the enumeration *)

(** C10.  The loop goes on from the offset advanced by the number of roots
    that the page returned, whatever length was asked for.  So a pass ends,
    given enough fuel, whenever every answer it gets to a request for a
    length other than zero holds at least one root; and against a host that
    answers with no root the loop never ends: it uses up any amount of fuel,
    making one more request for each unit. *)
Theorem enumeration_termination :
  (forall (L : Rhp4) (env : Env) fuel cm hostIP prices numsectors offset rev
          roots usage tr res,
     offset < numsectors ->
     let length :=
       if wrap64 (offset + MaxSectorBatchSize) >? numsectors
       then wrap64 (numsectors - offset) else MaxSectorBatchSize in
     let cr := {| cr_ID := cm_ID cm; cr_Revision := rev |} in
     hostSectorRoots env tr (cm_HostKey cm) hostIP prices cr offset length =
       Success res ->
     fetchRoots env (S fuel) cm hostIP prices numsectors offset rev roots
       usage tr =
     fetchRoots env fuel cm hostIP prices numsectors
       (wrap64 (offset + len (sr_Roots res))) (sr_Revision res)
       (roots ++ sr_Roots res) (Usage_Add usage (sr_Usage res))
       (tr ++ [EvSectorRoots (cm_HostKey cm) hostIP prices cr offset length
                 (Success res)])) /\
  (forall (L : Rhp4) (env : Env) cm hostIP gc pendingUploads,
     GoConstants -> GoSlices env -> GoRevisions env ->
     (forall fuel ev,
        ev ∈ snd (run env fuel cm hostIP gc pendingUploads) ->
        answersWithRoots ev) ->
     exists fuel0, forall fuel, (fuel0 <= fuel)%nat ->
       fst (run env fuel cm hostIP gc pendingUploads) <> OutOfFuel /\
       run env fuel cm hostIP gc pendingUploads =
         run env fuel0 cm hostIP gc pendingUploads) /\
  (forall fuel,
     fst (@run core_rhp4 emptyPages fuel cm0 "host" (checker false) ∅) =
       OutOfFuel /\
     length (snd (@run core_rhp4 emptyPages fuel cm0 "host" (checker false) ∅)) =
       (2 + fuel)%nat).
Proof.
  split; [|split].
  - intros L env fuel cm hostIP prices numsectors offset rev roots usage tr
      res Hlt length cr Hres.
    rewrite fetchRoots_step by assumption. cbn zeta.
    fold length. fold cr. rewrite Hres. reflexivity.
  - intros L env cm hostIP gc pendingUploads. apply run_terminates.
  - apply emptyPages_diverges.
Qed.

(** * The theorems at work on the scenarios *)

Section Witnesses.

Local Existing Instance core_rhp4.

Lemma stale_revision_fails_witness :
  hostLatestRevision staleHost [] (cm_HostKey cm0) "host" (cm_ID cm0) =
    Success (revision 4 4) /\
  RevisionNumber (revision 4 4) < cm_RevisionNumber cm0 /\
  run staleHost 1 cm0 "host" (checker false) ∅ =
    (Fail (ErrStaleRevision 4 5),
     [EvLatestRevision 2 "host" 1 (Success (revision 4 4))]).
Proof.
  split; [reflexivity|]. split; [simpl; lia|].
  apply (proj1 (@stale_revision_fails core_rhp4 staleHost 1 cm0 "host"
                  (checker false) ∅ (revision 4 4) eq_refl)).
  simpl. lia.
Defined.

Lemma gouging_aborts_witness :
  Gouging (checker true settings7) = true /\
  run fourSectors 1 cm0 "host" (checker true) ∅ =
    (Fail (ErrHostGouging "storage price too high"), fourSectorsChecks) /\
  filter isPaid (snd (run fourSectors 1 cm0 "host" (checker true) ∅)) = [] /\
  filter isRecord (snd (run fourSectors 1 cm0 "host" (checker true) ∅)) = [].
Proof.
  split; [reflexivity|].
  apply (@gouging_aborts_before_paid_calls core_rhp4 fourSectors 1 cm0 "host"
           (checker true) ∅ (revision 5 4) settings7).
  - reflexivity.
  - simpl. lia.
  - reflexivity.
  - reflexivity.
Defined.



Lemma pending_uploads_excluded_witness :
  fourSectorsDeletion ∈ snd (run fourSectors 1 cm0 "host" (checker false) {[11]}) /\
  exists roots indices,
    EvPrunableContractRoots (cm_ID cm0) roots (Success indices) ∈
      snd (run fourSectors 1 cm0 "host" (checker false) {[11]}) /\
    [0; 2] = capped (candidates roots {[11]} indices) /\
    (forall index root,
       index ∈ [0; 2] -> roots !! Z.to_nat index = Some root ->
       root ∉ ({[11]} : gset Hash256)).
Proof.
  assert (fourSectorsDeletion ∈
            snd (run fourSectors 1 cm0 "host" (checker false) {[11]})) as Hin
    by (vm_compute; repeat constructor).
  split; [exact Hin|].
  destruct (@pending_uploads_excluded core_rhp4 fourSectors 1 cm0 "host"
              (checker false) {[11]} _ _ _ _ _ _ Hin)
    as (roots & indices & Hstore & Hdel & _ & Hsafe).
  exists roots, indices. auto.
Defined.

Lemma batch_cap_and_response_witness :
  GoConstants /\
  fst (run fourSectors 1 cm0 "host" (checker false) {[11]}) =
    Return fourSectorsResponse /\
  exists roots indices,
    let cand := candidates roots {[11]} indices in
    let deleted := capped cand in
    filter isFreeSectors
      (snd (run fourSectors 1 cm0 "host" (checker false) {[11]})) =
      [fourSectorsDeletion] /\
    deleted = [0; 2] /\
    len deleted = Z.min MaxSectorBatchSize (len cand) /\
    Pruned fourSectorsResponse = len deleted * SectorSize /\
    Remaining fourSectorsResponse = (len cand - len deleted) * SectorSize /\
    ContractSize fourSectorsResponse =
      Filesize (revised (revised (revision 5 4))).
Proof.
  assert (fst (run fourSectors 1 cm0 "host" (checker false) {[11]}) =
          Return fourSectorsResponse) as Hret by (vm_compute; reflexivity).
  split; [exact core_constants|]. split; [exact Hret|].
  destruct (@batch_cap_and_response core_rhp4 fourSectors 1 cm0 "host"
              (checker false) {[11]} fourSectorsResponse core_constants
              Hret)
    as (roots & indices & hk & ip & prices & cr & res & _ & Hfree & Hlen &
        _ & Hpruned & Hrem & Hexact & Hsize).
  exists roots, indices. cbn zeta.
  assert (filter isFreeSectors
            (snd (run fourSectors 1 cm0 "host" (checker false) {[11]})) =
          [fourSectorsDeletion]) as Hcalls by (vm_compute; reflexivity).
  rewrite Hcalls in Hfree. injection Hfree as _ _ _ _ Hdeleted Hres.
  split; [reflexivity|]. split; [auto|]. split; [exact Hlen|].
  split; [exact Hpruned|]. split.
  - apply Hexact. rewrite <- Hdeleted. rewrite <- Hdeleted in Hlen.
    change (len [0; 2]) with 2 in *.
    assert (len (candidates roots {[11]} indices) = 2) as ->;
      [|vm_compute; reflexivity].
    change MaxSectorBatchSize with 262144 in Hlen. lia.
  - rewrite Hsize, <- Hres. reflexivity.
Defined.

Lemma spending_recorded_witness :
  fst (run fourSectors 1 cm0 "host" (checker false) {[11]}) =
    Return fourSectorsResponse /\
  filter isRecord (snd (run fourSectors 1 cm0 "host" (checker false) {[11]})) =
    [EvRecordContractSpending
       [{| csr_ContractSpending :=
             {| Deletions := 2; FundAccount := 0; SectorRoots := 3;
                Uploads := 0 |};
           csr_ContractID := 1; csr_RevisionNumber := 7;
           csr_Size := 4 * 2 ^ 22; csr_MissedHostPayout := 100;
           csr_ValidRenterPayout := 200 |}]] /\
  pageCosts (snd (run fourSectors 1 cm0 "host" (checker false) {[11]})) = [3].
Proof.
  assert (fst (run fourSectors 1 cm0 "host" (checker false) {[11]}) =
          Return fourSectorsResponse) as Hret by (vm_compute; reflexivity).
  split; [exact Hret|].
  destruct (@spending_recorded core_rhp4 fourSectors 1 cm0 "host"
              (checker false) {[11]} fourSectorsResponse Hret)
    as (hk & ip & prices & cr & deleted & res & Hfree & Hrec & _).
  assert (filter isFreeSectors
            (snd (run fourSectors 1 cm0 "host" (checker false) {[11]})) =
          [fourSectorsDeletion]) as Hcalls by (vm_compute; reflexivity).
  rewrite Hcalls in Hfree. injection Hfree as _ _ _ _ _ <-.
  split; [exact Hrec|reflexivity].
Defined.

Lemma failed_pass_records_nothing_witness :
  (forall resp,
     fst (run deletionFails 1 cm0 "host" (checker false) ∅) <> Return resp) /\
  filter isRecord (snd (run deletionFails 1 cm0 "host" (checker false) ∅)) =
    [] /\
  recorded (snd (run deletionFails 1 cm0 "host" (checker false) ∅)) = [].
Proof.
  assert (forall resp,
            fst (run deletionFails 1 cm0 "host" (checker false) ∅) <>
              Return resp) as Hfail
    by (intros resp; vm_compute; discriminate).
  split; [exact Hfail|].
  apply (@failed_pass_records_nothing core_rhp4 deletionFails 1 cm0 "host"
           (checker false) ∅ Hfail).
Defined.

Lemma fourSectors_slices : GoSlices fourSectors.
Proof.
  apply world_slices. intros offset length roots Hserve.
  apply serve_short in Hserve. unfold MaxInt. change (len [10; 11; 12; 13])
    with 4 in Hserve. lia.
Qed.

Lemma fourSectors_answers fuel ev :
  ev ∈ snd (run fourSectors fuel cm0 "host" (checker false) {[11]}) ->
  answersWithRoots ev.
Proof.
  assert (Forall answersWithRoots
            (snd (run fourSectors 0 cm0 "host" (checker false) {[11]})))
    as H0 by (vm_compute; repeat constructor).
  assert (Forall answersWithRoots
            (snd (run fourSectors 1 cm0 "host" (checker false) {[11]})))
    as H1 by (vm_compute; repeat constructor; intros _ Hgt; discriminate Hgt).
  rewrite Forall_forall in H0, H1.
  destruct fuel as [|fuel]; [apply H0|].
  rewrite (run_fuel_mono fourSectors 1 (S fuel))
    by (try lia; vm_compute; discriminate).
  apply H1.
Qed.

Lemma enumeration_termination_witness :
  GoConstants /\ GoSlices fourSectors /\ GoRevisions fourSectors /\
  exists fuel0, forall fuel, (fuel0 <= fuel)%nat ->
    fst (run fourSectors fuel cm0 "host" (checker false) {[11]}) <> OutOfFuel /\
    run fourSectors fuel cm0 "host" (checker false) {[11]} =
      run fourSectors fuel0 cm0 "host" (checker false) {[11]}.
Proof.
  assert (GoRevisions fourSectors) as Hrev
    by (apply world_revisions; unfold uint64; simpl; lia).
  split; [exact core_constants|]. split; [exact fourSectors_slices|].
  split; [exact Hrev|].
  apply (proj1 (proj2 enumeration_termination) core_rhp4 fourSectors cm0
           "host" (checker false) {[11]} core_constants fourSectors_slices
           Hrev fourSectors_answers).
Defined.

Lemma response_error_empty_witness :
  fst (run fourSectors 1 cm0 "host" (checker false) {[11]}) =
    Return fourSectorsResponse /\
  Error fourSectorsResponse = EmptyString.
Proof.
  assert (fst (run fourSectors 1 cm0 "host" (checker false) {[11]}) =
          Return fourSectorsResponse) as Hret by (vm_compute; reflexivity).
  split; [exact Hret|].
  apply (proj1 (@response_error_empty core_rhp4 fourSectors 1 cm0 "host"
                  (checker false) {[11]}) fourSectorsResponse Hret).
Defined.

(** ** Where the code parts from the specification *)

(** Against C8: two passes that fail after a page of roots was paid for (at
    a cost of 5), one at the deletion and one at the second page, and that
    hand nothing to the store. *)
Lemma paid_pass_fails_unrecorded :
  fst (run deletionFails 1 cm0 "host" (checker false) ∅) =
    Fail (ErrFreeSectors "host unreachable") /\
  pageCosts (snd (run deletionFails 1 cm0 "host" (checker false) ∅)) = [5] /\
  filter isRecord (snd (run deletionFails 1 cm0 "host" (checker false) ∅)) =
    [] /\
  fst (run secondPageFails 2 cm0 "host" (checker false) ∅) =
    Fail (ErrFetchSectors "connection reset") /\
  pageCosts (snd (run secondPageFails 2 cm0 "host" (checker false) ∅)) = [5] /\
  filter isRecord (snd (run secondPageFails 2 cm0 "host" (checker false) ∅)) =
    [].
Proof. vm_compute. repeat split; reflexivity. Qed.

(** A pass against [capExceeded]: the cap leaves one candidate undeleted. *)
Lemma capExceeded_response :
  fst (run capExceeded 1 cm0 "host" (checker false) ∅) =
    Return {| ContractSize := 2 ^ 22; Pruned := 2 ^ 18 * 2 ^ 22;
              Remaining := 2 ^ 22; Error := EmptyString |}.
Proof.
  unfold run. rewrite pruneContract_run. cbn zeta.
  change (hostLatestRevision capExceeded [] (cm_HostKey cm0) "host" (cm_ID cm0))
    with (Success (revision 5 1)).
  cbv iota beta.
  change (RevisionNumber (revision 5 1) <? cm_RevisionNumber cm0) with false.
  cbv iota beta.
  change (hostSettings capExceeded
            ([] ++ [EvLatestRevision (cm_HostKey cm0) "host" (cm_ID cm0)
                      (Success (revision 5 1))]) (cm_HostKey cm0) "host")
    with (@Success (@HostSettings core_rhp4) 7).
  cbv iota beta.
  change (Gouging (checker false 7)) with false.
  cbv iota beta.
  match goal with
  | |- context [fetchRoots capExceeded 1 cm0 "host" ?p ?n 0 ?r [] ?u ?tr] =>
      let v := eval vm_compute in
                 (fetchRoots capExceeded 1 cm0 "host" p n 0 r [] u tr) in
      assert (fetchRoots capExceeded 1 cm0 "host" p n 0 r [] u tr = v) as ->
        by (vm_compute; reflexivity)
  end.
  rewrite pruneRoots_run. vm_compute. reflexivity.
Qed.

(** Against C9: a pass whose deletion covers only a part of the candidates
    (a full batch is freed and one sector remains) returns a response with
    an empty [Error]; and a pass whose deletion call fails returns a hard
    error, not a response. *)
Lemma partial_deletion_error_field_unused :
  fst (run capExceeded 1 cm0 "host" (checker false) ∅) =
    Return {| ContractSize := 2 ^ 22; Pruned := 2 ^ 18 * 2 ^ 22;
              Remaining := 2 ^ 22; Error := EmptyString |} /\
  fst (run deletionFails 1 cm0 "host" (checker false) ∅) =
    Fail (ErrFreeSectors "host unreachable").
Proof. split; [exact capExceeded_response|vm_compute; reflexivity]. Qed.

End Witnesses.

(** ** The lock at work *)

(** Two callers of different priority wait for a lease that a third one
    holds; at its release the lease goes to the caller of higher priority,
    although it arrived later, and one lease is outstanding before and
    after. *)
Example lock_priority_order :
  let busy := ContractLock.after
                [ContractLock.Acquire 100 10 0; ContractLock.Acquire 100 10 1;
                 ContractLock.Acquire 100 10 5] in
  let passed := ContractLock.step busy (ContractLock.Release 1) in
  ContractLock.outstanding (ContractLock.now busy) (ContractLock.leases busy) =
    1%nat /\
  map ContractLock.w_priority (ContractLock.waiters busy) = [1; 5] /\
  ContractLock.outstanding (ContractLock.now passed)
    (ContractLock.leases passed) = 1%nat /\
  map ContractLock.w_priority (ContractLock.waiters passed) = [1].
Proof. vm_compute. repeat split; reflexivity. Qed.

(** * More about a pass *)

Section PassProperties.

Context `{Rhp4}.
Variable env : Env.

(** How a pass that does not reach the store ends: with the error of a
    check after at most two calls, none of them paid; with the error of a
    failed page; or out of fuel. *)
Lemma run_stopped fuel cm hostIP gc pendingUploads :
  forallb beforeStore (snd (run env fuel cm hostIP gc pendingUploads)) = true ->
  (exists e,
     fst (run env fuel cm hostIP gc pendingUploads) = Fail e /\
     isCheckError e = true /\
     filter isPaid (snd (run env fuel cm hostIP gc pendingUploads)) = [] /\
     (length (snd (run env fuel cm hostIP gc pendingUploads)) <= 2)%nat) \/
  (exists err,
     fst (run env fuel cm hostIP gc pendingUploads) =
       Fail (ErrFetchSectors err)) \/
  fst (run env fuel cm hostIP gc pendingUploads) = OutOfFuel.
Proof.
  unfold run. rewrite pruneContract_run. cbn zeta.
  destruct (hostLatestRevision env [] _ _ _) as [rev|err]; simpl;
    [|left; eauto 10].
  destruct (RevisionNumber rev <? cm_RevisionNumber cm); simpl;
    [left; eauto 10|].
  destruct (hostSettings env _ _ _) as [settings|err]; simpl;
    [|left; eauto 10].
  destruct (Gouging (gc settings)); simpl; [left; eauto 10|].
  match goal with
  | |- context [fetchRoots env fuel cm hostIP ?p ?n ?o ?r ?rs ?u ?tr] =>
      destruct (fetchRoots_events env cm hostIP p n fuel o r rs u tr)
        as (pages & Htr & Hall & _ & Hout);
      destruct (fetchRoots env fuel cm hostIP p n o r rs u tr)
        as [[[[rev' roots] usage]|e| |] tr3]
  end; simpl in Htr, Hout; subst tr3.
  - intros Hb. exfalso.
    destruct (pruneRoots_extends env cm hostIP (Prices settings) pendingUploads
                rev' roots usage
                (EvLatestRevision (cm_HostKey cm) hostIP (cm_ID cm) (Success rev)
                 :: EvSettings (cm_HostKey cm) hostIP (Success settings)
                 :: pages)) as (tail & Htail).
    revert Hb Htail. rewrite pruneRoots_run. cbn zeta.
    destruct (storePrunableContractRoots env _ _ _) as [indices|err'].
    + destruct (decide (Forall (inRange roots) indices)).
      * destruct (hostFreeSectors env _ _ _ _ _ _); simpl;
          rewrite !forallb_app; simpl; rewrite !andb_false_r; discriminate.
      * simpl. rewrite !forallb_app. simpl. rewrite !andb_false_r.
        discriminate.
    + simpl. rewrite !forallb_app. simpl. rewrite !andb_false_r.
      discriminate.
  - intros _. right. left. destruct Hout as (err & -> & _). eauto.
  - contradiction.
  - intros _. right. right. reflexivity.
Qed.

Lemma beforeStore_filter (P : Event -> bool) (l : list Event) :
  (forall ev, beforeStore ev = true -> P ev = false) ->
  forallb beforeStore l = true -> filter P l = [].
Proof.
  intros HP. induction l as [|ev l IH]; [reflexivity|]. simpl.
  intros [Hev Hl]%andb_prop.
  rewrite filter_cons_False by (rewrite (HP ev Hev); auto). auto.
Qed.

Lemma checks_pages_beforeStore cm hostIP rev settings pages :
  forallb isSectorRoots pages = true ->
  forallb beforeStore (checks cm hostIP rev settings ++ pages) = true.
Proof.
  intros Hall. rewrite forallb_app. simpl. apply pages_beforeStore, Hall.
Qed.

(** ** What an error tells the caller *)

(** X1.  A pass that ends with the error of one of the two checks (the
    revision could not be fetched or is stale, the settings could not be
    fetched or are gouging) has made at most two calls, none of them paid
    and none to the store. *)
Theorem check_errors_cost_nothing fuel cm hostIP gc pendingUploads e :
  fst (run env fuel cm hostIP gc pendingUploads) = Fail e ->
  isCheckError e = true ->
  filter isPaid (snd (run env fuel cm hostIP gc pendingUploads)) = [] /\
  filter isStoreCall (snd (run env fuel cm hostIP gc pendingUploads)) = [] /\
  (length (snd (run env fuel cm hostIP gc pendingUploads)) <= 2)%nat.
Proof.
  intros Hfail He.
  destruct (run_cases env fuel cm hostIP gc pendingUploads)
    as [[Hcalls _]|(rev & settings & pages & _ & _ & _ & _ & _ & Hrun)].
  - destruct (run_stopped fuel cm hostIP gc pendingUploads Hcalls)
      as [(e' & Hf & _ & Hpaid & Hlen)|[(err & Hf)|Hf]];
      rewrite Hf in Hfail.
    + split; [exact Hpaid|]. split; [|exact Hlen].
      apply beforeStore_filter; [|exact Hcalls].
      intros ev. destruct ev; auto; discriminate.
    + injection Hfail as <-. discriminate.
    + discriminate.
  - rewrite Hrun in Hfail.
    apply pruneRoots_Fail in Hfail as [[err ->]|[err ->]]; discriminate.
Qed.



(** The calls after the enumeration, whatever became of the pass. *)
Lemma Pass_store_call cm hostIP pendingUploads o calls roots indices :
  Pass cm hostIP pendingUploads o calls ->
  EvPrunableContractRoots (cm_ID cm) roots (Success indices) ∈ calls ->
  Forall (inRange roots) indices ->
  exists rev settings pages f,
    forallb isSectorRoots pages = true /\
    roots = collected pages /\
    calls =
      checks cm hostIP rev settings ++ pages ++
      [EvPrunableContractRoots (cm_ID cm) roots (Success indices);
       EvFreeSectors (cm_HostKey cm) hostIP (Prices settings)
         {| cr_ID := cm_ID cm; cr_Revision := lastRevision rev pages |}
         (capped (candidates roots pendingUploads indices)) f] ++
      match f with
      | Success res =>
          if IsZero (RenterCost (Usage_Add (spent Usage_zero pages)
                                   (fs_Usage res)))
          then []
          else [EvRecordContractSpending
                  [spendingRecord cm (fs_Revision res)
                     (spent Usage_zero pages) (fs_Usage res)]]
      | Failure _ => []
      end /\
    o = match f with
        | Success res =>
            Return (response (fs_Revision res)
                      (candidates roots pendingUploads indices)
                      (capped (candidates roots pendingUploads indices)))
        | Failure err => Fail (ErrFreeSectors err)
        end.
Proof.
  intros Hpass Hin Hrange.
  destruct Hpass as [o calls Hcalls Hout
                    |rev settings pages err Hall
                    |rev settings pages indices' Hall Hno
                    |rev settings pages indices' err Hall Hrange'
                    |rev settings pages indices' res Hall Hrange' cand usage].
  - pose proof (beforeStore_elem _ _ Hcalls Hin). discriminate.
  - apply tail_elem in Hin; auto.
    rewrite list_elem_of_singleton in Hin. discriminate.
  - apply tail_elem in Hin; auto.
    rewrite list_elem_of_singleton in Hin. injection Hin as -> ->.
    contradiction.
  - apply tail_elem in Hin; auto.
    rewrite !elem_of_cons, elem_of_nil in Hin.
    destruct Hin as [Heq|[Heq|[]]]; [|discriminate].
    injection Heq as -> ->.
    exists rev, settings, pages, (Failure err). auto.
  - apply tail_elem in Hin; auto.
    rewrite elem_of_app, !elem_of_cons, elem_of_nil in Hin.
    destruct Hin as [[Heq|[Heq|[]]]|Hin]; [|discriminate|].
    + injection Heq as -> ->.
      exists rev, settings, pages, (Success res). auto.
    + exfalso. destruct (IsZero _).
      * rewrite elem_of_nil in Hin. contradiction.
      * rewrite list_elem_of_singleton in Hin. discriminate.
Qed.

Lemma filter_free_pass cm hostIP rev settings pages ev1 ev2 rest :
  forallb isSectorRoots pages = true ->
  isFreeSectors ev1 = false -> isFreeSectors ev2 = true ->
  filter isFreeSectors rest = [] ->
  filter isFreeSectors
    (checks cm hostIP rev settings ++ pages ++ [ev1; ev2] ++ rest) = [ev2].
Proof.
  intros Hall H1 H2 Hrest.
  assert (forall ev, beforeStore ev = true -> isFreeSectors ev = false) as HP
    by (intros ev; destruct ev; auto; discriminate).
  rewrite !filter_app.
  rewrite (beforeStore_filter isFreeSectors (checks cm hostIP rev settings) HP)
    by reflexivity.
  rewrite (beforeStore_filter isFreeSectors pages HP)
    by (apply pages_beforeStore, Hall).
  rewrite Hrest. simpl.
  rewrite filter_cons_False by (rewrite H1; auto).
  rewrite filter_cons_True by (rewrite H2; exact I).
  reflexivity.
Qed.

(** ** The deletion call *)

(** X4.  Once the store has answered with indices that are positions of
    the roots, the pass makes exactly one deletion call, for the capped
    candidates, also when no candidate is left: it then asks the host to
    free no sector, and a response reports nothing pruned and nothing
    remaining. *)
Theorem deletion_call_always_made fuel cm hostIP gc pendingUploads
    roots indices :
  EvPrunableContractRoots (cm_ID cm) roots (Success indices) ∈
    snd (run env fuel cm hostIP gc pendingUploads) ->
  Forall (inRange roots) indices ->
  exists hk ip prices cr f,
    filter isFreeSectors (snd (run env fuel cm hostIP gc pendingUploads)) =
      [EvFreeSectors hk ip prices cr
         (capped (candidates roots pendingUploads indices)) f] /\
    (candidates roots pendingUploads indices = [] ->
     capped (candidates roots pendingUploads indices) = [] /\
     forall resp,
       fst (run env fuel cm hostIP gc pendingUploads) = Return resp ->
       Pruned resp = 0 /\ Remaining resp = 0).
Proof.
  intros Hin Hrange.
  pose proof (run_Pass env fuel cm hostIP gc pendingUploads) as Hpass.
  destruct (run env fuel cm hostIP gc pendingUploads) as [o calls].
  cbn [fst snd] in *.
  destruct (Pass_store_call _ _ _ _ _ _ _ Hpass Hin Hrange)
    as (rev & settings & pages & f & Hall & -> & -> & ->).
  eexists _, _, _, _, f. split.
  - apply filter_free_pass; auto.
    destruct f as [res|err]; [|reflexivity].
    destruct (IsZero _); reflexivity.
  - intros Hnone. rewrite Hnone.
    assert (capped (@nil Z) = []) as Hcap by (unfold capped; apply take_nil).
    split; [exact Hcap|].
    intros resp Hret. destruct f as [res|err]; [|discriminate].
    injection Hret as <-. rewrite Hcap. split; reflexivity.
Qed.

(** X5.  In the response of a successful pass, [Pruned] is at most a batch
    of sectors, and when the size of the candidates fits a [uint64],
    [Pruned] and [Remaining] add up to the size of all the candidates left
    by the exclusion, [Remaining] being zero exactly when the candidates
    fit in one batch. *)
Theorem pruned_and_remaining_add_up fuel cm hostIP gc pendingUploads resp :
  GoConstants ->
  fst (run env fuel cm hostIP gc pendingUploads) = Return resp ->
  exists roots indices,
    EvPrunableContractRoots (cm_ID cm) roots (Success indices) ∈
      snd (run env fuel cm hostIP gc pendingUploads) /\
    let total := len (candidates roots pendingUploads indices) in
    Pruned resp <= MaxSectorBatchSize * SectorSize /\
    (total * SectorSize < 2 ^ 64 ->
     Pruned resp + Remaining resp = total * SectorSize /\
     (Remaining resp = 0 <-> total <= MaxSectorBatchSize)).
Proof.
  intros Hc Hret.
  pose proof (run_Pass env fuel cm hostIP gc pendingUploads) as Hpass.
  destruct (run env fuel cm hostIP gc pendingUploads) as [o calls].
  cbn [fst snd] in *. subst o.
  remember (Return resp) as o eqn:Ho.
  destruct Hpass as [o calls Hcalls Hout
                    |rev settings pages err Hall
                    |rev settings pages indices Hall Hno
                    |rev settings pages indices err Hall Hrange
                    |rev settings pages indices res Hall Hrange cand usage];
    try discriminate.
  { exfalso. exact (Hout resp Ho). }
  injection Ho as <-.
  exists (collected pages), indices. split.
  { rewrite !elem_of_app, !elem_of_cons. auto 10. }
  cbn zeta. fold cand.
  pose proof (capped_len cand Hc) as Hlen.
  pose proof (batch_bound Hc) as Hb.
  pose proof (len_nonneg cand) as Hcand0.
  destruct Hc as (Hs & _ & Hm). unfold MaxInt in Hm.
  simpl. rewrite wrap64_mul_l.
  rewrite (wrap64_small (len (capped cand) * SectorSize)) by nia.
  split; [nia|].
  intros Hfit. rewrite wrap64_small by nia.
  split; [nia|]. split; intros Hz; nia.
Qed.

(** X6.  The deletion call carries the identifier of the contract and the
    revision that the last page of roots returned (the revision fetched at
    the start when no page was requested); and a spending record carries
    the number and the size of the revision that the deletion returned, the
    size being the [ContractSize] of the response. *)
Theorem deletion_uses_latest_revision fuel cm hostIP gc pendingUploads
    hk ip prices cr deleted f :
  EvFreeSectors hk ip prices cr deleted f ∈
    snd (run env fuel cm hostIP gc pendingUploads) ->
  exists rev,
    hostLatestRevision env [] (cm_HostKey cm) hostIP (cm_ID cm) =
      Success rev /\
    cr = {| cr_ID := cm_ID cm;
            cr_Revision :=
              lastRevision rev
                (snd (run env fuel cm hostIP gc pendingUploads)) |} /\
    hk = cm_HostKey cm /\ ip = hostIP /\
    forall res resp rec,
      f = Success res ->
      fst (run env fuel cm hostIP gc pendingUploads) = Return resp ->
      rec ∈ recorded (snd (run env fuel cm hostIP gc pendingUploads)) ->
      csr_ContractID rec = cm_ID cm /\
      csr_RevisionNumber rec = RevisionNumber (fs_Revision res) /\
      csr_Size rec = Filesize (fs_Revision res) /\
      csr_Size rec = ContractSize resp.
Proof.
  intros Hin.
  destruct (run_cases env fuel cm hostIP gc pendingUploads)
    as [[Hcalls _]|(rev & settings & pages & Hrev & _ & _ & _ & Hall & Hrun)].
  { pose proof (beforeStore_elem _ _ Hcalls Hin). discriminate. }
  exists rev. split; [exact Hrev|].
  assert (forall tail, forallb (fun ev => negb (isSectorRoots ev)) tail = true ->
            lastRevision rev (checks cm hostIP rev settings ++ pages ++ tail) =
            lastRevision rev pages) as Hlast.
  { intros tail Htail.
    assert (forall r l1 l2,
              lastRevision r (l1 ++ l2) = lastRevision (lastRevision r l1) l2)
      as Happ.
    { intros r l1. revert r. induction l1 as [|ev l1 IH]; intros r l2;
        [reflexivity|].
      simpl. destruct ev as [| |? ? ? ? ? ? [res|err]| | |]; auto. }
    rewrite !Happ. simpl. generalize (lastRevision rev pages). intros r.
    induction tail as [|ev tail IH]; [reflexivity|].
    simpl in Htail. apply andb_prop in Htail as [Hev Htail].
    destruct ev; try discriminate; simpl; auto. }
  revert Hin. rewrite Hrun, pruneRoots_run. cbn zeta.
  fold (checks cm hostIP rev settings).
  destruct (storePrunableContractRoots env _ _ _) as [indices|err].
  2:{ cbn [fst snd]. rewrite <- app_assoc. intros Hin.
      apply tail_elem in Hin; auto.
      rewrite list_elem_of_singleton in Hin. discriminate. }
  destruct (decide (Forall (inRange (collected pages)) indices)).
  2:{ cbn [fst snd]. rewrite <- app_assoc. intros Hin.
      apply tail_elem in Hin; auto.
      rewrite list_elem_of_singleton in Hin. discriminate. }
  destruct (hostFreeSectors env _ _ _ _ _ _) as [res|err]; cbn [fst snd];
    rewrite <- !app_assoc; intros Hin.
  - rewrite Hlast by (simpl; destruct (IsZero _); reflexivity).
    apply tail_elem in Hin; auto.
    rewrite !elem_of_app, !list_elem_of_singleton in Hin.
    destruct Hin as [Heq|[Heq|Hin]]; try discriminate.
    + injection Heq as -> -> -> -> -> ->.
      split; [reflexivity|]. split; [reflexivity|]. split; [reflexivity|].
      intros res' resp rec [= <-] [= <-] Hrec.
      rewrite !recorded_app in Hrec.
      rewrite (beforeStore_recorded (checks cm hostIP rev settings)) in Hrec
        by reflexivity.
      rewrite (beforeStore_recorded pages) in Hrec
        by (apply pages_beforeStore, Hall).
      simpl in Hrec. destruct (IsZero _); simpl in Hrec.
      * rewrite elem_of_nil in Hrec. contradiction.
      * rewrite list_elem_of_singleton in Hrec. subst rec.
        repeat split; reflexivity.
    + destruct (IsZero _).
      * rewrite elem_of_nil in Hin. contradiction.
      * rewrite list_elem_of_singleton in Hin. discriminate.
  - rewrite Hlast by reflexivity.
    apply tail_elem in Hin; auto.
    rewrite !elem_of_app, !list_elem_of_singleton in Hin.
    destruct Hin as [Heq|Heq]; try discriminate.
    injection Heq as -> -> -> -> -> ->.
    split; [reflexivity|]. split; [reflexivity|]. split; [reflexivity|].
    intros res' resp rec Hf. discriminate Hf.
Qed.

(** ** The order of the indices *)

Lemma sublist_StronglySorted (R : Z -> Z -> Prop) (l1 l2 : list Z) :
  l1 `sublist_of` l2 -> StronglySorted R l2 -> StronglySorted R l1.
Proof.
  induction 1 as [|x l1 l2 Hsub IH|x l1 l2 Hsub IH]; intros Hs.
  - constructor.
  - inversion Hs as [|? ? Hs' Hall]; subst. constructor; [auto|].
    rewrite Forall_forall in Hall |- *.
    intros y Hy. apply Hall. eapply elem_of_sublist; eauto.
  - inversion Hs; subst. auto.
Qed.

(** X7.  The indices handed to the deletion are indices of the store, in
    the order in which the store gave them: without repetition if the
    store's were, and ascending if the store's were. *)
Theorem deletion_keeps_order fuel cm hostIP gc pendingUploads
    hk ip prices cr deleted f :
  EvFreeSectors hk ip prices cr deleted f ∈
    snd (run env fuel cm hostIP gc pendingUploads) ->
  exists roots indices,
    EvPrunableContractRoots (cm_ID cm) roots (Success indices) ∈
      snd (run env fuel cm hostIP gc pendingUploads) /\
    deleted `sublist_of` indices /\
    (NoDup indices -> NoDup deleted) /\
    (StronglySorted Z.lt indices -> StronglySorted Z.lt deleted).
Proof.
  intros Hin.
  pose proof (run_Pass env fuel cm hostIP gc pendingUploads) as Hpass.
  destruct (run env fuel cm hostIP gc pendingUploads) as [o calls].
  cbn [fst snd] in *.
  assert (forall roots indices,
            capped (candidates roots pendingUploads indices)
              `sublist_of` indices) as Hsub.
  { intros roots indices. unfold capped, candidates.
    etransitivity; [apply sublist_take|apply sublist_filter]. }
  assert (exists roots indices,
            EvPrunableContractRoots (cm_ID cm) roots (Success indices) ∈ calls /\
            deleted = capped (candidates roots pendingUploads indices))
    as (roots & indices & Hstore & ->).
  { destruct Hpass as [o calls Hcalls Hout
                      |rev settings pages err Hall
                      |rev settings pages indices Hall Hno
                      |rev settings pages indices err Hall Hrange
                      |rev settings pages indices res Hall Hrange cand usage].
    - pose proof (beforeStore_elem _ _ Hcalls Hin). discriminate.
    - apply tail_elem in Hin; auto.
      rewrite list_elem_of_singleton in Hin. discriminate.
    - apply tail_elem in Hin; auto.
      rewrite list_elem_of_singleton in Hin. discriminate.
    - apply tail_elem in Hin; auto.
      rewrite !elem_of_cons, elem_of_nil in Hin.
      destruct Hin as [Heq|[Heq|[]]]; [discriminate|].
      injection Heq as -> -> -> -> -> ->.
      exists (collected pages), indices. split; [|reflexivity].
      rewrite !elem_of_app, !elem_of_cons. auto.
    - apply tail_elem in Hin; auto.
      rewrite elem_of_app, !elem_of_cons, elem_of_nil in Hin.
      destruct Hin as [[Heq|[Heq|[]]]|Hin]; [discriminate| |].
      + injection Heq as -> -> -> -> -> ->.
        exists (collected pages), indices. split; [|reflexivity].
        rewrite !elem_of_app, !elem_of_cons. auto 10.
      + exfalso. destruct (IsZero _).
        * rewrite elem_of_nil in Hin. contradiction.
        * rewrite list_elem_of_singleton in Hin. discriminate. }
  exists roots, indices. split; [exact Hstore|]. split; [apply Hsub|].
  split.
  - intros Hnd. eapply sublist_NoDup; [exact Hnd|apply Hsub].
  - intros Hs. eapply sublist_StronglySorted; [apply Hsub|exact Hs].
Qed.

(** ** The number of pages *)

(** Pages served exactly as asked, up to the end of the contract, are as
    many as batches are needed for the sectors left. *)
Lemma exact_pages_count cm hostIP prices numsectors :
  GoConstants ->
  forall pages offset rev,
    0 <= offset <= numsectors ->
    Pages cm hostIP prices numsectors offset rev pages ->
    Forall pageExact pages ->
    numsectors <= offset + len (collected pages) ->
    len pages =
      (numsectors - offset + MaxSectorBatchSize - 1) / MaxSectorBatchSize.
Proof.
  intros Hc. pose proof (batch_bound Hc) as Hb.
  induction pages as [|ev pages IH]; intros offset rev Ho Hp Hex Hcover.
  - unfold collected, len in *. simpl in *.
    assert (numsectors = offset) as -> by lia.
    replace (offset - offset + MaxSectorBatchSize - 1)
      with (MaxSectorBatchSize - 1) by lia.
    symmetry. apply Z.div_small. lia.
  - apply Forall_cons in Hex as [Hev Hex].
    destruct ev as [| |hk ip p cr off asked [res|err]| | |];
      try contradiction.
    simpl in Hp, Hev.
    destruct Hp as (_ & _ & _ & Hlt & _ & Hlen & _ & Hp).
    unfold collected in Hcover. simpl in Hcover. rewrite len_app in Hcover.
    fold (collected pages) in Hcover.
    assert (len (EvSectorRoots hk ip p cr off asked (Success res) :: pages) =
            1 + len pages) as -> by (unfold len; simpl length; lia).
    rewrite Hev in *. subst asked.
    destruct (Z.le_gt_cases (numsectors - offset) MaxSectorBatchSize)
      as [Hlast|Hmore].
    + rewrite Z.min_r in * by lia.
      rewrite (IH (offset + (numsectors - offset)) (sr_Revision res))
        by (auto; lia).
      replace (numsectors - (offset + (numsectors - offset)) +
               MaxSectorBatchSize - 1) with (MaxSectorBatchSize - 1) by lia.
      rewrite (Z.div_small (MaxSectorBatchSize - 1)) by lia.
      replace (numsectors - offset + MaxSectorBatchSize - 1)
        with ((numsectors - offset - 1) + 1 * MaxSectorBatchSize) by lia.
      rewrite Z.div_add by lia.
      rewrite Z.div_small by lia. lia.
    + rewrite Z.min_l in * by lia.
      rewrite (IH (offset + MaxSectorBatchSize) (sr_Revision res))
        by (auto; lia).
      replace (numsectors - offset + MaxSectorBatchSize - 1)
        with ((numsectors - (offset + MaxSectorBatchSize) +
               MaxSectorBatchSize - 1) + 1 * MaxSectorBatchSize) by lia.
      rewrite Z.div_add by lia. lia.
Qed.

Lemma filter_pages (pages : list Event) :
  forallb isSectorRoots pages = true -> filter isSectorRoots pages = pages.
Proof.
  induction pages as [|ev pages IH]; [reflexivity|]. simpl.
  intros [Hev Hl]%andb_prop.
  rewrite filter_cons_True by (rewrite Hev; exact I). rewrite IH; auto.
Qed.

(** The pages of a pass that reached the store. *)
Lemma run_store_pages fuel cm hostIP gc pendingUploads rev roots p :
  GoConstants -> GoSlices env ->
  hostLatestRevision env [] (cm_HostKey cm) hostIP (cm_ID cm) = Success rev ->
  uint64 (Filesize rev) ->
  EvPrunableContractRoots (cm_ID cm) roots p ∈
    snd (run env fuel cm hostIP gc pendingUploads) ->
  exists prices pages,
    filter isSectorRoots (snd (run env fuel cm hostIP gc pendingUploads)) =
      pages /\
    Pages cm hostIP prices (Filesize rev / SectorSize) 0 rev pages /\
    roots = collected pages /\
    Filesize rev / SectorSize <= len roots.
Proof.
  intros Hc Hs Hrev Hsize.
  pose proof (numsectors_bound (Filesize rev) Hc Hsize) as [Hn0 Hn].
  unfold run. rewrite pruneContract_run. cbn zeta. rewrite Hrev.
  assert (forall ev : Event,
            beforeStore ev = true ->
            ev <> EvPrunableContractRoots (cm_ID cm) roots p) as Hne
    by (intros ev Hev ->; discriminate).
  cbn [app].
  destruct (RevisionNumber rev <? cm_RevisionNumber cm); cbn [snd app].
  { rewrite list_elem_of_singleton. discriminate. }
  destruct (hostSettings env _ _ _) as [settings|err]; cbn [snd app].
  2:{ rewrite !elem_of_cons, elem_of_nil. intros [?|[?|[]]]; discriminate. }
  destruct (Gouging (gc settings)); cbn [snd app].
  { rewrite !elem_of_cons, elem_of_nil. intros [?|[?|[]]]; discriminate. }
  match goal with
  | |- context [fetchRoots env fuel cm hostIP ?pr ?n 0 rev [] ?u ?tr] =>
      destruct (fetchRoots_spec env cm hostIP pr n Hc Hs Hn fuel 0 rev [] u tr
                  (Z.le_refl 0)) as (pages & Htr & Hp & Hall & Hout);
      destruct (fetchRoots env fuel cm hostIP pr n 0 rev [] u tr)
        as [[[[rev' sectorRoots] usage]|e| |] tr3]
  end; cbn [fst snd] in Htr, Hout; subst tr3;
    fold (checks cm hostIP rev settings).
  - destruct Hout as (Hroots & _ & _ & Hcover & _). simpl in Hroots.
    subst sectorRoots.
    assert (forall l, filter isSectorRoots
                        (checks cm hostIP rev settings ++ pages ++ l) =
                      pages ++ filter isSectorRoots l) as Hfil.
    { intros l. rewrite !filter_app, (filter_pages pages Hall). reflexivity. }
    intros Hin. exists (Prices settings), pages.
    revert Hin. rewrite pruneRoots_run. cbn zeta.
    destruct (storePrunableContractRoots env _ _ _) as [indices|err].
    + destruct (decide (Forall (inRange (collected pages)) indices)).
      * destruct (hostFreeSectors env _ _ _ _ _ _) as [res|err];
          cbn [snd]; rewrite <- !app_assoc; intros Hin;
          apply tail_elem in Hin; auto;
          rewrite !elem_of_app, !list_elem_of_singleton in Hin.
        -- destruct Hin as [Heq|[Heq|Hin]]; try discriminate.
           ++ injection Heq as -> _. rewrite Hfil.
              destruct (IsZero _); simpl; rewrite app_nil_r;
                repeat split; auto; lia.
           ++ exfalso. destruct (IsZero _).
              ** rewrite elem_of_nil in Hin. contradiction.
              ** rewrite list_elem_of_singleton in Hin. discriminate.
        -- destruct Hin as [Heq|Heq]; try discriminate.
           injection Heq as -> _. rewrite Hfil. simpl. rewrite app_nil_r.
           repeat split; auto; lia.
      * cbn [snd]. rewrite <- app_assoc. intros Hin.
        apply tail_elem in Hin; auto.
        rewrite list_elem_of_singleton in Hin. injection Hin as -> _.
        rewrite Hfil. simpl. rewrite app_nil_r. repeat split; auto; lia.
    + cbn [snd]. rewrite <- app_assoc. intros Hin.
      apply tail_elem in Hin; auto.
      rewrite list_elem_of_singleton in Hin. injection Hin as -> _.
      rewrite Hfil. simpl. rewrite app_nil_r. repeat split; auto; lia.
  - cbn [snd]. intros Hin. exfalso.
    pose proof (beforeStore_elem _ _
                  (checks_pages_beforeStore cm hostIP rev settings pages Hall)
                  Hin). discriminate.
  - contradiction.
  - cbn [snd]. intros Hin. exfalso.
    pose proof (beforeStore_elem _ _
                  (checks_pages_beforeStore cm hostIP rev settings pages Hall)
                  Hin). discriminate.
Qed.

(** X8.  When every page is served with exactly as many roots as were asked
    for, a pass that reaches the store has asked for as many pages as
    batches are needed for the sectors of the contract, the file size
    divided by the sector size, and has given the store that many roots. *)
Theorem enumeration_page_count fuel cm hostIP gc pendingUploads rev roots p :
  GoConstants -> GoSlices env ->
  hostLatestRevision env [] (cm_HostKey cm) hostIP (cm_ID cm) = Success rev ->
  uint64 (Filesize rev) ->
  EvPrunableContractRoots (cm_ID cm) roots p ∈
    snd (run env fuel cm hostIP gc pendingUploads) ->
  Forall pageExact
    (filter isSectorRoots (snd (run env fuel cm hostIP gc pendingUploads))) ->
  len (filter isSectorRoots (snd (run env fuel cm hostIP gc pendingUploads))) =
    (Filesize rev / SectorSize + MaxSectorBatchSize - 1) / MaxSectorBatchSize /\
  len roots = Filesize rev / SectorSize.
Proof.
  intros Hc Hs Hrev Hsize Hin Hexact.
  pose proof (numsectors_bound (Filesize rev) Hc Hsize) as [Hn0 Hn].
  destruct (run_store_pages fuel cm hostIP gc pendingUploads rev roots p
              Hc Hs Hrev Hsize Hin) as (prices & pages & Hfil & Hp & -> & Hcover).
  rewrite Hfil in *.
  set (n := Filesize rev / SectorSize) in *.
  assert (0 <= 0 <= n) as H0n by lia.
  assert (n <= 0 + len (collected pages)) as Hcover0 by lia.
  pose proof (exact_pages_count cm hostIP prices n Hc pages 0 rev H0n Hp
                Hexact Hcover0) as Hcount.
  rewrite Z.sub_0_r in Hcount. split; [exact Hcount|].
  assert (forall pgs offset r,
            Pages cm hostIP prices n offset r pgs ->
            Forall pageExact pgs ->
            offset <= n ->
            offset + len (collected pgs) <= n) as Hle.
  { induction pgs as [|ev pgs IH]; intros offset r Hpg Hex Ho.
    - unfold collected, len. simpl. lia.
    - apply Forall_cons in Hex as [Hev Hex].
      destruct ev as [| |hk ip pr cr off asked [res|err]| | |];
        try contradiction.
      simpl in Hpg, Hev.
      destruct Hpg as (_ & _ & _ & Hlt & _ & Hlen & _ & Hpg).
      unfold collected. simpl. rewrite len_app. fold (collected pgs).
      assert (offset + len (sr_Roots res) <= n) as Hnext by lia.
      specialize (IH (offset + len (sr_Roots res)) (sr_Revision res) Hpg Hex
                    Hnext).
      lia. }
  specialize (Hle pages 0 rev Hp Hexact Hn0). lia.
Qed.

End PassProperties.

(** * Contract spending *)

Section SpendingProperties.

Lemma Currency_Add_Some (c v : Currency) :
  c + v < 2 ^ 128 -> Currency_Add c v = Some (c + v).
Proof.
  intros Hfit. unfold Currency_Add.
  destruct (Z.ltb_spec (c + v) (2 ^ 128)); [reflexivity|lia].
Qed.

Lemma Currency_Add_None (c v : Currency) :
  2 ^ 128 <= c + v -> Currency_Add c v = None.
Proof.
  intros Hover. unfold Currency_Add.
  destruct (Z.ltb_spec (c + v) (2 ^ 128)); [lia|reflexivity].
Qed.

(** The total is the sum of the four amounts, and a panic exactly when that
    sum does not fit 128 bits. *)
Lemma ContractSpending_Total_sum (x : ContractSpending) :
  GoSpending x ->
  ContractSpending_Total x =
    if spendingSum x <? 2 ^ 128 then Some (spendingSum x) else None.
Proof.
  unfold GoSpending, isCurrency, spendingSum, ContractSpending_Total.
  intros (Hd & Hf & Hs & Hu).
  destruct (Z.ltb_spec (Uploads x + FundAccount x + Deletions x +
                        SectorRoots x) (2 ^ 128)) as [Hfit|Hover].
  - rewrite !Currency_Add_Some by lia. reflexivity.
  - destruct (Z.lt_ge_cases (Uploads x + FundAccount x) (2 ^ 128));
      [rewrite Currency_Add_Some by lia|rewrite Currency_Add_None by lia;
                                        reflexivity].
    destruct (Z.lt_ge_cases (Uploads x + FundAccount x + Deletions x)
                (2 ^ 128));
      [rewrite Currency_Add_Some by lia|rewrite Currency_Add_None by lia;
                                        reflexivity].
    rewrite Currency_Add_None by lia. reflexivity.
Qed.

(** X9.  The total of a sum of two spendings is the sum of their totals:
    adding category by category and then totalling gives the same amount as
    totalling each and adding, and the one panics on an overflow exactly
    when the other does. *)
Theorem spending_total_of_sum (x y : ContractSpending) :
  GoSpending x -> GoSpending y ->
  match ContractSpending_Add x y with
  | Some z => ContractSpending_Total z
  | None => None
  end =
  match ContractSpending_Total x, ContractSpending_Total y with
  | Some a, Some b => Currency_Add a b
  | _, _ => None
  end.
Proof.
  intros Hx Hy.
  rewrite (ContractSpending_Total_sum x Hx), (ContractSpending_Total_sum y Hy).
  unfold GoSpending, isCurrency, spendingSum in *.
  destruct Hx as (Hxd & Hxf & Hxs & Hxu), Hy as (Hyd & Hyf & Hys & Hyu).
  unfold ContractSpending_Add.
  destruct (Z.lt_ge_cases
              (Uploads x + FundAccount x + Deletions x + SectorRoots x +
               (Uploads y + FundAccount y + Deletions y + SectorRoots y))
              (2 ^ 128)) as [Hfit|Hover].
  - rewrite !Currency_Add_Some by lia.
    rewrite ContractSpending_Total_sum
      by (unfold GoSpending, isCurrency; simpl; lia).
    unfold spendingSum. simpl.
    destruct (Z.ltb_spec (Uploads x + FundAccount x + Deletions x +
                          SectorRoots x) (2 ^ 128)); [|lia].
    destruct (Z.ltb_spec (Uploads y + FundAccount y + Deletions y +
                          SectorRoots y) (2 ^ 128)); [|lia].
    rewrite Currency_Add_Some by lia.
    destruct (Z.ltb_spec (Uploads x + Uploads y +
                          (FundAccount x + FundAccount y) +
                          (Deletions x + Deletions y) +
                          (SectorRoots x + SectorRoots y)) (2 ^ 128)); [|lia].
    f_equal. lia.
  - match goal with
    | |- _ = ?rhs => assert (rhs = None) as ->
    end.
    { destruct (_ <? _); [|reflexivity].
      destruct (_ <? _); [|reflexivity].
      apply Currency_Add_None. lia. }
    destruct (Currency_Add (Uploads x) (Uploads y)) as [u|] eqn:Hu;
      [|reflexivity].
    destruct (Currency_Add (FundAccount x) (FundAccount y)) as [f|] eqn:Hf;
      [|reflexivity].
    destruct (Currency_Add (Deletions x) (Deletions y)) as [d|] eqn:Hd;
      [|reflexivity].
    destruct (Currency_Add (SectorRoots x) (SectorRoots y)) as [s|] eqn:Hs;
      [|reflexivity].
    unfold Currency_Add in Hu, Hf, Hd, Hs.
    destruct (Z.ltb_spec (Uploads x + Uploads y) (2 ^ 128));
      [|discriminate].
    destruct (Z.ltb_spec (FundAccount x + FundAccount y) (2 ^ 128));
      [|discriminate].
    destruct (Z.ltb_spec (Deletions x + Deletions y) (2 ^ 128));
      [|discriminate].
    destruct (Z.ltb_spec (SectorRoots x + SectorRoots y) (2 ^ 128));
      [|discriminate].
    injection Hu as <-. injection Hf as <-. injection Hd as <-.
    injection Hs as <-.
    rewrite ContractSpending_Total_sum
      by (unfold GoSpending, isCurrency; simpl; lia).
    unfold spendingSum. simpl.
    destruct (Z.ltb_spec (Uploads x + Uploads y +
                          (FundAccount x + FundAccount y) +
                          (Deletions x + Deletions y) +
                          (SectorRoots x + SectorRoots y)) (2 ^ 128));
      [lia|reflexivity].
Qed.

(** X10.  Spendings under [Add] are a commutative monoid up to overflow:
    the order of two spendings does not matter, the zero spending changes
    nothing, and adding three spendings panics or not, and gives the same
    spending, however they are grouped. *)
Theorem spending_add_monoid (x y z : ContractSpending) :
  GoSpending x -> GoSpending y -> GoSpending z ->
  ContractSpending_Add x y = ContractSpending_Add y x /\
  ContractSpending_Add x noSpending = Some x /\
  match ContractSpending_Add x y with
  | Some xy => ContractSpending_Add xy z
  | None => None
  end =
  match ContractSpending_Add y z with
  | Some yz => ContractSpending_Add x yz
  | None => None
  end.
Proof.
  intros Hx Hy Hz.
  pose proof Hx as (Hxd & Hxf & Hxs & Hxu).
  pose proof Hy as (Hyd & Hyf & Hys & Hyu).
  pose proof Hz as (Hzd & Hzf & Hzs & Hzu).
  unfold isCurrency in *.
  split; [|split].
  - unfold ContractSpending_Add.
    unfold Currency_Add.
    rewrite (Z.add_comm (Uploads x) (Uploads y)),
      (Z.add_comm (FundAccount x) (FundAccount y)),
      (Z.add_comm (Deletions x) (Deletions y)),
      (Z.add_comm (SectorRoots x) (SectorRoots y)).
    reflexivity.
  - unfold ContractSpending_Add, noSpending. simpl.
    rewrite !Currency_Add_Some by lia. rewrite !Z.add_0_r.
    destruct x; reflexivity.
  - unfold ContractSpending_Add, Currency_Add.
    repeat match goal with
           | |- context [?a <? ?b] => destruct (Z.ltb_spec a b); simpl
           end;
      try reflexivity; try lia.
    f_equal. f_equal; lia.
Qed.

End SpendingProperties.

Section RecordProperties.

Context `{Rhp4}.
Variable env : Env.

(** X11.  The total of a spending record written by a pass is the sum of its
    two categories, the cost of the deletion and the cost of the roots (the
    other two are zero), and panics exactly when that sum overflows. *)
Theorem record_total fuel cm hostIP gc pendingUploads rec :
  rec ∈ recorded (snd (run env fuel cm hostIP gc pendingUploads)) ->
  isCurrency (Deletions (csr_ContractSpending rec)) ->
  isCurrency (SectorRoots (csr_ContractSpending rec)) ->
  Uploads (csr_ContractSpending rec) = 0 /\
  FundAccount (csr_ContractSpending rec) = 0 /\
  ContractSpending_Total (csr_ContractSpending rec) =
    Currency_Add (Deletions (csr_ContractSpending rec))
      (SectorRoots (csr_ContractSpending rec)).
Proof.
  intros Hin Hd Hs.
  pose proof (run_Pass env fuel cm hostIP gc pendingUploads) as Hpass.
  destruct (run env fuel cm hostIP gc pendingUploads) as [o calls].
  cbn [fst snd] in *.
  assert (exists rev ru du, rec = spendingRecord cm rev ru du)
    as (rev' & ru & du & ->).
  { destruct Hpass as [o calls Hcalls Hout
                      |rev settings pages err Hall
                      |rev settings pages indices Hall Hno
                      |rev settings pages indices err Hall Hrange
                      |rev settings pages indices res Hall Hrange cand usage].
    - rewrite (beforeStore_recorded calls Hcalls) in Hin.
      rewrite elem_of_nil in Hin. contradiction.
    - rewrite !recorded_app, (beforeStore_recorded pages) in Hin
        by (apply pages_beforeStore, Hall).
      simpl in Hin. rewrite elem_of_nil in Hin. contradiction.
    - rewrite !recorded_app, (beforeStore_recorded pages) in Hin
        by (apply pages_beforeStore, Hall).
      simpl in Hin. rewrite elem_of_nil in Hin. contradiction.
    - rewrite !recorded_app, (beforeStore_recorded pages) in Hin
        by (apply pages_beforeStore, Hall).
      simpl in Hin. rewrite elem_of_nil in Hin. contradiction.
    - rewrite !recorded_app, (beforeStore_recorded pages) in Hin
        by (apply pages_beforeStore, Hall).
      simpl in Hin. destruct (IsZero _); simpl in Hin.
      + rewrite elem_of_nil in Hin. contradiction.
      + rewrite list_elem_of_singleton in Hin. eauto. }
  simpl in *. unfold isCurrency in *.
  split; [reflexivity|]. split; [reflexivity|].
  unfold ContractSpending_Total.
  cbn [csr_ContractSpending spendingRecord Uploads FundAccount Deletions
       SectorRoots].
  rewrite (Currency_Add_Some 0 0) by lia.
  rewrite (Currency_Add_Some (0 + 0)) by lia. reflexivity.
Qed.

End RecordProperties.

(** * The wallet maintainer *)

Section WalletMaintenanceProperties.

Variable funding : Currency.
Variable env : WmEnv.

Lemma pendingMaintenance_nil (pending : list Hash256) :
  pendingMaintenance pending [] = false.
Proof. unfold pendingMaintenance. induction pending; simpl; auto. Qed.

Lemma New_no_ids (opts : list (walletMaintainer -> walletMaintainer)) :
  Forall isNumOutputsOption opts -> maintenanceTxnIDs (New opts) = [].
Proof.
  unfold New.
  assert (forall w, Forall isNumOutputsOption opts ->
                    maintenanceTxnIDs (fold_left (fun w opt => opt w) opts w) =
                    maintenanceTxnIDs w) as Hfold.
  { induction opts as [|opt opts IH]; intros w Hopts; [reflexivity|].
    apply Forall_cons in Hopts as [(a & b & ->) Hopts]. simpl.
    rewrite IH by assumption. reflexivity. }
  intros Hopts. rewrite Hfold by assumption. reflexivity.
Qed.

Lemma Currency_Uint64_le (c : Currency) : 0 <= c -> 0 <= Currency_Uint64 c <= c.
Proof.
  intros Hc. unfold Currency_Uint64, wrap64. split.
  - apply Z.mod_pos_bound. lia.
  - apply Z.mod_le; lia.
Qed.

(** X12.  A maintenance returns an error only when the wallet could not be
    fetched, its single call then, or when the redistribution failed; a
    failure of the alerter or of the fetch of the pending transactions is
    never returned, and after the latter nothing is redistributed. *)
Theorem maintenance_errors w contracts :
  let '(outcome, _, calls) :=
    PerformWalletMaintenance funding env w contracts [] in
  (forall e,
     outcome = Maintained (Some e) ->
     (exists err,
        e = ErrFetchWallet err /\ calls = [WmWallet (Failure err)]) \/
     (exists outputs balance err,
        e = ErrRedistribute outputs funding balance err /\
        last calls =
          Some (WmWalletRedistribute outputs funding (Failure err)))) /\
  (forall err,
     WmWalletPending (Failure err) ∈ calls ->
     outcome = Maintained None /\ filter isRedistribute calls = []).
Proof.
  unfold PerformWalletMaintenance. cbn zeta.
  destruct (busWallet env []) as [wallet|err].
  2:{ split.
      - intros e [= <-]. left. eauto.
      - intros err' Hin. cbn [app] in Hin.
        rewrite list_elem_of_singleton in Hin. discriminate. }
  destruct (Currency_Mul64 funding contracts) as [needed|].
  2:{ split; [discriminate|]. intros err' Hin. cbn [app] in Hin.
      rewrite list_elem_of_singleton in Hin. discriminate. }
  set (tr1 := if Currency_Cmp (wr_Confirmed wallet) needed <? 0
              then _ else _).
  assert (filter isRedistribute tr1 = [] /\
          forall err, WmWalletPending (Failure err) ∉ tr1) as [Hnone Hnot].
  { subst tr1. destruct (_ <? 0); cbn [app]; split; try reflexivity;
      intros err' Hin; rewrite !elem_of_cons, elem_of_nil in Hin;
      destruct Hin as [?|[?|[]]]; discriminate. }
  destruct (busWalletPending env tr1) as [pending|err].
  2:{ split; [discriminate|]. intros _ _. split; [reflexivity|].
      rewrite filter_app, Hnone. reflexivity. }
  assert (forall err l,
            (forall ev, ev ∈ l -> isRedistribute ev = true) ->
            WmWalletPending (Failure err) ∉
              (tr1 ++ [WmWalletPending (Success pending)]) ++ l) as Hnot'.
  { intros err l Hl Hin. rewrite !elem_of_app, list_elem_of_singleton in Hin.
    destruct Hin as [[Hin|Hin]|Hin].
    - exact (Hnot err Hin).
    - discriminate.
    - apply Hl in Hin. discriminate. }
  assert (forall err, WmWalletPending (Failure err) ∉
                        tr1 ++ [WmWalletPending (Success pending)]) as Hnot0.
  { intros err Hin. apply (Hnot' err []).
    - intros ev Hev. rewrite elem_of_nil in Hev. contradiction.
    - rewrite app_nil_r. exact Hin. }
  destruct (pendingMaintenance pending (maintenanceTxnIDs w)).
  { split; [discriminate|]. intros err Hin. exfalso. exact (Hnot0 err Hin). }
  destruct (Currency_Div (wr_Confirmed wallet) funding) as [quotient|].
  2:{ split; [discriminate|]. intros err Hin. exfalso.
      exact (Hnot0 err Hin). }
  destruct (_ <? minNumOutputs w).
  { split; [discriminate|]. intros err Hin. exfalso. exact (Hnot0 err Hin). }
  destruct (busWalletRedistribute env _ _ _) as [ids|err].
  - split; [discriminate|]. intros err Hin. exfalso.
    apply (Hnot' err _) in Hin; [exact Hin|].
    intros ev Hev. rewrite list_elem_of_singleton in Hev. subst ev.
    reflexivity.
  - split.
    + intros e [= <-]. right. eexists _, _, _. split; [reflexivity|].
      apply last_snoc.
    + intros err' Hin. exfalso.
      apply (Hnot' err' _) in Hin; [exact Hin|].
      intros ev Hev. rewrite list_elem_of_singleton in Hev. subst ev.
      reflexivity.
Qed.

(** X13.  Once the wallet is fetched, and unless the funding of all the
    contracts overflows, a maintenance calls the alerter exactly once: it
    registers the low-balance alert, for the address and the balance of the
    wallet, when the confirmed balance is below the initial funding times
    the number of contracts, and dismisses the alert otherwise. *)
Theorem maintenance_alerts_once w contracts wallet :
  busWallet env [] = Success wallet ->
  funding * contracts < 2 ^ 128 ->
  let calls := snd (PerformWalletMaintenance funding env w contracts []) in
  exists err,
    filter isAlertCall calls =
      [if wr_Confirmed wallet <? funding * contracts
       then WmRegisterAlert (wr_Address wallet) (wr_Confirmed wallet)
              funding err
       else WmDismissAlerts err].
Proof.
  intros Hwallet Hfit. unfold PerformWalletMaintenance. cbn zeta.
  rewrite Hwallet. unfold Currency_Mul64.
  destruct (Z.ltb_spec (funding * contracts) (2 ^ 128)); [|lia].
  assert ((Currency_Cmp (wr_Confirmed wallet) (funding * contracts) <? 0) =
          (wr_Confirmed wallet <? funding * contracts)) as ->.
  { unfold Currency_Cmp, Z.ltb.
    destruct (wr_Confirmed wallet ?= funding * contracts); reflexivity. }
  destruct (wr_Confirmed wallet <? funding * contracts).
  - eexists.
    destruct (busWalletPending env _) as [pending|err]; [|reflexivity].
    destruct (pendingMaintenance pending (maintenanceTxnIDs w));
      [reflexivity|].
    destruct (Currency_Div (wr_Confirmed wallet) funding); [|reflexivity].
    destruct (_ <? minNumOutputs w); [reflexivity|].
    destruct (busWalletRedistribute env _ _ _); reflexivity.
  - eexists.
    destruct (busWalletPending env _) as [pending|err]; [|reflexivity].
    destruct (pendingMaintenance pending (maintenanceTxnIDs w));
      [reflexivity|].
    destruct (Currency_Div (wr_Confirmed wallet) funding); [|reflexivity].
    destruct (_ <? minNumOutputs w); [reflexivity|].
    destruct (busWalletRedistribute env _ _ _); reflexivity.
Qed.

(** X14.  A maintenance redistributes at most once, into outputs of the
    initial contract funding, and for a maintainer whose desired number of
    outputs fits an [int], into a number of outputs between its minimum and
    its desired number that the confirmed balance of the wallet can pay
    for. *)
Theorem redistribution_bounds w contracts wallet outputs amount r :
  busWallet env [] = Success wallet ->
  isCurrency (wr_Confirmed wallet) -> 0 < funding ->
  0 <= desiredNumOutputs w < 2 ^ 63 ->
  WmWalletRedistribute outputs amount r ∈
    snd (PerformWalletMaintenance funding env w contracts []) ->
  filter isRedistribute
    (snd (PerformWalletMaintenance funding env w contracts [])) =
    [WmWalletRedistribute outputs amount r] /\
  amount = funding /\
  minNumOutputs w <= outputs <= desiredNumOutputs w /\
  outputs * funding <= wr_Confirmed wallet.
Proof.
  intros Hwallet [Hb0 Hb] Hfunding Hdesired.
  unfold PerformWalletMaintenance. cbn zeta. rewrite Hwallet.
  destruct (Currency_Mul64 funding contracts) as [needed|]; cbn [snd app].
  2:{ rewrite list_elem_of_singleton. discriminate. }
  set (tr1 := if Currency_Cmp (wr_Confirmed wallet) needed <? 0
              then _ else _).
  assert (filter isRedistribute tr1 = [] /\
          forall o a x, WmWalletRedistribute o a x ∉ tr1) as [Hnone Hnot].
  { subst tr1. destruct (_ <? 0); split; try reflexivity;
      intros o a x Hin; rewrite !elem_of_cons, elem_of_nil in Hin;
      destruct Hin as [?|[?|[]]]; discriminate. }
  assert (forall p o a x,
            WmWalletRedistribute o a x ∉ tr1 ++ [WmWalletPending p]) as Hnot'.
  { intros p o a x Hin. rewrite elem_of_app, list_elem_of_singleton in Hin.
    destruct Hin as [Hin|Hin]; [exact (Hnot o a x Hin)|discriminate]. }
  destruct (busWalletPending env tr1) as [pending|err]; cbn [snd].
  2:{ intros Hin. exfalso. exact (Hnot' _ _ _ _ Hin). }
  destruct (pendingMaintenance pending (maintenanceTxnIDs w)); cbn [snd].
  { intros Hin. exfalso. exact (Hnot' _ _ _ _ Hin). }
  unfold Currency_Div.
  destruct (Z.eqb_spec funding 0) as [Hz|_]; [lia|].
  pose proof (Currency_Uint64_le (wr_Confirmed wallet / funding)
                ltac:(apply Z.div_pos; lia)) as [Hq0 Hq].
  set (numOutputs := Z.min (Currency_Uint64 (wr_Confirmed wallet / funding))
                       (desiredNumOutputs w)) in *.
  destruct (Z.ltb_spec numOutputs (minNumOutputs w)) as [Hlow|Hmin];
    cbn [snd].
  { intros Hin. exfalso. exact (Hnot' _ _ _ _ Hin). }
  assert (toInt numOutputs = numOutputs) as Hint.
  { unfold toInt. destruct (Z.ltb_spec numOutputs (2 ^ 63)); lia. }
  rewrite Hint.
  assert (numOutputs * funding <= wr_Confirmed wallet) as Hpay.
  { assert (numOutputs <= wr_Confirmed wallet / funding) as Hle by lia.
    pose proof (Z.mul_div_le (wr_Confirmed wallet) funding Hfunding).
    nia. }
  set (rd := busWalletRedistribute env _ numOutputs funding).
  assert (snd (match rd with
               | Success _ =>
                   (Maintained None, w,
                    (tr1 ++ [WmWalletPending (Success pending)]) ++
                    [WmWalletRedistribute numOutputs funding rd])
               | Failure err =>
                   (Maintained
                      (Some (ErrRedistribute numOutputs funding
                               (wr_Confirmed wallet) err)), w,
                    (tr1 ++ [WmWalletPending (Success pending)]) ++
                    [WmWalletRedistribute numOutputs funding rd])
               end) =
          (tr1 ++ [WmWalletPending (Success pending)]) ++
          [WmWalletRedistribute numOutputs funding rd]) as ->
    by (destruct rd; reflexivity).
  intros Hin. rewrite elem_of_app, list_elem_of_singleton in Hin.
  destruct Hin as [Hin|Heq]; [exfalso; exact (Hnot' _ _ _ _ Hin)|].
  injection Heq as -> -> ->.
  split; [|split; [reflexivity|split; [lia|exact Hpay]]].
  rewrite !filter_app, Hnone. reflexivity.
Qed.

(** X15.  A maintainer made by [New] does not recognise its own pending
    transactions: a maintenance leaves the maintainer as it was, without
    any maintenance transaction, so that the next maintenance redistributes
    again whenever the balance allows it, whatever transactions are
    pending, those of the earlier redistribution included. *)
Theorem second_maintenance_redistributes_again opts contracts
    o1 w1 tr1 wallet pending :
  Forall isNumOutputsOption opts ->
  PerformWalletMaintenance funding env (New opts) contracts [] =
    (o1, w1, tr1) ->
  busWallet env tr1 = Success wallet ->
  0 <= funding * contracts < 2 ^ 128 -> funding <> 0 ->
  WmWalletPending (Success pending) ∈
    drop (length tr1)
      (snd (PerformWalletMaintenance funding env w1 contracts tr1)) ->
  minNumOutputs (New opts) <=
    Z.min (Currency_Uint64 (wr_Confirmed wallet / funding))
      (desiredNumOutputs (New opts)) ->
  w1 = New opts /\
  exists outputs r,
    last (snd (PerformWalletMaintenance funding env w1 contracts tr1)) =
      Some (WmWalletRedistribute outputs funding r).
Proof.
  intros Hopts Hfirst Hwallet [_ Hfit] Hfunding Hpending Hmin.
  assert (w1 = New opts) as ->.
  { revert Hfirst. unfold PerformWalletMaintenance. cbn zeta.
    destruct (busWallet env []); [|intros [= _ <- _]; reflexivity].
    destruct (Currency_Mul64 funding contracts);
      [|intros [= _ <- _]; reflexivity].
    destruct (busWalletPending env _); [|intros [= _ <- _]; reflexivity].
    destruct (pendingMaintenance _ _); [intros [= _ <- _]; reflexivity|].
    destruct (Currency_Div _ funding); [|intros [= _ <- _]; reflexivity].
    destruct (_ <? _); [intros [= _ <- _]; reflexivity|].
    destruct (busWalletRedistribute env _ _ _); intros [= _ <- _];
      reflexivity. }
  split; [reflexivity|].
  revert Hpending. unfold PerformWalletMaintenance. cbn zeta.
  rewrite Hwallet, (New_no_ids opts Hopts).
  unfold Currency_Mul64, Currency_Div.
  destruct (Z.ltb_spec (funding * contracts) (2 ^ 128)); [|lia].
  destruct (busWalletPending env _) as [pending'|err]; cbn [snd].
  - rewrite pendingMaintenance_nil.
    destruct (Z.eqb_spec funding 0); [contradiction|].
    destruct (Z.ltb_spec
                (Z.min (Currency_Uint64 (wr_Confirmed wallet / funding))
                   (desiredNumOutputs (New opts)))
                (minNumOutputs (New opts))); [lia|].
    intros _.
    destruct (busWalletRedistribute env _ _ _) as [ids|err] eqn:Hrd;
      cbn [snd]; eexists _, _; apply last_snoc.
  - intros Hin. exfalso.
    destruct (_ <? 0) in Hin;
      rewrite <- !app_assoc, drop_app_length in Hin; cbn [app] in Hin;
      rewrite !elem_of_cons, elem_of_nil in Hin;
      destruct Hin as [?|[?|[?|[]]]]; discriminate.
Qed.


End WalletMaintenanceProperties.

(** * The SQL store *)

(** X17.  [Close] first cancels the shutdown context, then closes the
    buffer manager, the database and the metrics database in that order,
    stopping at the first that fails: it returns the error of its last
    call, so that no call follows a failed one, and it marks the store
    closed only when all three were closed. *)
Theorem store_close_stops_at_first_failure (env : SqlEnv) (closed : bool) :
  let '(err, closed', calls) := SQLStore_Close env closed in
  head calls = Some SqlShutdownCtxCancel /\
  (exists last_call rest,
     calls = rest ++ [last_call] /\ closeError last_call = err /\
     Forall (fun ev => closeError ev = None) rest) /\
  (err = None <->
   calls = [SqlShutdownCtxCancel; SqlSlabBufferMgrClose None;
            SqlDbClose None; SqlDbMetricsClose None]) /\
  closed' = (closed || match err with None => true | Some _ => false end).
Proof.
  unfold SQLStore_Close. cbn zeta.
  destruct (slabBufferMgrClose env _) as [e|].
  { split; [reflexivity|]. split; [|split].
    - exists (SqlSlabBufferMgrClose (Some e)), [SqlShutdownCtxCancel].
      repeat split; auto.
    - split; discriminate.
    - rewrite orb_false_r. reflexivity. }
  destruct (dbClose env _) as [e|].
  { split; [reflexivity|]. split; [|split].
    - exists (SqlDbClose (Some e)),
        [SqlShutdownCtxCancel; SqlSlabBufferMgrClose None].
      repeat split; auto.
    - split; discriminate.
    - rewrite orb_false_r. reflexivity. }
  destruct (dbMetricsClose env _) as [e|].
  { split; [reflexivity|]. split; [|split].
    - exists (SqlDbMetricsClose (Some e)),
        [SqlShutdownCtxCancel; SqlSlabBufferMgrClose None; SqlDbClose None].
      repeat split; auto.
    - split; discriminate.
    - rewrite orb_false_r. reflexivity. }
  split; [reflexivity|]. split; [|split].
  - exists (SqlDbMetricsClose None),
      [SqlShutdownCtxCancel; SqlSlabBufferMgrClose None; SqlDbClose None].
    repeat split; auto.
  - split; reflexivity.
  - rewrite orb_true_r. reflexivity.
Qed.

(** A goal about a run of [NewSQLStore] whose calls are all known. *)
Ltac new_store_done :=
  cbn [initPruneLoops app];
  split;
    [split;
       [try discriminate; intros _; repeat constructor; assumption
       |try reflexivity; intros Hall;
        repeat (apply Forall_cons_1 in Hall as [? Hall]);
        cbn [newStoreError] in *; congruence]|];
  split; [reflexivity|];
  split;
    [first
       [solve [intros []; reflexivity]
       |intros _;
        match goal with
        | |- exists failed rest, ?ev :: ?l = _ /\ _ =>
            exists (List.last l ev), (removelast (ev :: l))
        end;
        cbn [List.last removelast];
        split; [reflexivity|];
        split; [cbn [newStoreError]; discriminate
               |repeat constructor; assumption]]|];
  split; [first [discriminate|intros _; reflexivity]|];
  intros ? Hin; rewrite ?elem_of_cons, elem_of_nil in Hin;
  try solve [exfalso; intuition discriminate];
  (split; [reflexivity|]); repeat constructor.

(** X18.  [NewSQLStore] returns a store exactly when none of its calls
    failed, and starts the two pruning loops then and only then; it makes
    no call after one that failed; it migrates only when the configuration
    asks for it, and the metrics database only once the main database was
    migrated. *)
Theorem new_store_starts_loops_on_success (env : NewStoreEnv)
    (dir : string) (migrate : bool) :
  let '(err, calls) := NewSQLStore env dir migrate in
  (err = None <-> Forall (fun ev => newStoreError ev = None) calls) /\
  filter isGo calls =
    match err with
    | None => [NsGo pruneHostSectorLoop; NsGo pruneSlabsLoop]
    | Some _ => []
    end /\
  (err <> None ->
   exists failed rest,
     calls = rest ++ [failed] /\ newStoreError failed <> None /\
     Forall (fun ev => newStoreError ev = None) rest) /\
  (migrate = false -> filter isMigration calls = []) /\
  (forall e, NsMigrateMetrics e ∈ calls ->
     migrate = true /\ NsMigrate None ∈ calls).
Proof.
  unfold NewSQLStore. cbn zeta.
  destruct (osMkdirAll env [] dir) eqn:?; [new_store_done|].
  destruct (dbMainVersion env _) eqn:?; [new_store_done|].
  destruct migrate.
  - destruct (dbMainMigrate env _) eqn:?; [new_store_done|].
    destruct (dbMetricsMigrate env _) eqn:?; [new_store_done|].
    destruct (ssChainIndex env _) eqn:?; [new_store_done|].
    destruct (newSlabBufferManager env _ dir) eqn:?; new_store_done.
  - destruct (ssChainIndex env _) eqn:?; [new_store_done|].
    destruct (newSlabBufferManager env _ dir) eqn:?; new_store_done.
Qed.

(** * The further properties on the scenarios *)

Section MoreWitnesses.

Local Existing Instance core_rhp4.

Lemma check_errors_cost_nothing_witness :
  fst (run staleHost 1 cm0 "host" (checker false) ∅) =
    Fail (ErrStaleRevision 4 5) /\
  isCheckError (ErrStaleRevision 4 5) = true /\
  filter isPaid (snd (run staleHost 1 cm0 "host" (checker false) ∅)) = [] /\
  filter isStoreCall (snd (run staleHost 1 cm0 "host" (checker false) ∅)) =
    [] /\
  (length (snd (run staleHost 1 cm0 "host" (checker false) ∅)) <= 2)%nat.
Proof.
  assert (fst (run staleHost 1 cm0 "host" (checker false) ∅) =
          Fail (ErrStaleRevision 4 5)) as Hrun by (vm_compute; reflexivity).
  split; [exact Hrun|]. split; [reflexivity|].
  exact (@check_errors_cost_nothing core_rhp4 staleHost 1 cm0 "host"
           (checker false) ∅ (ErrStaleRevision 4 5) Hrun eq_refl).
Defined.



Lemma deletion_call_always_made_witness :
  fourSectorsStore ∈
    snd (run fourSectors 1 cm0 "host" (checker false) {[10; 11; 12]}) /\
  Forall (inRange [10; 11; 12; 13]) [0; 1; 2] /\
  candidates [10; 11; 12; 13] {[10; 11; 12]} [0; 1; 2] = [] /\
  exists hk ip prices cr f,
    filter isFreeSectors
      (snd (run fourSectors 1 cm0 "host" (checker false) {[10; 11; 12]})) =
      [EvFreeSectors hk ip prices cr [] f] /\
    forall resp,
      fst (run fourSectors 1 cm0 "host" (checker false) {[10; 11; 12]}) =
        Return resp ->
      Pruned resp = 0 /\ Remaining resp = 0.
Proof.
  assert (fourSectorsStore ∈
            snd (run fourSectors 1 cm0 "host" (checker false)
                   {[10; 11; 12]})) as Hin
    by (vm_compute; repeat constructor).
  assert (Forall (inRange [10; 11; 12; 13]) [0; 1; 2]) as Hrange
    by (repeat constructor; vm_compute; eauto).
  assert (candidates [10; 11; 12; 13] {[10; 11; 12]} [0; 1; 2] = [])
    as Hnone by (vm_compute; reflexivity).
  split; [exact Hin|]. split; [exact Hrange|]. split; [exact Hnone|].
  destruct (@deletion_call_always_made core_rhp4 fourSectors 1 cm0 "host"
              (checker false) {[10; 11; 12]} [10; 11; 12; 13] [0; 1; 2]
              Hin Hrange)
    as (hk & ip & prices & cr & f & Hcalls & Hempty).
  destruct (Hempty Hnone) as [Hcap Hresp].
  exists hk, ip, prices, cr, f. rewrite Hcap in Hcalls.
  split; [exact Hcalls|exact Hresp].
Defined.

Lemma pruned_and_remaining_add_up_witness :
  GoConstants /\
  fst (run fourSectors 1 cm0 "host" (checker false) {[11]}) =
    Return fourSectorsResponse /\
  exists roots indices,
    EvPrunableContractRoots (cm_ID cm0) roots (Success indices) ∈
      snd (run fourSectors 1 cm0 "host" (checker false) {[11]}) /\
    let total := len (candidates roots {[11]} indices) in
    Pruned fourSectorsResponse <= MaxSectorBatchSize * SectorSize /\
    (total * SectorSize < 2 ^ 64 ->
     Pruned fourSectorsResponse + Remaining fourSectorsResponse =
       total * SectorSize /\
     (Remaining fourSectorsResponse = 0 <-> total <= MaxSectorBatchSize)).
Proof.
  assert (fst (run fourSectors 1 cm0 "host" (checker false) {[11]}) =
          Return fourSectorsResponse) as Hret by (vm_compute; reflexivity).
  split; [exact core_constants|]. split; [exact Hret|].
  exact (@pruned_and_remaining_add_up core_rhp4 fourSectors 1 cm0 "host"
           (checker false) {[11]} fourSectorsResponse core_constants Hret).
Defined.

Lemma deletion_uses_latest_revision_witness :
  fourSectorsDeletion ∈
    snd (run fourSectors 1 cm0 "host" (checker false) {[11]}) /\
  lastRevision (revision 5 4)
    (snd (run fourSectors 1 cm0 "host" (checker false) {[11]})) =
    revised (revision 5 4) /\
  forall rec,
    rec ∈ recorded (snd (run fourSectors 1 cm0 "host" (checker false) {[11]})) ->
    csr_ContractID rec = 1 /\ csr_RevisionNumber rec = 7 /\
    csr_Size rec = 4 * 2 ^ 22.
Proof.
  assert (fourSectorsDeletion ∈
            snd (run fourSectors 1 cm0 "host" (checker false) {[11]})) as Hin
    by (vm_compute; repeat constructor).
  assert (fst (run fourSectors 1 cm0 "host" (checker false) {[11]}) =
          Return fourSectorsResponse) as Hret by (vm_compute; reflexivity).
  split; [exact Hin|].
  destruct (@deletion_uses_latest_revision core_rhp4 fourSectors 1 cm0 "host"
              (checker false) {[11]} _ _ _ _ _ _ Hin)
    as (rev & Hrev & Hcr & _ & _ & Hrec).
  injection Hrev as <-.
  split; [exact (eq_sym (f_equal cr_Revision Hcr))|].
  intros rec Hin'.
  destruct (Hrec _ fourSectorsResponse rec eq_refl Hret Hin')
    as (Hid & Hnumber & Hsize & _).
  split; [exact Hid|]. split; [exact Hnumber|exact Hsize].
Defined.

Lemma deletion_keeps_order_witness :
  fourSectorsDeletion ∈
    snd (run fourSectors 1 cm0 "host" (checker false) {[11]}) /\
  exists roots indices,
    EvPrunableContractRoots (cm_ID cm0) roots (Success indices) ∈
      snd (run fourSectors 1 cm0 "host" (checker false) {[11]}) /\
    [0; 2] `sublist_of` indices /\
    (NoDup indices -> NoDup [0; 2]) /\
    (StronglySorted Z.lt indices -> StronglySorted Z.lt [0; 2]).
Proof.
  assert (fourSectorsDeletion ∈
            snd (run fourSectors 1 cm0 "host" (checker false) {[11]})) as Hin
    by (vm_compute; repeat constructor).
  split; [exact Hin|].
  exact (@deletion_keeps_order core_rhp4 fourSectors 1 cm0 "host"
           (checker false) {[11]} _ _ _ _ _ _ Hin).
Defined.

Lemma enumeration_page_count_witness :
  GoConstants /\ GoSlices fourSectors /\ uint64 (Filesize (revision 5 4)) /\
  fourSectorsStore ∈
    snd (run fourSectors 1 cm0 "host" (checker false) {[11]}) /\
  Forall pageExact
    (filter isSectorRoots
       (snd (run fourSectors 1 cm0 "host" (checker false) {[11]}))) /\
  len (filter isSectorRoots
         (snd (run fourSectors 1 cm0 "host" (checker false) {[11]}))) = 1 /\
  len [10; 11; 12; 13] = 4.
Proof.
  assert (uint64 (Filesize (revision 5 4))) as Hsize
    by (unfold uint64; simpl; lia).
  assert (fourSectorsStore ∈
            snd (run fourSectors 1 cm0 "host" (checker false) {[11]})) as Hin
    by (vm_compute; repeat constructor).
  assert (Forall pageExact
            (filter isSectorRoots
               (snd (run fourSectors 1 cm0 "host" (checker false) {[11]}))))
    as Hexact by (vm_compute; repeat constructor).
  split; [exact core_constants|]. split; [exact fourSectors_slices|].
  split; [exact Hsize|]. split; [exact Hin|]. split; [exact Hexact|].
  exact (@enumeration_page_count core_rhp4 fourSectors 1 cm0 "host"
           (checker false) {[11]} (revision 5 4) [10; 11; 12; 13]
           (Success [0; 1; 2]) core_constants fourSectors_slices eq_refl
           Hsize Hin Hexact).
Defined.

Lemma record_total_witness :
  fourSectorsRecord ∈
    recorded (snd (run fourSectors 1 cm0 "host" (checker false) {[11]})) /\
  ContractSpending_Total (csr_ContractSpending fourSectorsRecord) = Some 5.
Proof.
  assert (fourSectorsRecord ∈
            recorded
              (snd (run fourSectors 1 cm0 "host" (checker false) {[11]})))
    as Hin by (vm_compute; repeat constructor).
  split; [exact Hin|].
  destruct (@record_total core_rhp4 fourSectors 1 cm0 "host" (checker false)
              {[11]} fourSectorsRecord Hin
              ltac:(unfold isCurrency; simpl; lia)
              ltac:(unfold isCurrency; simpl; lia)) as (_ & _ & ->).
  reflexivity.
Defined.

End MoreWitnesses.

Lemma spendingA_fits : GoSpending spendingA.
Proof. unfold GoSpending, isCurrency. simpl. lia. Qed.

Lemma spendingB_fits : GoSpending spendingB.
Proof. unfold GoSpending, isCurrency. simpl. lia. Qed.

Lemma spendingC_fits : GoSpending spendingC.
Proof. unfold GoSpending, isCurrency. simpl. lia. Qed.

Lemma spending_total_of_sum_witness :
  GoSpending spendingA /\ GoSpending spendingB /\
  match ContractSpending_Add spendingA spendingB with
  | Some z => ContractSpending_Total z
  | None => None
  end = Some 110.
Proof.
  split; [exact spendingA_fits|]. split; [exact spendingB_fits|].
  rewrite (spending_total_of_sum spendingA spendingB spendingA_fits
             spendingB_fits).
  reflexivity.
Defined.

Lemma spending_add_monoid_witness :
  GoSpending spendingA /\ GoSpending spendingC /\
  ContractSpending_Add spendingA spendingC =
    ContractSpending_Add spendingC spendingA /\
  ContractSpending_Add spendingA noSpending = Some spendingA /\
  match ContractSpending_Add spendingA spendingC with
  | Some xy => ContractSpending_Add xy spendingC
  | None => None
  end = None.
Proof.
  split; [exact spendingA_fits|]. split; [exact spendingC_fits|].
  destruct (spending_add_monoid spendingA spendingC spendingC spendingA_fits
              spendingC_fits spendingC_fits) as (Hcomm & Hzero & Hassoc).
  split; [exact Hcomm|]. split; [exact Hzero|].
  rewrite Hassoc. reflexivity.
Defined.

Lemma maintenance_alerts_once_witness :
  busWallet bus1000 [] = Success wallet1000 /\
  10 * 5 < 2 ^ 128 /\
  exists err,
    filter isAlertCall
      (snd (PerformWalletMaintenance 10 bus1000 (New []) 5 [])) =
      [WmDismissAlerts err].
Proof.
  split; [reflexivity|]. split; [lia|].
  exact (maintenance_alerts_once 10 bus1000 (New []) 5 wallet1000 eq_refl
           ltac:(lia)).
Defined.

Lemma redistribution_bounds_witness :
  busWallet bus1000 [] = Success wallet1000 /\
  isCurrency (wr_Confirmed wallet1000) /\
  WmWalletRedistribute 100 10 (Success [77]) ∈
    snd (PerformWalletMaintenance 10 bus1000 (New []) 5 []) /\
  filter isRedistribute
    (snd (PerformWalletMaintenance 10 bus1000 (New []) 5 [])) =
    [WmWalletRedistribute 100 10 (Success [77])] /\
  10 <= 100 <= 100 /\ 100 * 10 <= 1000.
Proof.
  assert (isCurrency (wr_Confirmed wallet1000)) as Hbalance
    by (unfold isCurrency; simpl; lia).
  assert (WmWalletRedistribute 100 10 (Success [77]) ∈
            snd (PerformWalletMaintenance 10 bus1000 (New []) 5 [])) as Hin
    by (vm_compute; repeat constructor).
  split; [reflexivity|]. split; [exact Hbalance|]. split; [exact Hin|].
  destruct (redistribution_bounds 10 bus1000 (New []) 5 wallet1000 100 10
              (Success [77]) eq_refl Hbalance ltac:(lia)
              ltac:(simpl; lia) Hin) as (Hone & _ & Hcount & Hpaid).
  split; [exact Hone|]. split; [exact Hcount|exact Hpaid].
Defined.

Lemma second_maintenance_redistributes_again_witness :
  Forall isNumOutputsOption tenToHundred /\
  PerformWalletMaintenance 10 bus1000 (New tenToHundred) 5 [] =
    (Maintained None, New tenToHundred, firstMaintenance) /\
  WmWalletPending (Success [77]) ∈
    drop (length firstMaintenance)
      (snd (PerformWalletMaintenance 10 bus1000 (New tenToHundred) 5
              firstMaintenance)) /\
  exists outputs r,
    last (snd (PerformWalletMaintenance 10 bus1000 (New tenToHundred) 5
                 firstMaintenance)) =
      Some (WmWalletRedistribute outputs 10 r).
Proof.
  assert (Forall isNumOutputsOption tenToHundred) as Hopts
    by (repeat constructor; exists 10, 100; reflexivity).
  assert (PerformWalletMaintenance 10 bus1000 (New tenToHundred) 5 [] =
          (Maintained None, New tenToHundred, firstMaintenance)) as Hfirst
    by (vm_compute; reflexivity).
  assert (WmWalletPending (Success [77]) ∈
            drop (length firstMaintenance)
              (snd (PerformWalletMaintenance 10 bus1000 (New tenToHundred) 5
                      firstMaintenance))) as Hpending
    by (vm_compute; repeat constructor).
  split; [exact Hopts|]. split; [exact Hfirst|]. split; [exact Hpending|].
  exact (proj2 (second_maintenance_redistributes_again 10 bus1000
                  tenToHundred 5 (Maintained None) (New tenToHundred)
                  firstMaintenance wallet1000 [77] Hopts Hfirst eq_refl
                  ltac:(lia) ltac:(lia) Hpending
                  ltac:(vm_compute; discriminate))).
Defined.

